(** * pray-together API server: authentication and domain-error pipeline

    A shallow embedding of the Go packages [logger], [error], [token],
    [middleware], [database], [member] and [auth], and the properties of
    the token manager, the domain-error registry, the JWT middleware and
    the auth / member services.

    Conventions
    - a Go [string] is a [string] of bytes ([len] is [String.length]);
    - a Go [error] value is an [error], the nil error is [None];
    - a function that can panic returns an [option], [None] being the panic;
    - [time.Now()] is an explicit argument, in nanoseconds since the epoch. *)

From Stdlib Require Import ZArith Lia Bool Ascii String List.
From stdpp Require Import base option list strings pretty gmap.

Local Open Scope string_scope.
Local Open Scope Z_scope.

(** ** Package [strings] (the parts the repository calls) *)

Module strings.

(** [strings.Split(s, sep)] for a one-byte separator: the fields between
    the occurrences of [sep]; always at least one field. *)
Fixpoint Split (s : string) (sep : ascii) : list string :=
  match s with
  | EmptyString => [ EmptyString ]
  | String c rest =>
      if Ascii.eqb c sep then EmptyString :: Split rest sep
      else match Split rest sep with
           | [] => [ String c EmptyString ]
           | field :: fields => String c field :: fields
           end
  end.

(** [strings.SplitN(s, sep, 2)]: cut at the first [sep] only. *)
Fixpoint SplitN2 (s : string) (sep : ascii) : list string :=
  match s with
  | EmptyString => [ EmptyString ]
  | String c rest =>
      if Ascii.eqb c sep then [ EmptyString; rest ]
      else match SplitN2 rest sep with
           | [] => [ String c EmptyString ]
           | field :: fields => String c field :: fields
           end
  end.

(** [strings.Count(s, string(c))]. *)
Fixpoint Count (s : string) (c : ascii) : nat :=
  match s with
  | EmptyString => 0%nat
  | String d rest => ((if Ascii.eqb d c then 1 else 0) + Count rest c)%nat
  end.

(** ASCII lower-casing of one byte. *)
Definition lower (c : ascii) : ascii :=
  let n := nat_of_ascii c in
  if ((65 <=? n) && (n <=? 90))%nat then ascii_of_nat (n + 32) else c.

(** [strings.EqualFold(s, t)] where [t] is ASCII letters none of which is
    [k] or [s] (the two letters with non-ASCII simple folds): equality of
    the bytes up to ASCII case. *)
Fixpoint EqualFold (s t : string) : bool :=
  match s, t with
  | EmptyString, EmptyString => true
  | String a s', String b t' => Ascii.eqb (lower a) (lower b) && EqualFold s' t'
  | _, _ => false
  end.

(** The slice expression [s[:hi]]; out of range is a run-time panic. *)
Definition slice_to (s : string) (hi : nat) : option string :=
  if (hi <=? String.length s)%nat then Some (substring 0 hi s) else None.

End strings.

(** ** Package [logger]: masking of e-mail addresses *)

Module logger.

(** [MaskEmail], src/unnamed/part_000. *)
Definition MaskEmail (email : string) : option string :=
  if String.eqb email "" then Some ""
  else
    let parts := strings.Split email "@" in
    match parts with
    | [ username; domain ] =>
        if (String.length username =? 0)%nat then Some ("***@" ++ domain)
        else
          first ← strings.slice_to username 1;
          Some (first ++ "***@" ++ domain)
    | _ => Some "***@***"
    end.

End logger.

(** ** Go error values

    The dynamic types of [error] that occur in this program: [errors.New]
    sentinels (compared by identity; every sentinel used here has its own
    message, which therefore names it), the [*domainSentinel] of package
    [error], [fmt.Errorf] with one [%w] ([*fmt.wrapError]), and errors that
    unwrap to several errors ([fmt.Errorf] with several [%w] and the joined
    errors of the JWT library). *)

#[warnings="-register-all"] Inductive error : Type :=
| errorString (s : string)
| domainSentinel (errInfo : string)
| wrapError (msg : string) (err : error)
| wrapErrors (msg : string) (errs : list error).

Inductive result (A : Type) : Type :=
| Ok (a : A)
| Err (e : error).
Arguments Ok {A} a.
Arguments Err {A} e.

Module errors.

Definition New (text : string) : error := errorString text.

(** The [Error()] method. *)
Definition Error (e : error) : string :=
  match e with
  | errorString s => s
  | domainSentinel errInfo => errInfo
  | wrapError msg _ => msg
  | wrapErrors msg _ => msg
  end.

(** [fmt.Errorf(prefix + "%w", err)]. *)
Definition Errorf (prefix : string) (err : error) : error :=
  wrapError (prefix ++ Error err) err.

(** [err == target] for a package-level sentinel [target]: the same
    sentinel.  A wrapping error is a fresh allocation, never identical to
    a sentinel. *)
Definition same (err target : error) : bool :=
  match err, target with
  | errorString s, errorString t => String.eqb s t
  | domainSentinel s, domainSentinel t => String.eqb s t
  | _, _ => false
  end.

(** [errors.Is(err, target)]: depth-first walk of the tree of wrapped
    errors. *)
Fixpoint Is (err target : error) : bool :=
  same err target ||
  match err with
  | wrapError _ inner => Is inner target
  | wrapErrors _ inners => existsb (fun inner => Is inner target) inners
  | _ => false
  end.

End errors.

(** ** Package [error] (imported as [sharedError]) *)

Module sharedError.

(** [ErrorResponse]; [ErrorResponse{}] is [zero]. *)
Record ErrorResponse : Type := {
  Status : Z;
  Code : string;
  Message : string;
}.

Definition zero : ErrorResponse := {| Status := 0; Code := ""; Message := "" |}.

Definition StatusBadRequest : Z := 400.
Definition StatusUnauthorized : Z := 401.
Definition StatusNotFound : Z := 404.
Definition StatusConflict : Z := 409.
Definition StatusInternalServerError : Z := 500.

Definition ValidationFailed : ErrorResponse :=
  {| Status := StatusBadRequest; Code := "ERROR-001";
     Message := "잘못된 요청입니다." |}.

Definition InvalidRequest : ErrorResponse :=
  {| Status := StatusBadRequest; Code := "ERROR-002";
     Message := "잘못된 요청 형식입니다." |}.

Definition InternalServerError : ErrorResponse :=
  {| Status := StatusInternalServerError; Code := "ERROR-003";
     Message := "서버 내부 오류가 발생했습니다." |}.

Definition NewDomainError (errInfo : string) : error := domainSentinel errInfo.

(** [errors.As(err, &domainErr)] for [domainErr] of interface type
    [DomainError]: the first error of the depth-first walk that has an
    [Info()] method, given by its [Info()]. *)
Fixpoint As_DomainError (err : error) : option string :=
  match err with
  | errorString _ => None
  | domainSentinel errInfo => Some errInfo
  | wrapError _ inner => As_DomainError inner
  | wrapErrors _ inners =>
      (fix first (es : list error) : option string :=
         match es with
         | [] => None
         | e :: es' =>
             match As_DomainError e with
             | Some errInfo => Some errInfo
             | None => first es'
             end
         end) inners
  end.

(** The package variable [domainErrorResponses] is threaded explicitly. *)
Definition RegisterDomainErrorResponse
    (errInfo : string) (resp : ErrorResponse)
    (domainErrorResponses : gmap string ErrorResponse) : gmap string ErrorResponse :=
  <[ errInfo := resp ]> domainErrorResponses.

Definition ResolveDomainError
    (domainErrorResponses : gmap string ErrorResponse)
    (err : option error) : ErrorResponse * bool :=
  match err with
  | None => (zero, false)
  | Some e =>
      match As_DomainError e with
      | Some info =>
          match domainErrorResponses !! info with
          | Some resp => (resp, true)
          | None => (zero, false)
          end
      | None => (zero, false)
      end
  end.

End sharedError.

(** ** Package [time] *)

Module time.

(** A [time.Time] is its number of nanoseconds since the Unix epoch, a
    [time.Duration] a number of nanoseconds. *)
Definition Time : Type := Z.
Definition Duration : Type := Z.

Definition Second : Duration := 1000000000.
Definition Hour : Duration := 3600 * Second.

Definition Add (t : Time) (d : Duration) : Time := t + d.
Definition Unix (t : Time) : Z := t / Second.
Definition Before (t u : Time) : bool := t <? u.

End time.

(** ** Package [unicode/utf8], as far as [encoding/json] and the token
    payload need it *)

Module utf8.

(** The table [first] with [acceptRanges]: for the first byte of an
    encoding, its size and the range of its second byte; [None] for a byte
    that starts no encoding. *)
Definition first (b : N) : option (nat * N * N) :=
  if (b <? 128)%N then Some (1%nat, 0, 255)%N
  else if (b <? 194)%N then None
  else if (b <? 224)%N then Some (2%nat, 128, 191)%N
  else if (b =? 224)%N then Some (3%nat, 160, 191)%N
  else if (b <? 237)%N then Some (3%nat, 128, 191)%N
  else if (b =? 237)%N then Some (3%nat, 128, 159)%N
  else if (b <? 240)%N then Some (3%nat, 128, 191)%N
  else if (b =? 240)%N then Some (4%nat, 144, 191)%N
  else if (b <? 244)%N then Some (4%nat, 128, 191)%N
  else if (b =? 244)%N then Some (4%nat, 128, 143)%N
  else None.

Definition within (lo hi : N) (c : ascii) : bool :=
  (lo <=? N_of_ascii c)%N && (N_of_ascii c <=? hi)%N.

(** A continuation byte, [locb] to [hicb]. *)
Definition continuation (c : ascii) : bool := within 128 191 c.

(** The size that [DecodeRuneInString] returns with the rune at the head
    of [s]; [None] when it returns [RuneError] for an empty string or an
    invalid encoding (with size 0 or 1). *)
Definition DecodeRuneInString (s : string) : option nat :=
  match s with
  | EmptyString => None
  | String s0 rest =>
      match first (N_of_ascii s0) with
      | None => None
      | Some (sz, lo, hi) =>
          match sz, rest with
          | 1%nat, _ => Some 1%nat
          | 2%nat, String s1 _ => if within lo hi s1 then Some 2%nat else None
          | 3%nat, String s1 (String s2 _) =>
              if within lo hi s1 && continuation s2 then Some 3%nat else None
          | 4%nat, String s1 (String s2 (String s3 _)) =>
              if within lo hi s1 && continuation s2 && continuation s3 then Some 4%nat
              else None
          | _, _ => None
          end
      end
  end.

(** [ValidString]; [pending] counts the bytes still to pass of the
    encoding that was decoded last. *)
Fixpoint valid_from (pending : nat) (s : string) : bool :=
  match s with
  | EmptyString => true
  | String _ rest =>
      match pending with
      | S k => valid_from k rest
      | O =>
          match DecodeRuneInString s with
          | Some sz => valid_from (sz - 1) rest
          | None => false
          end
      end
  end.

Definition ValidString (s : string) : bool := valid_from 0 s.

End utf8.

(** ** Package [encoding/json], as far as struct fields are concerned

    A JSON object is kept as its list of members.  What [Marshal] writes
    and what [Unmarshal] reads of a struct is decided by the struct's
    fields, embedded structs included: of several fields with one JSON name
    the least nested hides the others, and a name with no unique least
    nested field is dropped (all fields below carry a [json] tag).  Member
    names are matched exactly.

    A string value is kept as the Go string that the decoder makes of its
    text.  [Marshal] writes strings coerced to valid UTF-8; the text itself
    is not modelled: the class [Text] stands for the writing of an object
    as text and the reading of a text. *)

Module json.

Inductive Value : Type :=
| Null
| Number (n : Z)
| Str (s : string)
| Strs (l : list string)
| Other.

Definition Object : Type := list (string * Value).

(** U+FFFD, the replacement character. *)
Definition replacement : string := String "239" (String "191" (String "189" EmptyString)).

(** What [appendString] makes of a string, read back: every byte that
    starts no valid encoding is replaced by U+FFFD; the escapes it writes
    for the other bytes are read back as those bytes.  [pending] counts
    the bytes still to pass of the encoding that was decoded last. *)
Fixpoint coerce_from (pending : nat) (s : string) : string :=
  match s with
  | EmptyString => EmptyString
  | String c rest =>
      match pending with
      | S k => String c (coerce_from k rest)
      | O =>
          match utf8.DecodeRuneInString s with
          | Some sz => String c (coerce_from (sz - 1) rest)
          | None => replacement ++ coerce_from 0 rest
          end
      end
  end.

Definition coerce (s : string) : string := coerce_from 0 s.

(** A value as [Marshal] writes it. *)
Definition written (v : Value) : Value :=
  match v with
  | Str s => Str (coerce s)
  | Strs l => Strs (map coerce l)
  | _ => v
  end.

(** The text of a JSON object: what the encoder writes for it, and what
    the decoder reads from a text ([None] for a text it rejects). *)
Class Text : Type := {
  text : Object -> string;
  parse : string -> option Object;
}.

(** The value of the member [k] of an object read into a map: that of its
    last occurrence. *)
Fixpoint member (k : string) (o : Object) : option Value :=
  match o with
  | [] => None
  | (k', v) :: o' =>
      match member k o' with
      | Some v' => Some v'
      | None => if String.eqb k' k then Some v else None
      end
  end.

Record field (R : Type) : Type := {
  name : string;
  depth : nat;
  omitempty : bool;
  target : R;
}.
Arguments name {R} _.
Arguments depth {R} _.
Arguments omitempty {R} _.
Arguments target {R} _.

Section Fields.
Context {R C : Type}.
Variable fields : list (field R).
Variable get : R -> C -> Value.
Variable set : R -> Value -> C -> option C.

Definition named (n : string) : list (field R) :=
  filter (fun f => String.eqb (name f) n = true) fields.

Definition least_depth (fs : list (field R)) : nat :=
  match fs with
  | [] => 0%nat
  | f :: fs' => fold_right (fun g d => Nat.min (depth g) d) (depth f) fs'
  end.

(** The field that the JSON name [n] denotes, if any. *)
Definition dominant (n : string) : option (field R) :=
  let fs := named n in
  match filter (fun f => (depth f =? least_depth fs)%nat = true) fs with
  | [ f ] => Some f
  | _ => None
  end.

Definition is_dominant (f : field R) : bool :=
  match dominant (name f) with
  | Some g => (depth g =? depth f)%nat
  | None => false
  end.

(** The zero values that [omitempty] leaves out. *)
Definition is_empty (v : Value) : bool :=
  match v with
  | Null | Number 0 | Str EmptyString | Strs [] => true
  | _ => false
  end.

Definition Marshal (c : C) : Object :=
  flat_map
    (fun f =>
       let v := get (target f) c in
       if is_dominant f && negb (omitempty f && is_empty v)
       then [ (name f, written v) ] else [])
    fields.

(** Members are stored in the order in which they appear; a member
    naming no field is skipped; a value of the wrong type is an
    error. *)
Fixpoint Unmarshal (o : Object) (c : C) : option C :=
  match o with
  | [] => Some c
  | (k, v) :: o' =>
      match dominant k with
      | None => Unmarshal o' c
      | Some f => c' ← set (target f) v c; Unmarshal o' c'
      end
  end.

End Fields.

Definition MinInt64 : Z := - 2 ^ 63.
Definition MaxInt64 : Z := 2 ^ 63 - 1.

Definition as_string (v : Value) (old : string) : option string :=
  match v with
  | Str s => Some s
  | Null => Some old
  | _ => None
  end.

Definition as_int64 (v : Value) (old : Z) : option Z :=
  match v with
  | Number n => if (MinInt64 <=? n) && (n <=? MaxInt64) then Some n else None
  | Null => Some old
  | _ => None
  end.

End json.

(** ** Package [encoding/base64]: [RawURLEncoding]

    The encoding of the segments of a compact serialization: the URL
    alphabet, no padding.  The decoder is the default one, not strict: it
    skips line breaks and does not look at the bits of the last character
    that no byte takes up. *)

Module base64.

Definition encodeURL : string :=
  "ABCDEFGHIJKLMNOPQRSTUVWXYZabcdefghijklmnopqrstuvwxyz0123456789-_".

(** [enc.encode[i]], for an index below 64. *)
Definition encode (i : N) : ascii :=
  match String.get (N.to_nat i) encodeURL with
  | Some c => c
  | None => "A"%char
  end.

Fixpoint index_of (c : ascii) (alphabet : string) (i : N) : option N :=
  match alphabet with
  | EmptyString => None
  | String d rest => if Ascii.eqb c d then Some i else index_of c rest (i + 1)%N
  end.

(** [enc.decodeMap[c]]; [None] is the entry [0xFF] of a byte outside the
    alphabet. *)
Definition decodeMap (c : ascii) : option N := index_of c encodeURL 0.

(** The conversion [byte(n)]. *)
Definition byte (n : N) : ascii := ascii_of_N (N.land n 255).

Definition index (val shift : N) : N := N.land (N.shiftr val shift) 63.

(** [RawURLEncoding.EncodeToString]: no padding. *)
Fixpoint EncodeToString (src : string) : string :=
  match src with
  | EmptyString => EmptyString
  | String s0 EmptyString =>
      let val := N.shiftl (N_of_ascii s0) 16 in
      String (encode (index val 18)) (String (encode (index val 12)) EmptyString)
  | String s0 (String s1 EmptyString) =>
      let val := N.lor (N.shiftl (N_of_ascii s0) 16) (N.shiftl (N_of_ascii s1) 8) in
      String (encode (index val 18))
        (String (encode (index val 12)) (String (encode (index val 6)) EmptyString))
  | String s0 (String s1 (String s2 rest)) =>
      let val :=
        N.lor (N.lor (N.shiftl (N_of_ascii s0) 16) (N.shiftl (N_of_ascii s1) 8))
          (N_of_ascii s2) in
      String (encode (index val 18))
        (String (encode (index val 12))
           (String (encode (index val 6))
              (String (encode (index val 0)) (EncodeToString rest))))
  end.

Definition newline (c : ascii) : bool := Ascii.eqb c "010" || Ascii.eqb c "013".

Fixpoint without_newlines (s : string) : string :=
  match s with
  | EmptyString => EmptyString
  | String c rest =>
      if newline c then without_newlines rest else String c (without_newlines rest)
  end.

(** The value of a quantum of four sextets. *)
Definition quantum (d0 d1 d2 d3 : N) : N :=
  N.lor (N.lor (N.lor (N.shiftl d0 18) (N.shiftl d1 12)) (N.shiftl d2 6)) d3.

Fixpoint decode (src : string) : option string :=
  match src with
  | EmptyString => Some EmptyString
  | String c0 EmptyString => None
  | String c0 (String c1 EmptyString) =>
      d0 ← decodeMap c0; d1 ← decodeMap c1;
      let val := quantum d0 d1 0 0 in
      Some (String (byte (N.shiftr val 16)) EmptyString)
  | String c0 (String c1 (String c2 EmptyString)) =>
      d0 ← decodeMap c0; d1 ← decodeMap c1; d2 ← decodeMap c2;
      let val := quantum d0 d1 d2 0 in
      Some (String (byte (N.shiftr val 16)) (String (byte (N.shiftr val 8)) EmptyString))
  | String c0 (String c1 (String c2 (String c3 rest))) =>
      d0 ← decodeMap c0; d1 ← decodeMap c1; d2 ← decodeMap c2; d3 ← decodeMap c3;
      let val := quantum d0 d1 d2 d3 in
      tail ← decode rest;
      Some (String (byte (N.shiftr val 16))
              (String (byte (N.shiftr val 8)) (String (byte (N.shiftr val 0)) tail)))
  end.

(** [RawURLEncoding.DecodeString], not strict. *)
Definition DecodeString (s : string) : option string := decode (without_newlines s).

End base64.

(** ** The JWT library, [github.com/golang-jwt/jwt/v5]

    The library is not part of the repository; this is the behaviour of the
    entry points the repository calls ([NewWithClaims], [SignedString],
    [NewParser(WithValidMethods(..))], [ParseWithClaims]) with the options
    it passes.

    A compact serialization is kept as what its three segments decode to;
    [serialize] is its string and [split] the decoding of a string, with
    the JSON text of the first two segments left to [json.Text].  The keyed
    hash is a parameter; nothing is assumed of it. *)

Module jwt.

(** A [*NumericDate] is a number of seconds since the epoch ([nil] is
    [None]); [NewNumericDate] truncates to the second. *)
Definition NumericDate : Type := Z.
Definition NewNumericDate (t : time.Time) : option NumericDate := Some (time.Unix t).
Definition Time_of (d : NumericDate) : time.Time := d * time.Second.

Record RegisteredClaims : Type := {
  Issuer : string;                    (* json:"iss,omitempty" *)
  Subject : string;                   (* json:"sub,omitempty" *)
  Audience : list string;             (* json:"aud,omitempty" *)
  ExpiresAt : option NumericDate;     (* json:"exp,omitempty" *)
  NotBefore : option NumericDate;     (* json:"nbf,omitempty" *)
  IssuedAt : option NumericDate;      (* json:"iat,omitempty" *)
  ID : string;                        (* json:"jti,omitempty" *)
}.

Definition RegisteredClaims_zero : RegisteredClaims :=
  {| Issuer := ""; Subject := ""; Audience := []; ExpiresAt := None;
     NotBefore := None; IssuedAt := None; ID := "" |}.

(** The interface [Claims] (the getters the default validator uses) and
    the JSON decoding of a claims type. *)
Class Claims (C : Type) : Type := {
  GetExpirationTime : C -> option NumericDate;
  GetNotBefore : C -> option NumericDate;
  GetIssuedAt : C -> option NumericDate;
  GetIssuer : C -> string;
  GetSubject : C -> string;
  GetAudience : C -> list string;
  MarshalJSON : C -> json.Object;
  UnmarshalJSON : json.Object -> C -> option C;
}.

Definition ErrTokenMalformed : error := errors.New "token is malformed".
Definition ErrTokenUnverifiable : error := errors.New "token is unverifiable".
Definition ErrTokenSignatureInvalid : error := errors.New "token signature is invalid".
Definition ErrTokenExpired : error := errors.New "token is expired".
Definition ErrTokenNotValidYet : error := errors.New "token is not valid yet".
Definition ErrTokenInvalidClaims : error := errors.New "token has invalid claims".
Definition ErrSignatureInvalid : error := errors.New "signature is invalid".

(** [newError(message, err, more...)]: [fmt.Errorf] with one [%w] for
    [err] and one for each of [more]. *)
Definition newError (message : string) (err : error) (more : list error) : error :=
  wrapErrors
    (errors.Error err
       ++ (if String.eqb message "" then "" else ": " ++ message)
       ++ String.concat "" (map (fun e => ": " ++ errors.Error e) more))
    (err :: more).

(** [joinErrors]; the message joins those of [errs]. *)
Definition joinErrors (errs : list error) : error :=
  wrapErrors (String.concat ", " (map errors.Error errs)) errs.

(** The decoded segments of a compact serialization. *)
Inductive HeaderSegment : Type :=
| BadHeader                       (* not base64url of a JSON object *)
| Header (alg : option string).   (* its "alg" member, when a string *)

Inductive ClaimsSegment : Type :=
| BadClaims                       (* not base64url of a JSON object *)
| ClaimsObject (o : json.Object).

Inductive SignatureSegment : Type :=
| BadSignature                    (* not base64url *)
| Signature (sig : string).

Inductive TokenString : Type :=
| NotThreeSegments (raw : string)
| Compact (h : HeaderSegment) (c : ClaimsSegment) (s : SignatureSegment).

(** Splitting a string at its dots and decoding the three segments. *)
Class Decoder : Type := segments : string -> TokenString.

(** HMAC-SHA256 of the signing string (the first two segments). *)
Class MAC : Type := HMAC_SHA256 : string -> HeaderSegment * ClaimsSegment -> string.

Definition HS256 : string := "HS256".

(** The names [GetSigningMethod] knows. *)
Definition registered_methods : list string :=
  [ "HS256"; "HS384"; "HS512"; "RS256"; "RS384"; "RS512"; "ES256"; "ES384";
    "ES512"; "PS256"; "PS384"; "PS512"; "EdDSA"; "none" ].

Definition mem (s : string) (l : list string) : bool :=
  existsb (String.eqb s) l.

(** A pointer of interface type [Claims]: of dynamic type [*C], the type
    the caller handed to the parser, or of another type. *)
Inductive ClaimsValue (C : Type) : Type :=
| Ptr (c : C)
| OtherType.
Arguments Ptr {C} c.
Arguments OtherType {C}.

Record Token (C : Type) : Type := {
  Method : string;
  TokenClaims : ClaimsValue C;
  Valid : bool;
}.
Arguments Method {C} _.
Arguments TokenClaims {C} _.
Arguments Valid {C} _.

Section Library.
Context {mac : MAC} {C : Type} {claimsC : Claims C}.

(** [NewWithClaims(SigningMethodHS256, claims).SignedString(key)] for a
    [[]byte] key; signing with HMAC has no failure of its own. *)
Definition SignedString (claims : C) (key : string) : result TokenString :=
  let h := Header (Some HS256) in
  let c := ClaimsObject (MarshalJSON claims) in
  Ok (Compact h c (Signature (HMAC_SHA256 key (h, c)))).

(** [SigningMethodHMAC.Verify]. *)
Definition Verify (signing : HeaderSegment * ClaimsSegment)
    (sig key : string) : option error :=
  if String.eqb sig (HMAC_SHA256 key signing) then None
  else Some ErrSignatureInvalid.

(** [Validator.Validate] with the default options: the expiry and the
    not-before time are checked when the claims have them, nothing is
    required, nothing else is compared. *)
Definition verifyExpiresAt (claims : C) (now : time.Time) : list error :=
  match GetExpirationTime claims with
  | None => []
  | Some exp => if time.Before now (Time_of exp) then [] else [ ErrTokenExpired ]
  end.

Definition verifyNotBefore (claims : C) (now : time.Time) : list error :=
  match GetNotBefore claims with
  | None => []
  | Some nbf => if time.Before now (Time_of nbf) then [ ErrTokenNotValidYet ] else []
  end.

Definition Validate (claims : C) (now : time.Time) : option error :=
  match (verifyExpiresAt claims now ++ verifyNotBefore claims now)%list with
  | [] => None
  | errs => Some (joinErrors errs)
  end.

(** [Parser.ParseWithClaims(tokenString, claims, keyFunc)] of a parser
    made with [WithValidMethods(validMethods)], for a key function that
    returns [key]; [now] is the parser's reading of the clock. *)
Definition ParseWithClaims (validMethods : list string) (now : time.Time)
    (tokenString : TokenString) (claims : C) (key : string) : result (Token C) :=
  match tokenString with
  | NotThreeSegments _ =>
      Err (newError "token contains an invalid number of segments" ErrTokenMalformed [])
  | Compact BadHeader _ _ =>
      Err (newError "could not base64 decode header" ErrTokenMalformed [])
  | Compact (Header alg) c s =>
      match (match c with
             | BadClaims => None
             | ClaimsObject o => UnmarshalJSON o claims
             end) with
      | None => Err (newError "could not JSON decode claim" ErrTokenMalformed [])
      | Some decoded =>
          match alg with
          | None => Err (newError "signing method (alg) is unspecified" ErrTokenUnverifiable [])
          | Some a =>
              if negb (mem a registered_methods)
              then Err (newError "signing method (alg) is unavailable" ErrTokenUnverifiable [])
              else if negb (mem a validMethods)
              then Err (newError "signing method is invalid" ErrTokenSignatureInvalid [])
              else
                match s with
                | BadSignature =>
                    Err (newError "could not base64 decode signature" ErrTokenMalformed [])
                | Signature sig =>
                    match Verify (Header alg, c) sig key with
                    | Some e => Err (newError "" ErrTokenSignatureInvalid [ e ])
                    | None =>
                        match Validate decoded now with
                        | Some e => Err (newError "" ErrTokenInvalidClaims [ e ])
                        | None =>
                            Ok {| Method := a; TokenClaims := Ptr decoded; Valid := true |}
                        end
                    end
                end
          end
      end
  end.

End Library.

Section Serialization.
Context {text : json.Text}.

(** [Token.EncodeSegment] and [Parser.DecodeSegment] with the default
    options (no padding allowed, not strict). *)
Definition EncodeSegment (seg : string) : string := base64.EncodeToString seg.
Definition DecodeSegment (seg : string) : option string := base64.DecodeString seg.

(** The header that [NewWithClaims] builds. *)
Definition header_object (alg : string) : json.Object :=
  [ ("alg", json.Str alg); ("typ", json.Str "JWT") ].

(** The string of a compact serialization that [SignedString] builds. *)
Definition serialize (t : TokenString) : option string :=
  match t with
  | Compact (Header (Some alg)) (ClaimsObject o) (Signature sig) =>
      Some (EncodeSegment (json.text (header_object alg)) ++ "." ++
            EncodeSegment (json.text o) ++ "." ++ EncodeSegment sig)
  | _ => None
  end.

Definition decode_header (seg : string) : HeaderSegment :=
  match DecodeSegment seg ≫= json.parse with
  | Some o =>
      Header (match json.member "alg" o with
              | Some (json.Str alg) => Some alg
              | _ => None
              end)
  | None => BadHeader
  end.

Definition decode_claims (seg : string) : ClaimsSegment :=
  match DecodeSegment seg ≫= json.parse with
  | Some o => ClaimsObject o
  | None => BadClaims
  end.

Definition decode_signature (seg : string) : SignatureSegment :=
  match DecodeSegment seg with
  | Some sig => Signature sig
  | None => BadSignature
  end.

(** The parser's reading of a string: cut at the dots, three segments
    decoded. *)
Definition split (tokenString : string) : TokenString :=
  match strings.Split tokenString "." with
  | [ h; c; s ] => Compact (decode_header h) (decode_claims c) (decode_signature s)
  | _ => NotThreeSegments tokenString
  end.

End Serialization.

End jwt.

(** ** Package [config] (the fields read by the code below) *)

Module config.

Record AppConfig : Type := { Name : string; Env : string; Port : Z }.

Record JWTConfig : Type := {
  Secret : string;
  Expiry : time.Duration;
  RefreshExpiry : time.Duration;
}.

Record Config : Type := { App : AppConfig; JWT : JWTConfig }.

End config.

(** ** Package [token], src/unnamed/part_006 *)

Module token.

Definition ErrInvalidToken : error := errors.New "token: invalid token".
Definition ErrExpiredToken : error := errors.New "token: expired token".
Definition ErrInvalidClaims : error := errors.New "token: invalid claims".

Definition ACCESS : string := "access".
Definition REFRESH : string := "refresh".

(** The struct [Claims]: five fields of its own and the embedded
    [jwt.RegisteredClaims]. *)
Record Claims : Type := {
  MemberID : string;      (* json:"member_id" *)
  Email : string;         (* json:"email" *)
  TokenType : string;     (* json:"token_type" *)
  ExpiresAt : Z;          (* json:"exp", int64 *)
  IssuedAt : Z;           (* json:"iat", int64 *)
  RegisteredClaims : jwt.RegisteredClaims;
}.

(** [Claims{}]. *)
Definition Claims_zero : Claims :=
  {| MemberID := ""; Email := ""; TokenType := ""; ExpiresAt := 0; IssuedAt := 0;
     RegisteredClaims := jwt.RegisteredClaims_zero |}.

(** The fields of [Claims] as [encoding/json] finds them: its own at depth
    0, those of the embedded struct at depth 1, each with its tag. *)
Inductive FieldRef : Type :=
| fMemberID | fEmail | fTokenType | fExpiresAt | fIssuedAt
| fIssuer | fSubject | fAudience | fRegisteredExpiresAt | fNotBefore
| fRegisteredIssuedAt | fID.

Definition Claims_fields : list (json.field FieldRef) :=
  [ {| json.name := "member_id"; json.depth := 0; json.omitempty := false; json.target := fMemberID |};
    {| json.name := "email"; json.depth := 0; json.omitempty := false; json.target := fEmail |};
    {| json.name := "token_type"; json.depth := 0; json.omitempty := false; json.target := fTokenType |};
    {| json.name := "exp"; json.depth := 0; json.omitempty := false; json.target := fExpiresAt |};
    {| json.name := "iat"; json.depth := 0; json.omitempty := false; json.target := fIssuedAt |};
    {| json.name := "iss"; json.depth := 1; json.omitempty := true; json.target := fIssuer |};
    {| json.name := "sub"; json.depth := 1; json.omitempty := true; json.target := fSubject |};
    {| json.name := "aud"; json.depth := 1; json.omitempty := true; json.target := fAudience |};
    {| json.name := "exp"; json.depth := 1; json.omitempty := true; json.target := fRegisteredExpiresAt |};
    {| json.name := "nbf"; json.depth := 1; json.omitempty := true; json.target := fNotBefore |};
    {| json.name := "iat"; json.depth := 1; json.omitempty := true; json.target := fRegisteredIssuedAt |};
    {| json.name := "jti"; json.depth := 1; json.omitempty := true; json.target := fID |} ].

Definition of_date (d : option jwt.NumericDate) : json.Value :=
  match d with
  | Some n => json.Number n
  | None => json.Null
  end.

Definition as_date (v : json.Value) : option (option jwt.NumericDate) :=
  match v with
  | json.Number n => Some (Some n)
  | json.Null => Some None
  | _ => None
  end.

Definition as_strings (v : json.Value) (old : list string) : option (list string) :=
  match v with
  | json.Str s => Some [ s ]
  | json.Strs l => Some l
  | json.Null => Some old
  | _ => None
  end.

Definition get_field (r : FieldRef) (c : Claims) : json.Value :=
  let rc := RegisteredClaims c in
  match r with
  | fMemberID => json.Str (MemberID c)
  | fEmail => json.Str (Email c)
  | fTokenType => json.Str (TokenType c)
  | fExpiresAt => json.Number (ExpiresAt c)
  | fIssuedAt => json.Number (IssuedAt c)
  | fIssuer => json.Str (jwt.Issuer rc)
  | fSubject => json.Str (jwt.Subject rc)
  | fAudience => json.Strs (jwt.Audience rc)
  | fRegisteredExpiresAt => of_date (jwt.ExpiresAt rc)
  | fNotBefore => of_date (jwt.NotBefore rc)
  | fRegisteredIssuedAt => of_date (jwt.IssuedAt rc)
  | fID => json.Str (jwt.ID rc)
  end.

Definition with_registered (c : Claims) (rc : jwt.RegisteredClaims) : Claims :=
  {| MemberID := MemberID c; Email := Email c; TokenType := TokenType c;
     ExpiresAt := ExpiresAt c; IssuedAt := IssuedAt c; RegisteredClaims := rc |}.

Definition set_field (r : FieldRef) (v : json.Value) (c : Claims) : option Claims :=
  let rc := RegisteredClaims c in
  match r with
  | fMemberID =>
      s ← json.as_string v (MemberID c);
      Some {| MemberID := s; Email := Email c; TokenType := TokenType c;
              ExpiresAt := ExpiresAt c; IssuedAt := IssuedAt c; RegisteredClaims := rc |}
  | fEmail =>
      s ← json.as_string v (Email c);
      Some {| MemberID := MemberID c; Email := s; TokenType := TokenType c;
              ExpiresAt := ExpiresAt c; IssuedAt := IssuedAt c; RegisteredClaims := rc |}
  | fTokenType =>
      s ← json.as_string v (TokenType c);
      Some {| MemberID := MemberID c; Email := Email c; TokenType := s;
              ExpiresAt := ExpiresAt c; IssuedAt := IssuedAt c; RegisteredClaims := rc |}
  | fExpiresAt =>
      n ← json.as_int64 v (ExpiresAt c);
      Some {| MemberID := MemberID c; Email := Email c; TokenType := TokenType c;
              ExpiresAt := n; IssuedAt := IssuedAt c; RegisteredClaims := rc |}
  | fIssuedAt =>
      n ← json.as_int64 v (IssuedAt c);
      Some {| MemberID := MemberID c; Email := Email c; TokenType := TokenType c;
              ExpiresAt := ExpiresAt c; IssuedAt := n; RegisteredClaims := rc |}
  | fIssuer =>
      s ← json.as_string v (jwt.Issuer rc);
      Some (with_registered c
              {| jwt.Issuer := s; jwt.Subject := jwt.Subject rc; jwt.Audience := jwt.Audience rc;
                 jwt.ExpiresAt := jwt.ExpiresAt rc; jwt.NotBefore := jwt.NotBefore rc;
                 jwt.IssuedAt := jwt.IssuedAt rc; jwt.ID := jwt.ID rc |})
  | fSubject =>
      s ← json.as_string v (jwt.Subject rc);
      Some (with_registered c
              {| jwt.Issuer := jwt.Issuer rc; jwt.Subject := s; jwt.Audience := jwt.Audience rc;
                 jwt.ExpiresAt := jwt.ExpiresAt rc; jwt.NotBefore := jwt.NotBefore rc;
                 jwt.IssuedAt := jwt.IssuedAt rc; jwt.ID := jwt.ID rc |})
  | fAudience =>
      l ← as_strings v (jwt.Audience rc);
      Some (with_registered c
              {| jwt.Issuer := jwt.Issuer rc; jwt.Subject := jwt.Subject rc; jwt.Audience := l;
                 jwt.ExpiresAt := jwt.ExpiresAt rc; jwt.NotBefore := jwt.NotBefore rc;
                 jwt.IssuedAt := jwt.IssuedAt rc; jwt.ID := jwt.ID rc |})
  | fRegisteredExpiresAt =>
      d ← as_date v;
      Some (with_registered c
              {| jwt.Issuer := jwt.Issuer rc; jwt.Subject := jwt.Subject rc;
                 jwt.Audience := jwt.Audience rc; jwt.ExpiresAt := d;
                 jwt.NotBefore := jwt.NotBefore rc; jwt.IssuedAt := jwt.IssuedAt rc;
                 jwt.ID := jwt.ID rc |})
  | fNotBefore =>
      d ← as_date v;
      Some (with_registered c
              {| jwt.Issuer := jwt.Issuer rc; jwt.Subject := jwt.Subject rc;
                 jwt.Audience := jwt.Audience rc; jwt.ExpiresAt := jwt.ExpiresAt rc;
                 jwt.NotBefore := d; jwt.IssuedAt := jwt.IssuedAt rc; jwt.ID := jwt.ID rc |})
  | fRegisteredIssuedAt =>
      d ← as_date v;
      Some (with_registered c
              {| jwt.Issuer := jwt.Issuer rc; jwt.Subject := jwt.Subject rc;
                 jwt.Audience := jwt.Audience rc; jwt.ExpiresAt := jwt.ExpiresAt rc;
                 jwt.NotBefore := jwt.NotBefore rc; jwt.IssuedAt := d; jwt.ID := jwt.ID rc |})
  | fID =>
      s ← json.as_string v (jwt.ID rc);
      Some (with_registered c
              {| jwt.Issuer := jwt.Issuer rc; jwt.Subject := jwt.Subject rc;
                 jwt.Audience := jwt.Audience rc; jwt.ExpiresAt := jwt.ExpiresAt rc;
                 jwt.NotBefore := jwt.NotBefore rc; jwt.IssuedAt := jwt.IssuedAt rc; jwt.ID := s |})
  end.

(** [Claims] implements [jwt.Claims] through the methods promoted from the
    embedded [RegisteredClaims]: each getter reads the embedded struct. *)
#[global] Instance Claims_jwt_Claims : jwt.Claims Claims := {|
  jwt.GetExpirationTime c := jwt.ExpiresAt (RegisteredClaims c);
  jwt.GetNotBefore c := jwt.NotBefore (RegisteredClaims c);
  jwt.GetIssuedAt c := jwt.IssuedAt (RegisteredClaims c);
  jwt.GetIssuer c := jwt.Issuer (RegisteredClaims c);
  jwt.GetSubject c := jwt.Subject (RegisteredClaims c);
  jwt.GetAudience c := jwt.Audience (RegisteredClaims c);
  jwt.MarshalJSON := json.Marshal Claims_fields get_field;
  jwt.UnmarshalJSON := json.Unmarshal Claims_fields set_field;
|}.

Record JWTManager : Type := {
  secret : string;
  issuer : string;
  accessExpiry : time.Duration;
  refreshExpiry : time.Duration;
}.

(** The claims that [GenerateAccessToken] builds at time [now]. *)
Definition access_claims (m : JWTManager) (now : time.Time) (memberID email : string) : Claims :=
  let expiresAt := time.Add now (accessExpiry m) in
  {| MemberID := memberID;
     Email := email;
     ExpiresAt := time.Unix expiresAt;
     TokenType := ACCESS;
     IssuedAt := time.Unix now;
     RegisteredClaims :=
       {| jwt.ExpiresAt := jwt.NewNumericDate expiresAt;
          jwt.IssuedAt := jwt.NewNumericDate now;
          jwt.Issuer := issuer m;
          jwt.Subject := ""; jwt.Audience := []; jwt.NotBefore := None; jwt.ID := "" |} |}.

(** The claims that [GenerateRefreshToken] builds at time [now]. *)
Definition refresh_claims (m : JWTManager) (now : time.Time) (memberID email : string) : Claims :=
  let expiresAt := time.Add now (refreshExpiry m) in
  {| MemberID := memberID;
     Email := email;
     TokenType := REFRESH;
     ExpiresAt := time.Unix expiresAt;
     IssuedAt := time.Unix now;
     RegisteredClaims :=
       {| jwt.Subject := memberID;
          jwt.ExpiresAt := jwt.NewNumericDate expiresAt;
          jwt.IssuedAt := jwt.NewNumericDate now;
          jwt.Issuer := issuer m;
          jwt.Audience := []; jwt.NotBefore := None; jwt.ID := "" |} |}.

Definition NewJWTManager (cfg : config.Config) : JWTManager :=
  {| secret := config.Secret (config.JWT cfg);
     issuer := config.Name (config.App cfg);
     accessExpiry := config.Expiry (config.JWT cfg);
     refreshExpiry := config.RefreshExpiry (config.JWT cfg) |}.

Section Manager.
Context {mac : jwt.MAC}.

(** The tokens are kept as their segments; the string that the Go
    function returns for them is [jwt.serialize], and [jwt.split] is the
    reading of a string that [ValidateToken] begins with. *)
Definition GenerateAccessToken (m : JWTManager) (now : time.Time)
    (memberID email : string) : result jwt.TokenString :=
  jwt.SignedString (access_claims m now memberID email) (secret m).

Definition GenerateRefreshToken (m : JWTManager) (now : time.Time)
    (memberID email : string) : result jwt.TokenString :=
  jwt.SignedString (refresh_claims m now memberID email) (secret m).

Definition ValidateToken (m : JWTManager) (now : time.Time)
    (tokenString : jwt.TokenString) : result Claims :=
  match jwt.ParseWithClaims [ jwt.HS256 ] now tokenString Claims_zero (secret m) with
  | Err err =>
      if errors.Is err jwt.ErrTokenExpired then Err ErrExpiredToken
      else Err ErrInvalidToken
  | Ok token =>
      match jwt.TokenClaims token with
      | jwt.OtherType => Err ErrInvalidClaims
      | jwt.Ptr claims =>
          if negb (jwt.Valid token) then Err ErrInvalidToken
          else Ok claims
      end
  end.

(** The interface [Manager]; [time.Now()] is the first argument of each
    method. *)
Record Manager : Type := {
  Manager_GenerateAccessToken : time.Time -> string -> string -> result jwt.TokenString;
  Manager_GenerateRefreshToken : time.Time -> string -> string -> result jwt.TokenString;
  Manager_ValidateToken : time.Time -> jwt.TokenString -> result Claims;
}.

(** [*JWTManager] implements [Manager]. *)
Definition JWTManager_Manager (m : JWTManager) : Manager :=
  {| Manager_GenerateAccessToken := GenerateAccessToken m;
     Manager_GenerateRefreshToken := GenerateRefreshToken m;
     Manager_ValidateToken := ValidateToken m |}.

End Manager.

End token.

(** ** Package [model] *)

Module model.

Record BaseEntity : Type := {
  CreatedAt : time.Time;
  UpdatedAt : time.Time;
  CreatedBy : option Z;
  UpdatedBy : option Z;
}.

(** [Member]; [ID] is a [uint32]. *)
Record Member : Type := {
  ID : N;
  Email : string;
  Name : string;
  PhoneNumber : string;
  Password : string;
  Base : BaseEntity;
}.

Definition BaseEntity_zero : BaseEntity :=
  {| CreatedAt := 0; UpdatedAt := 0; CreatedBy := None; UpdatedBy := None |}.

Definition NewMember (name email phoneNumber password : string) : Member :=
  {| ID := 0; Name := name; Email := email; PhoneNumber := phoneNumber;
     Password := password; Base := BaseEntity_zero |}.

End model.

(** ** The execution environment

    The services run against the database, read the clock and write log
    records.  The ORM is reduced to the table [member] and the statements
    the repository issues on it: rows are kept in primary-key order, the
    next identity value is [member_seq], the index [idx_member_email] makes
    an insert of a duplicate e-mail fail, and [failure] is the error that
    every statement returns while the connection is unusable.  Requests run
    one at a time; the [context.Context] argument (deadline, cancellation)
    is left out. *)

Module gorm.

Definition ErrRecordNotFound : error := errors.New "record not found".
Definition ErrUniqueViolation : error :=
  errors.New "unique constraint violated: idx_member_email".

Record DB : Type := {
  member : list model.Member;
  member_seq : N;
  failure : option error;
}.

Definition by_email (email : string) (m : model.Member) : bool :=
  String.eqb (model.Email m) email.

Definition by_id (id : N) (m : model.Member) : bool :=
  N.eqb (model.ID m) id.

(** [Model(&Member{}).Where("email = ?", email).Count(&count)]. *)
Definition Count_email (db : DB) (email : string) : result Z :=
  match failure db with
  | Some e => Err e
  | None => Ok (Z.of_nat (length (List.filter (by_email email) (member db))))
  end.

(** [Where(cond).First(&member)]. *)
Definition First (db : DB) (cond : model.Member -> bool) : result model.Member :=
  match failure db with
  | Some e => Err e
  | None =>
      match List.find cond (member db) with
      | Some m => Ok m
      | None => Err ErrRecordNotFound
      end
  end.

(** [Create(member)] for a member without id and timestamps, as
    [NewMember] builds it (the only kind the repository is called with):
    the identity column and the two timestamps are filled in by the
    storage.  A key or a timestamp that the caller has set is not
    modelled. *)
Definition Create (db : DB) (now : time.Time) (m : model.Member) : DB * option error :=
  match failure db with
  | Some e => (db, Some e)
  | None =>
      if existsb (by_email (model.Email m)) (member db) then (db, Some ErrUniqueViolation)
      else
        let row :=
          {| model.ID := member_seq db; model.Email := model.Email m;
             model.Name := model.Name m; model.PhoneNumber := model.PhoneNumber m;
             model.Password := model.Password m;
             model.Base :=
               {| model.CreatedAt := now; model.UpdatedAt := now;
                  model.CreatedBy := model.CreatedBy (model.Base m);
                  model.UpdatedBy := model.UpdatedBy (model.Base m) |} |} in
        ({| member := (member db ++ [ row ])%list;
            member_seq := (member_seq db + 1)%N;
            failure := None |}, None)
  end.

End gorm.

Module slog.

Inductive Level : Type := LevelInfo | LevelWarn | LevelError.

Record Record_ : Type := {
  level : Level;
  msg : string;
  attrs : list (string * string);
}.

End slog.

Record World : Type := {
  db : gorm.DB;
  clock : time.Time;
  logs : list slog.Record_;
}.

(** Computations in the environment. *)
Definition M (A : Type) : Type := World -> A * World.

#[export] Instance M_ret : MRet M := fun A a w => (a, w).
#[export] Instance M_bind : MBind M :=
  fun A B f m w => let '(a, w') := m w in f a w'.

Definition get_db : M gorm.DB := fun w => (db w, w).
Definition put_db (d : gorm.DB) : M unit :=
  fun w => (tt, {| db := d; clock := clock w; logs := logs w |}).
Definition time_Now : M time.Time := fun w => (clock w, w).
Definition log (l : slog.Level) (msg : string) (attrs : list (string * string)) : M unit :=
  fun w =>
    (tt, {| db := db w; clock := clock w;
            logs := (logs w ++ [ {| slog.level := l; slog.msg := msg; slog.attrs := attrs |} ])%list |}).

(** The masked address as a log attribute.  A panic of [MaskEmail] would
    unwind the caller; there is none (see [MaskEmail_total]). *)
Definition masked (email : string) : string := default "" (logger.MaskEmail email).

(** ** Package [database]: [WithTransaction], src/unnamed/part_001

    [WithTransaction] hands [fn] to the ORM's [Transaction], which is not
    part of the repository; its documented behaviour is taken here: begin,
    run [fn], roll back when it returns an error, commit otherwise (a
    commit that fails is not modelled).  [fn] is [None] for a nil function.
    The variables that the closure captures are the state [S]: a rollback
    restores the database, not them, and not the log. *)

Module database.

Definition WithTransaction {S : Type}
    (fn : option (S -> M (option error * S))) (captured : S) : M (option error * S) :=
  match fn with
  | None => mret (Some (errors.New "database: transaction function is nil"), captured)
  | Some f =>
      before ← get_db;
      match gorm.failure before with
      | Some e => mret (Some e, captured)
      | None =>
          '(err, captured') ← f captured;
          match err with
          | Some e => _ ← put_db before; mret (Some e, captured')
          | None => mret (None, captured')
          end
      end
  end.

End database.

(** ** Package [bcrypt]: the password hash is a parameter *)

Module bcrypt.

Definition DefaultCost : Z := 10.

Class Hasher : Type := {
  GenerateFromPassword : string -> Z -> result string;
  CompareHashAndPassword : string -> string -> option error;
}.

End bcrypt.

(** ** The web framework: one request in flight

    [Authorization] is the value of that request header, empty when the
    header is absent.  [c.Next()] runs the rest of the handler chain, which
    a middleware receives as [next]. *)

Module gin.

Inductive Body : Type :=
| ErrorBody (resp : sharedError.ErrorResponse)
| JSONBody (o : json.Object)
| TokensBody (accessToken refreshToken : jwt.TokenString)
| NullBody.

Record Request : Type := {
  Authorization : string;
  ClientIP : string;
  Method : string;
  Path : string;
  UserAgent : string;
}.

Record Context : Type := {
  Req : Request;
  Keys : gmap string string;
  Errors : list error;
  Response : option (Z * Body);
  IsAborted : bool;
  ran_next : bool;
}.

Definition GetHeader_Authorization (c : Context) : string := Authorization (Req c).

Definition Set_ (key value : string) (c : Context) : Context :=
  {| Req := Req c; Keys := <[ key := value ]> (Keys c);
     Errors := Errors c; Response := Response c; IsAborted := IsAborted c;
     ran_next := ran_next c |}.

Definition Get (key : string) (c : Context) : option string := Keys c !! key.

Definition Error_ (err : error) (c : Context) : Context :=
  {| Req := Req c; Keys := Keys c;
     Errors := (Errors c ++ [ err ])%list; Response := Response c;
     IsAborted := IsAborted c; ran_next := ran_next c |}.

Definition JSON (code : Z) (obj : Body) (c : Context) : Context :=
  {| Req := Req c; Keys := Keys c; Errors := Errors c;
     Response := Some (code, obj); IsAborted := IsAborted c; ran_next := ran_next c |}.

Definition Abort (c : Context) : Context :=
  {| Req := Req c; Keys := Keys c; Errors := Errors c;
     Response := Response c; IsAborted := true; ran_next := ran_next c |}.

Definition HandlerFunc : Type := Context -> M Context.
Definition Middleware : Type := HandlerFunc -> HandlerFunc.

Definition Next (rest : HandlerFunc) : HandlerFunc :=
  fun c =>
    c' ← rest c;
    mret {| Req := Req c'; Keys := Keys c'; Errors := Errors c';
            Response := Response c'; IsAborted := IsAborted c'; ran_next := true |}.

(** A route behind one middleware: the handler runs inside the
    middleware's [c.Next()], or after the middleware returns unless the
    context was aborted. *)
Definition serve (mw : Middleware) (handler : HandlerFunc) : HandlerFunc :=
  fun c =>
    c' ← mw (Next handler) c;
    if IsAborted c' || ran_next c' then mret c' else handler c'.

End gin.

(** ** Package [context] (imported as [sharedContext]) *)

Module sharedContext.

Definition MemberIDKey : string := "member_id".
Definition MemberEmailKey : string := "member_email".

End sharedContext.

(** ** Package [handler]: [RespondError] *)

Module handler.

Definition RespondError (c : gin.Context) (err : error)
    (errResp : sharedError.ErrorResponse) : gin.Context :=
  gin.JSON (sharedError.Status errResp) (gin.ErrorBody errResp) (gin.Error_ err c).

End handler.

(** ** Package [member] *)

Module member.

Definition memberAlreadyExists : string := "MEMBER_ALREADY_EXISTS".
Definition memberNotFound : string := "MEMBER_NOT_FOUND".

Definition ErrMemberAlreadyExists : error := sharedError.NewDomainError memberAlreadyExists.
Definition ErrMemberNotFound : error := sharedError.NewDomainError memberNotFound.

(** [init], src/internal/member/errors.go. *)
Definition init (r : gmap string sharedError.ErrorResponse) : gmap string sharedError.ErrorResponse :=
  sharedError.RegisterDomainErrorResponse memberAlreadyExists
    {| sharedError.Status := sharedError.StatusConflict;
       sharedError.Code := "MEMBER-002";
       sharedError.Message := "이미 가입된 사용자입니다." |}
    (sharedError.RegisterDomainErrorResponse memberNotFound
       {| sharedError.Status := sharedError.StatusNotFound;
          sharedError.Code := "MEMBER-001";
          sharedError.Message := "회원 정보를 찾을 수 없습니다." |}
       r).

(** The repository, src/internal/member/repository.go. *)
Definition IsExist (email : string) : M (result bool) :=
  d ← get_db;
  match gorm.Count_email d email with
  | Err err => mret (Err err)
  | Ok count => mret (Ok (0 <? count))
  end.

Definition Create (m : model.Member) : M (option error) :=
  d ← get_db;
  now ← time_Now;
  let '(d', err) := gorm.Create d now m in
  _ ← put_db d';
  mret err.

Definition FindByEmail (email : string) : M (result model.Member) :=
  d ← get_db;
  mret (gorm.First d (gorm.by_email email)).

Definition FindByID (ID : N) : M (result model.Member) :=
  d ← get_db;
  mret (gorm.First d (gorm.by_id ID)).

(** [GetProfileResponse], src/internal/member/dto.go. *)
Record GetProfileResponse : Type := {
  ID : N;                 (* json:"id" *)
  Name : string;          (* json:"name" *)
  Email : string;         (* json:"email" *)
  PhoneNumber : string;   (* json:"phoneNumber,omitempty" *)
}.

Inductive ProfileField : Type := fID | fName | fEmail | fPhoneNumber.

Definition GetProfileResponse_fields : list (json.field ProfileField) :=
  [ {| json.name := "id"; json.depth := 0; json.omitempty := false; json.target := fID |};
    {| json.name := "name"; json.depth := 0; json.omitempty := false; json.target := fName |};
    {| json.name := "email"; json.depth := 0; json.omitempty := false; json.target := fEmail |};
    {| json.name := "phoneNumber"; json.depth := 0; json.omitempty := true; json.target := fPhoneNumber |} ].

Definition get_field (f : ProfileField) (r : GetProfileResponse) : json.Value :=
  match f with
  | fID => json.Number (Z.of_N (ID r))
  | fName => json.Str (Name r)
  | fEmail => json.Str (Email r)
  | fPhoneNumber => json.Str (PhoneNumber r)
  end.

Definition GetProfileResponse_JSON (r : option GetProfileResponse) : gin.Body :=
  match r with
  | Some r => gin.JSONBody (json.Marshal GetProfileResponse_fields get_field r)
  | None => gin.NullBody
  end.

(** [MemberService.GetProfile], src/unnamed/part_009 lines 73-102.  The
    captured variable is [response]. *)
Definition GetProfile (memberID : N) : M (option GetProfileResponse * option error) :=
  let response : option GetProfileResponse := None in
  '(err, response) ←
    database.WithTransaction
      (Some (fun response : option GetProfileResponse =>
         r ← FindByID memberID;
         match r with
         | Err err =>
             if errors.Is err gorm.ErrRecordNotFound then
               _ ← log slog.LevelWarn "회원을 찾을 수 없습니다"
                     [ ("memberID", pretty memberID) ];
               mret (Some (errors.Errorf "error " ErrMemberNotFound), response)
             else
               _ ← log slog.LevelError "회원 조회 실패" [ ("error", errors.Error err) ];
               mret (Some (errors.Errorf "회원 조회 실패: " err), response)
         | Ok member =>
             let response :=
               Some {| ID := model.ID member;
                       Name := model.Name member;
                       Email := model.Email member;
                       PhoneNumber := model.PhoneNumber member |} in
             mret (None, response)
         end))
      response;
  match err with
  | Some e => mret (None, Some e)
  | None => mret (response, None)
  end.

Section Handler.
Variable domainErrorResponses : gmap string sharedError.ErrorResponse.

(** [strconv.ParseUint(idStr, 10, 32)]: [parse] reads a decimal number. *)
Definition MaxUint32 : N := 4294967295.

Fixpoint parse_digits (s : string) (acc : N) : option N :=
  match s with
  | EmptyString => Some acc
  | String c rest =>
      let d := N.of_nat (nat_of_ascii c) in
      if ((48 <=? d) && (d <=? 57))%N then parse_digits rest (acc * 10 + (d - 48))%N
      else None
  end.

Definition ParseUint32 (s : string) : option N :=
  match s with
  | EmptyString => None
  | _ =>
      n ← parse_digits s 0%N;
      if (n <=? MaxUint32)%N then Some n else None
  end.

(** [sharedContext.RequireMemberID]. *)
Definition RequireMemberID (c : gin.Context) : M (gin.Context * option N) :=
  match gin.Get sharedContext.MemberIDKey c ≫= ParseUint32 with
  | Some id => mret (c, Some id)
  | None =>
      let c :=
        gin.Abort
          (gin.JSON sharedError.StatusUnauthorized
             (gin.ErrorBody
                {| sharedError.Status := sharedError.StatusUnauthorized;
                   sharedError.Code := "AUTH-000";
                   sharedError.Message := "로그인을 해주세요." |})
             c) in
      _ ← log slog.LevelError "[API] context에 회원 ID가 존재하지 않습니다." [];
      mret (c, None)
  end.

(** [MemberHandler.GetProfile], src/internal/member/handler.go. *)
Definition Handler_GetProfile : gin.HandlerFunc :=
  fun c =>
    '(c, MemberID) ← RequireMemberID c;
    match MemberID with
    | None => mret c
    | Some MemberID =>
        '(response, err) ← GetProfile MemberID;
        match err with
        | Some err =>
            match sharedError.ResolveDomainError domainErrorResponses (Some err) with
            | (resp, true) => mret (handler.RespondError c err resp)
            | _ => mret (handler.RespondError c err sharedError.InternalServerError)
            end
        | None => mret (gin.JSON 200 (GetProfileResponse_JSON response) c)
        end
    end.

End Handler.

End member.

(** ** Package [auth] *)

Module auth.

Definition incorrectEmailPassword : string := "INCORRECT_EMAIL_PASSWORD".

Definition ErrInCorrectEmailPassword : error :=
  sharedError.NewDomainError incorrectEmailPassword.

(** [init], src/unnamed/part_008. *)
Definition init (r : gmap string sharedError.ErrorResponse) : gmap string sharedError.ErrorResponse :=
  sharedError.RegisterDomainErrorResponse incorrectEmailPassword
    {| sharedError.Status := sharedError.StatusBadRequest;
       sharedError.Code := "AUTH-003";
       sharedError.Message := "이메일 또는 비밀번호가 일치하지 않습니다." |}
    r.

Record SignupRequest : Type := {
  Name : string;
  SignupEmail : string;
  PhoneNumber : string;
  SignupPassword : string;
}.

Record LoginRequest : Type := {
  Email : string;
  Password : string;
}.

Record LoginResponse : Type := {
  AccessToken : jwt.TokenString;
  RefreshToken : jwt.TokenString;
}.

Record AuthService : Type := {
  tokenManager : token.Manager;
}.

Section Service.
Context {hasher : bcrypt.Hasher}.

(** [AuthService.Login], src/internal/meta/handler.go lines 199-239. *)
Definition Login (a : AuthService) (request : LoginRequest) : M (result LoginResponse) :=
  (* 1. Find member by email *)
  r ← member.FindByEmail (Email request);
  match r with
  | Err err =>
      if errors.Is err gorm.ErrRecordNotFound then
        _ ← log slog.LevelWarn "로그인 실패 - member email not found"
              [ ("email", masked (Email request)) ];
        mret (Err (errors.Errorf "error " ErrInCorrectEmailPassword))
      else
        _ ← log slog.LevelError "로그인 실패 - 알 수 없는 오류" [ ("error", errors.Error err) ];
        mret (Err (errors.Errorf "로그인 실패: " err))
  | Ok member =>
      (* 2. Validate password *)
      match bcrypt.CompareHashAndPassword (model.Password member) (Password request) with
      | Some _ =>
          _ ← log slog.LevelWarn "로그인 실패 - invalid password"
                [ ("email", masked (Email request)) ];
          mret (Err (errors.Errorf "error " ErrInCorrectEmailPassword))
      | None =>
          (* 3. Generate JWT tokens *)
          let memberID := pretty (model.ID member) in
          now ← time_Now;
          match token.Manager_GenerateAccessToken (tokenManager a) now memberID (model.Email member) with
          | Err err =>
              _ ← log slog.LevelError "access token 생성 실패" [ ("error", errors.Error err) ];
              mret (Err (errors.Errorf "generate access token: " err))
          | Ok accessToken =>
              now ← time_Now;
              match token.Manager_GenerateRefreshToken (tokenManager a) now memberID (model.Email member) with
              | Err err =>
                  _ ← log slog.LevelError "refresh token 생성 실패" [ ("error", errors.Error err) ];
                  mret (Err (errors.Errorf "generate refresh token: " err))
              | Ok refreshToken =>
                  _ ← log slog.LevelInfo "로그인 성공" [ ("email", masked (Email request)) ];
                  mret (Ok {| AccessToken := accessToken; RefreshToken := refreshToken |})
              end
          end
      end
  end.

(** [AuthService.Signup], src/internal/meta/handler.go lines 241-269. *)
Definition Signup (a : AuthService) (request : SignupRequest) : M (option error) :=
  '(err, _) ←
    database.WithTransaction
      (Some (fun _ : unit =>
         r ← member.IsExist (SignupEmail request);
         match r with
         | Err err =>
             _ ← log slog.LevelError "Failed to check member existence"
                   [ ("error", errors.Error err) ];
             mret (Some (errors.Errorf "check member existence: " err), tt)
         | Ok true =>
             _ ← log slog.LevelWarn "Member already exists"
                   [ ("email", masked (SignupEmail request)) ];
             mret (Some (errors.Errorf "error " member.ErrMemberAlreadyExists), tt)
         | Ok false =>
             match bcrypt.GenerateFromPassword (SignupPassword request) bcrypt.DefaultCost with
             | Err err =>
                 _ ← log slog.LevelError "Failed to hash password" [ ("error", errors.Error err) ];
                 mret (Some (errors.Errorf "hash password: " err), tt)
             | Ok hashedPassword =>
                 let member :=
                   model.NewMember (Name request) (SignupEmail request)
                     (PhoneNumber request) hashedPassword in
                 err ← member.Create member;
                 match err with
                 | Some err =>
                     _ ← log slog.LevelError "Failed to create member"
                           [ ("error", errors.Error err) ];
                     mret (Some (errors.Errorf "create member: " err), tt)
                 | None =>
                     _ ← log slog.LevelInfo "Member created successfully"
                           [ ("email", masked (SignupEmail request)) ];
                     mret (None, tt)
                 end
             end
         end))
      tt;
  mret err.

Variable domainErrorResponses : gmap string sharedError.ErrorResponse.

(** [AuthHandler.Login] and [AuthHandler.Signup],
    src/internal/auth/handler.go, once [BindJSON] has bound [request]. *)
Definition Handler_Login (a : AuthService) (request : LoginRequest) : gin.HandlerFunc :=
  fun c =>
    r ← Login a request;
    match r with
    | Err err =>
        match sharedError.ResolveDomainError domainErrorResponses (Some err) with
        | (resp, true) => mret (handler.RespondError c err resp)
        | _ => mret (handler.RespondError c err sharedError.InternalServerError)
        end
    | Ok response =>
        mret (gin.JSON 200 (gin.TokensBody (AccessToken response) (RefreshToken response)) c)
    end.

Definition Handler_Signup (a : AuthService) (request : SignupRequest) : gin.HandlerFunc :=
  fun c =>
    err ← Signup a request;
    match err with
    | Some err =>
        match sharedError.ResolveDomainError domainErrorResponses (Some err) with
        | (resp, true) => mret (handler.RespondError c err resp)
        | _ => mret (handler.RespondError c err sharedError.InternalServerError)
        end
    | None => mret (gin.JSON 201 (gin.JSONBody []) c)
    end.

End Service.

End auth.

(** ** Package [middleware]: the JWT middleware,
    src/internal/shared/middleware/jwt.go *)

Module middleware.

Definition BearerScheme : string := "Bearer".

Definition missingToken : string := "MISSING_TOKEN".
Definition invalidToken : string := "INVALID_TOKEN".
Definition expiredToken : string := "EXPIRED_TOKEN".
Definition invalidClaims : string := "INVALID_CLAIMS".

Definition ErrMissingToken : error := sharedError.NewDomainError missingToken.
Definition ErrInvalidToken : error := sharedError.NewDomainError invalidToken.
Definition ErrExpiredToken : error := sharedError.NewDomainError expiredToken.
Definition ErrInvalidClaims : error := sharedError.NewDomainError invalidClaims.

Definition loginPlease : sharedError.ErrorResponse :=
  {| sharedError.Status := sharedError.StatusUnauthorized;
     sharedError.Code := "AUTH-000";
     sharedError.Message := "로그인을 해주세요." |}.

Definition init (r : gmap string sharedError.ErrorResponse) : gmap string sharedError.ErrorResponse :=
  sharedError.RegisterDomainErrorResponse invalidClaims loginPlease
    (sharedError.RegisterDomainErrorResponse expiredToken loginPlease
       (sharedError.RegisterDomainErrorResponse invalidToken loginPlease
          (sharedError.RegisterDomainErrorResponse missingToken loginPlease r))).

Definition extractToken (c : gin.Context) : result string :=
  let authHeader := gin.GetHeader_Authorization c in
  if String.eqb authHeader "" then Err ErrMissingToken
  else
    let parts := strings.SplitN2 authHeader " " in
    match parts with
    | [ scheme; credential ] =>
        if negb (strings.EqualFold scheme BearerScheme) then Err ErrInvalidToken
        else Ok credential
    | _ => Err ErrInvalidToken
    end.

Definition mapTokenError (err : error) : error :=
  if errors.Is err token.ErrExpiredToken then ErrExpiredToken
  else if errors.Is err token.ErrInvalidClaims then ErrInvalidClaims
  else ErrInvalidToken.

Section JWT.
Context {mac : jwt.MAC} {decoder : jwt.Decoder}.
Variable domainErrorResponses : gmap string sharedError.ErrorResponse.

Definition handleJWTError (c : gin.Context) (err : error) : gin.Context :=
  gin.Abort
    (match sharedError.ResolveDomainError domainErrorResponses (Some err) with
     | (resp, true) => gin.JSON (sharedError.Status resp) (gin.ErrorBody resp) c
     | _ =>
         gin.JSON sharedError.StatusUnauthorized
           (gin.ErrorBody
              {| sharedError.Status := sharedError.StatusUnauthorized;
                 sharedError.Code := "AUTH-999";
                 sharedError.Message := "인증에 실패했습니다." |})
           c
     end).

Definition request_attrs (step : string) (err : error) (c : gin.Context) : list (string * string) :=
  [ ("step", step); ("error", errors.Error err);
    ("client_ip", gin.ClientIP (gin.Req c)); ("method", gin.Method (gin.Req c));
    ("path", gin.Path (gin.Req c)); ("user_agent", gin.UserAgent (gin.Req c)) ].

Definition JWT (cfg : config.Config) : gin.Middleware :=
  let tokenManager := token.NewJWTManager cfg in
  fun next c =>
    (* Step 1 *)
    match extractToken c with
    | Err err =>
        _ ← log slog.LevelWarn "JWT 토큰 추출 실패" (request_attrs "extract_token" err c);
        mret (handleJWTError c err)
    | Ok tokenString =>
        (* Step 2 *)
        now ← time_Now;
        match token.ValidateToken tokenManager now (jwt.segments tokenString) with
        | Err err =>
            _ ← log slog.LevelWarn "JWT 토큰 검증 실패" (request_attrs "validate_token" err c);
            mret (handleJWTError c (mapTokenError err))
        | Ok claims =>
            next
              (gin.Set_ sharedContext.MemberEmailKey (token.Email claims)
                 (gin.Set_ sharedContext.MemberIDKey (token.MemberID claims) c))
        end
    end.

End JWT.

End middleware.

(** ** The program: the registry after package initialisation, and the
    routes of [router.Setup] *)

Definition domainErrorResponses : gmap string sharedError.ErrorResponse :=
  middleware.init (member.init (auth.init ∅)).

Section Router.
Context {mac : jwt.MAC} {decoder : jwt.Decoder} {hasher : bcrypt.Hasher}.
Variable cfg : config.Config.

Definition authService : auth.AuthService :=
  {| auth.tokenManager := token.JWTManager_Manager (token.NewJWTManager cfg) |}.

Definition POST_signup (request : auth.SignupRequest) : gin.HandlerFunc :=
  auth.Handler_Signup domainErrorResponses authService request.

Definition POST_login (request : auth.LoginRequest) : gin.HandlerFunc :=
  auth.Handler_Login domainErrorResponses authService request.

Definition GET_members_me : gin.HandlerFunc :=
  gin.serve (middleware.JWT domainErrorResponses cfg)
    (member.Handler_GetProfile domainErrorResponses).

End Router.

(** ** Sample parameters, for running the definitions *)

Module sample.

(** A keyed hash that only remembers the key. *)
Definition mac : jwt.MAC := fun key _ => key.

Definition hasher : bcrypt.Hasher :=
  {| bcrypt.GenerateFromPassword password _ :=
       if (72 <? String.length password)%nat
       then Err (errors.New "bcrypt: password length exceeds 72 bytes")
       else Ok ("$2a$10$" ++ password);
     bcrypt.CompareHashAndPassword hashedPassword password :=
       if String.eqb hashedPassword ("$2a$10$" ++ password) then None
       else Some (errors.New "crypto/bcrypt: hashedPassword is not the hash of the given password") |}.

Definition cfg : config.Config :=
  {| config.App := {| config.Name := "pray-together-api"; config.Env := "test"; config.Port := 8080 |};
     config.JWT := {| config.Secret := "test-jwt-secret-key-must-be-at-least-32-characters-long";
                      config.Expiry := 24 * time.Hour;
                      config.RefreshExpiry := 168 * time.Hour |} |}.

Definition manager : token.JWTManager := token.NewJWTManager cfg.

(** 2023-11-14 22:13:20 UTC. *)
Definition t0 : time.Time := 1700000000 * time.Second.

Definition access_token : jwt.TokenString :=
  match token.GenerateAccessToken (mac := mac) manager t0 "1" "a@x.com" with
  | Ok t => t
  | Err _ => jwt.NotThreeSegments ""
  end.

(** A decoder that knows the serialization of [access_token] only. *)
Definition decoder : jwt.Decoder :=
  fun s => if String.eqb s "access.token.1" then access_token else jwt.NotThreeSegments s.

Definition empty_db : gorm.DB :=
  {| gorm.member := []; gorm.member_seq := 1; gorm.failure := None |}.

Definition alice_row : model.Member :=
  {| model.ID := 1; model.Email := "a@x.com"; model.Name := "A";
     model.PhoneNumber := "010-1234-5678"; model.Password := "$2a$10$password1";
     model.Base := {| model.CreatedAt := t0; model.UpdatedAt := t0;
                      model.CreatedBy := None; model.UpdatedBy := None |} |}.

(** The table after the signup of [alice]. *)
Definition db1 : gorm.DB :=
  {| gorm.member := [ alice_row ]; gorm.member_seq := 2; gorm.failure := None |}.

Definition world (d : gorm.DB) (now : time.Time) : World :=
  {| db := d; clock := now; logs := [] |}.

Definition alice : auth.SignupRequest :=
  {| auth.Name := "A"; auth.SignupEmail := "a@x.com";
     auth.PhoneNumber := "010-1234-5678"; auth.SignupPassword := "password1" |}.

Definition request (authorization : string) : gin.Context :=
  {| gin.Req := {| gin.Authorization := authorization; gin.ClientIP := "127.0.0.1";
                   gin.Method := "GET"; gin.Path := "/api/v1/members/me";
                   gin.UserAgent := "curl" |};
     gin.Keys := ∅; gin.Errors := []; gin.Response := None;
     gin.IsAborted := false; gin.ran_next := false |}.

End sample.

(** ** Package [regexp], as far as the pattern below needs it

    A regular expression without repetition operators other than a fixed
    count, matched by derivatives.  [MatchString] below is for a pattern
    that is anchored at both ends ([^] ... [$], no flags): the whole text
    has to match.  All atoms of the pattern are ASCII, so matching bytes and
    matching runes agree. *)

Module regexp.

Inductive Regexp : Type :=
| Void                          (* matches nothing *)
| Empty                         (* the empty string *)
| Lit (c : ascii)               (* one given byte *)
| Range (lo hi : ascii)         (* [lo-hi] *)
| Cat (r1 r2 : Regexp)          (* r1 r2 *)
| Alt (r1 r2 : Regexp)          (* r1|r2 *)
| Opt (r : Regexp).             (* r? *)

Definition in_range (lo hi c : ascii) : bool :=
  ((nat_of_ascii lo <=? nat_of_ascii c) && (nat_of_ascii c <=? nat_of_ascii hi))%nat.

Fixpoint nullable (r : Regexp) : bool :=
  match r with
  | Void | Lit _ | Range _ _ => false
  | Empty | Opt _ => true
  | Cat r1 r2 => nullable r1 && nullable r2
  | Alt r1 r2 => nullable r1 || nullable r2
  end.

Fixpoint deriv (c : ascii) (r : Regexp) : Regexp :=
  match r with
  | Void | Empty => Void
  | Lit d => if Ascii.eqb c d then Empty else Void
  | Range lo hi => if in_range lo hi c then Empty else Void
  | Cat r1 r2 =>
      if nullable r1 then Alt (Cat (deriv c r1) r2) (deriv c r2)
      else Cat (deriv c r1) r2
  | Alt r1 r2 => Alt (deriv c r1) (deriv c r2)
  | Opt r1 => deriv c r1
  end.

(** [r{n}]. *)
Fixpoint Repeat (n : nat) (r : Regexp) : Regexp :=
  match n with
  | O => Empty
  | S n' => Cat r (Repeat n' r)
  end.

(** [MatchString] of the pattern [^r$]. *)
Fixpoint MatchString (r : Regexp) (s : string) : bool :=
  match s with
  | EmptyString => nullable r
  | String c rest => MatchString (deriv c r) rest
  end.

End regexp.

(** ** Package [validator]: the phone number,
    src/internal/shared/validator/phone.go *)

Module validator.

(** [[0-9]]. *)
Definition digit : regexp.Regexp := regexp.Range "0" "9".

(** [-?]. *)
Definition hyphen : regexp.Regexp := regexp.Opt (regexp.Lit "-").

(** [^01[0-9]-?[0-9]{4}-?[0-9]{4}$]. *)
Definition phoneRegex : regexp.Regexp :=
  regexp.Cat (regexp.Lit "0")
    (regexp.Cat (regexp.Lit "1")
       (regexp.Cat digit
          (regexp.Cat hyphen
             (regexp.Cat (regexp.Repeat 4 digit)
                (regexp.Cat hyphen (regexp.Repeat 4 digit)))))).

(** [ValidatePhone], on the string of the field. *)
Definition ValidatePhone (phone : string) : bool :=
  regexp.MatchString phoneRegex phone.

End validator.

(** ** More sample parameters *)

Module sample_more.

Definition refresh_token : jwt.TokenString :=
  match token.GenerateRefreshToken (mac := sample.mac) sample.manager sample.t0 "1" "a@x.com" with
  | Ok t => t
  | Err _ => jwt.NotThreeSegments ""
  end.

(** A decoder that knows the serializations of the two sample tokens. *)
Definition decoder : jwt.Decoder :=
  fun s =>
    if String.eqb s "refresh.token.1" then refresh_token
    else sample.decoder s.

(** A keyed hash of 32 bytes, the size of HMAC-SHA256: the first 32 bytes
    of the key, filled up with zeros. *)
Definition mac32 : jwt.MAC :=
  fun key _ => substring 0 32 (key ++ "00000000000000000000000000000000").

(** A JSON text that knows two objects: the header of an HS256 token and
    the payload of [sample.access_token]. *)
Definition text : json.Text :=
  {| json.text o :=
       match o with
       | ("alg", _) :: _ => "header"
       | _ => "payload"
       end;
     json.parse s :=
       if String.eqb s "header" then Some (jwt.header_object jwt.HS256)
       else if String.eqb s "payload"
       then Some (jwt.MarshalJSON
                    (token.access_claims sample.manager sample.t0 "1" "a@x.com"))
       else None |}.

End sample_more.

(** ** Package [config]: the database settings and [Validate],
    src/internal/bootstrap/bootstrap.go

    The connection-pool settings of [DatabaseConfig] and the CORS and
    server settings of [Config] are read by no function below. *)

Module config_full.

Record DatabaseConfig : Type := {
  Host : string;
  Port : Z;
  Service : string;
  User : string;
  Password : string;
  IsAutoMigrate : bool;
}.

Record Config : Type := {
  App : config.AppConfig;
  Database : DatabaseConfig;
  JWT : config.JWTConfig;
}.

(** [strings.Join]. *)
Fixpoint Join (elems : list string) (sep : string) : string :=
  match elems with
  | [] => ""
  | [ e ] => e
  | e :: rest => e ++ sep ++ Join rest sep
  end.

Definition invalidPort : string := "유효하지 않은 포트 번호".
Definition hostRequired : string := "데이터베이스 Host가 필요합니다".
Definition serviceRequired : string := "데이터베이스 Service가 필요합니다".
Definition userRequired : string := "데이터베이스 User가 필요합니다".
Definition passwordRequired : string := "데이터베이스 Password가 필요합니다".
Definition secretRequired : string := "JWT Secret Key가 필요합니다".
Definition secretTooShort : string := "JWT Secret Key는 32자 이상이어야 합니다".

(** The messages that [Validate] collects, in its order. *)
Definition Validate_errors (c : Config) : list string :=
  let errors := [] in
  let errors :=
    if (config.Port (App c) <? 1)%Z || (65535 <? config.Port (App c))%Z
    then (errors ++ [ invalidPort ])%list else errors in
  let errors :=
    if String.eqb (Host (Database c)) "" then (errors ++ [ hostRequired ])%list else errors in
  let errors :=
    if String.eqb (Service (Database c)) "" then (errors ++ [ serviceRequired ])%list
    else errors in
  let errors :=
    if String.eqb (User (Database c)) "" then (errors ++ [ userRequired ])%list else errors in
  let errors :=
    if String.eqb (Password (Database c)) "" then (errors ++ [ passwordRequired ])%list
    else errors in
  let errors :=
    if String.eqb (config.Secret (JWT c)) "" then (errors ++ [ secretRequired ])%list
    else errors in
  let errors :=
    if (String.length (config.Secret (JWT c)) <? 32)%nat
    then (errors ++ [ secretTooShort ])%list else errors in
  errors.

Definition Validate (c : Config) : option error :=
  let errors := Validate_errors c in
  if (0 <? length errors)%nat
  then Some (errors.New ("유효성 검사 오류: " ++ Join errors ", "))
  else None.

End config_full.

(** ** Package [database]: [Migrate], src/internal/shared/database/migration.go

    The statements that [Migrate] sends to the database are the table loop
    of its first step and [runAutoMigrate]; both are left open here. *)

Module migration.

Section Migrate.

Variable drop_tables : M unit.
Variable runAutoMigrate : M (option error).

Definition blocked : string :=
  "🚨 PRODUCTION 환경에서는 DB_AUTO_MIGRATE=true를 사용할 수 없습니다! 데이터 손실 방지를 위해 차단됨".

Definition Migrate (cfg : config_full.Config) : M (option error) :=
  let env := config.Env (config_full.App cfg) in
  if negb (config_full.IsAutoMigrate (config_full.Database cfg)) then
    _ ← log slog.LevelInfo "⏭️  데이터베이스 마이그레이션 비활성화됨"
          [ ("auto_migrate", "false"); ("env", env) ];
    mret None
  else
    _ ← log slog.LevelWarn
          "🔧 데이터베이스 마이그레이션 시작 - 모든 테이블이 삭제되고 재생성됩니다!"
          [ ("auto_migrate", "true"); ("env", env) ];
    if String.eqb env "prod" || String.eqb env "production" then
      mret (Some (errors.New blocked))
    else
      _ ← log slog.LevelInfo "🗑️  기존 테이블 삭제 중..." [];
      _ ← drop_tables;
      _ ← log slog.LevelInfo "📦 새 테이블 생성 중..." [];
      err ← runAutoMigrate;
      match err with
      | Some e => mret (Some (errors.Errorf "테이블 생성 실패: " e))
      | None =>
          _ ← log slog.LevelInfo "✅ 마이그레이션 완료!" [];
          mret None
      end.

End Migrate.

End migration.

(** ** Vocabulary of the statements below *)

(** [Unwraps e d]: [d] is [e] or is reached from [e] by unwrapping, through
    any of the wrapped errors. *)
Inductive Unwraps : error -> error -> Prop :=
| Unwraps_here (e : error) : Unwraps e e
| Unwraps_wrap (msg : string) (e d : error) :
    Unwraps e d -> Unwraps (wrapError msg e) d
| Unwraps_several (msg : string) (es : list error) (e d : error) :
    In e es -> Unwraps e d -> Unwraps (wrapErrors msg es) d.

(** [Wraps e d]: [e] is [d] inside any number of [fmt.Errorf("...%w")]. *)
Inductive Wraps : error -> error -> Prop :=
| Wraps_here (d : error) : Wraps d d
| Wraps_step (msg : string) (e d : error) : Wraps e d -> Wraps (wrapError msg e) d.

(** The registered responses that the statements name. *)
Definition incorrectEmailPasswordResponse : sharedError.ErrorResponse :=
  {| sharedError.Status := 400; sharedError.Code := "AUTH-003";
     sharedError.Message := "이메일 또는 비밀번호가 일치하지 않습니다." |}.

Definition memberAlreadyExistsResponse : sharedError.ErrorResponse :=
  {| sharedError.Status := 409; sharedError.Code := "MEMBER-002";
     sharedError.Message := "이미 가입된 사용자입니다." |}.

Definition memberNotFoundResponse : sharedError.ErrorResponse :=
  {| sharedError.Status := 404; sharedError.Code := "MEMBER-001";
     sharedError.Message := "회원 정보를 찾을 수 없습니다." |}.

(** A Member row without its password hash. *)
Definition redact (m : model.Member) : model.Member :=
  {| model.ID := model.ID m; model.Email := model.Email m; model.Name := model.Name m;
     model.PhoneNumber := model.PhoneNumber m; model.Password := "";
     model.Base := model.Base m |}.

(** The view of a Member row. *)
Definition profile_of (m : model.Member) : member.GetProfileResponse :=
  {| member.ID := model.ID m; member.Name := model.Name m;
     member.Email := model.Email m; member.PhoneNumber := model.PhoneNumber m |}.

(** A string with its ASCII upper-case letters lowered. *)
Fixpoint to_lower (s : string) : string :=
  match s with
  | EmptyString => EmptyString
  | String c rest => String (strings.lower c) (to_lower rest)
  end.

(** Strings of decimal digits. *)
Definition is_digit (c : ascii) : bool := regexp.in_range "0" "9" c.

Fixpoint all_digits (s : string) : bool :=
  match s with
  | EmptyString => true
  | String c rest => is_digit c && all_digits rest
  end.

(** The rows of a table have different e-mails and different ids, all
    below the next identity value. *)
Definition table_ok (d : gorm.DB) : Prop :=
  NoDup (map model.Email (gorm.member d)) /\
  NoDup (map model.ID (gorm.member d)) /\
  forall m, m ∈ gorm.member d -> (model.ID m < gorm.member_seq d)%N.

(** A hash is accepted for the password it was made of. *)
Definition hasher_sound (hasher : bcrypt.Hasher) : Prop :=
  forall password cost hashed,
    bcrypt.GenerateFromPassword password cost = Ok hashed ->
    bcrypt.CompareHashAndPassword hashed password = None.

(** A string without its last byte. *)
Fixpoint all_but_last (s : string) : string :=
  match s with
  | EmptyString => EmptyString
  | String c EmptyString => EmptyString
  | String c rest => String c (all_but_last rest)
  end.

(** No byte of [s] is a line break or a dot. *)
Fixpoint plain (s : string) : bool :=
  match s with
  | EmptyString => true
  | String c rest => negb (base64.newline c) && negb (Ascii.eqb c ".") && plain rest
  end.

(** The values of an [int64]. *)
Definition int64 (n : Z) : Prop := json.MinInt64 <= n <= json.MaxInt64.

(** Induction over error values, through the lists of wrapped errors. *)
Fixpoint error_ind' (P : error -> Prop)
    (Hs : forall s, P (errorString s))
    (Hd : forall errInfo, P (domainSentinel errInfo))
    (Hw : forall msg e, P e -> P (wrapError msg e))
    (Hj : forall msg es, Forall P es -> P (wrapErrors msg es))
    (e : error) : P e :=
  match e with
  | errorString s => Hs s
  | domainSentinel errInfo => Hd errInfo
  | wrapError msg inner => Hw msg inner (error_ind' P Hs Hd Hw Hj inner)
  | wrapErrors msg inners =>
      Hj msg inners
        ((fix all (es : list error) : Forall P es :=
            match es with
            | [] => @List.Forall_nil error P
            | e' :: es' => @List.Forall_cons error P e' es' (error_ind' P Hs Hd Hw Hj e') (all es')
            end) inners)
  end.

(** * Properties *)

(** Unfolding of the operations of the environment. *)
Ltac run_M :=
  unfold get_db, put_db, time_Now, log, mbind, M_bind, mret, M_ret.

(** Arithmetic with division and remainder by constants. *)
Ltac div_lia := zify; Z.to_euclidean_division_equations; lia.

Ltac pow2 :=
  change (2 ^ 0)%N with 1%N in *; change (2 ^ 6)%N with 64%N in *;
  change (2 ^ 8)%N with 256%N in *; change (2 ^ 12)%N with 4096%N in *;
  change (2 ^ 16)%N with 65536%N in *; change (2 ^ 18)%N with 262144%N in *.

(** ** E-mail masking *)

Section Masking.

Local Open Scope nat_scope.

Lemma Split_length (s : string) (sep : ascii) :
  length (strings.Split s sep) = S (strings.Count s sep).
Proof.
  induction s as [| c rest IH]; simpl; [reflexivity |].
  destruct (Ascii.eqb c sep); simpl.
  - now rewrite IH.
  - destruct (strings.Split rest sep) as [| field fields]; simpl in *; lia.
Qed.

Lemma Split_no_sep (s : string) (sep : ascii) :
  strings.Count s sep = 0 -> strings.Split s sep = [ s ].
Proof.
  induction s as [| c rest IH]; simpl; [reflexivity |].
  destruct (Ascii.eqb c sep); simpl; [discriminate |].
  intros H. now rewrite (IH H).
Qed.

Lemma Split_one_sep (s : string) (sep : ascii) :
  strings.Count s sep = 1 ->
  exists username domain,
    strings.Split s sep = [ username; domain ] /\
    s = (username ++ String sep domain)%string /\
    strings.Count domain sep = 0.
Proof.
  induction s as [| c rest IH]; simpl; [discriminate |].
  destruct (Ascii.eqb_spec c sep) as [-> | Hne]; simpl; intros H.
  - exists EmptyString, rest. injection H as H.
    rewrite (Split_no_sep _ _ H). auto.
  - destruct (IH H) as (u & d & -> & -> & Hd).
    exists (String c u), d. auto.
Qed.

Lemma eqb_empty (s : string) : String.eqb s "" = true <-> s = ""%string.
Proof. apply String.eqb_eq. Qed.

End Masking.

(** [MaskEmail] never reaches an out-of-range slice, on any input. *)
Lemma MaskEmail_total (email : string) : is_Some (logger.MaskEmail email).
Proof.
  unfold logger.MaskEmail.
  destruct (String.eqb email ""); [eauto |].
  destruct (strings.Split email "@") as [| username [| domain [| ? ?]]]; eauto.
  destruct username as [| c username]; simpl; eauto.
Qed.

(** C8. Email masking: [MaskEmail("john.doe@gmail.com")] is
    ["j***@gmail.com"], [MaskEmail("")] is [""], and every non-empty input
    that does not contain exactly one ['@'] is mapped to the placeholder
    ["***@***"]. *)
Theorem MaskEmail_examples_and_placeholder :
  logger.MaskEmail "john.doe@gmail.com" = Some "j***@gmail.com" /\
  logger.MaskEmail "" = Some "" /\
  forall email : string,
    email <> ""%string ->
    strings.Count email "@" <> 1%nat ->
    logger.MaskEmail email = Some "***@***".
Proof.
  split; [reflexivity |]. split; [reflexivity |].
  intros email Hne Hcount. unfold logger.MaskEmail.
  destruct (String.eqb email "") eqn:E; [apply eqb_empty in E; contradiction |].
  pose proof (Split_length email "@") as Hlen.
  destruct (strings.Split email "@") as [| username [| domain [| ? ?]]]; try reflexivity.
  simpl in Hlen. exfalso. apply Hcount. lia.
Qed.

Lemma MaskEmail_examples_and_placeholder_witness :
  ("a@b@c" <> "" /\ strings.Count "a@b@c" "@" <> 1%nat)%string /\
  logger.MaskEmail "a@b@c" = Some "***@***".
Proof.
  assert (H1 : ("a@b@c" <> "")%string) by discriminate.
  assert (H2 : strings.Count "a@b@c" "@" <> 1%nat) by (simpl; lia).
  split; [split; assumption |].
  exact (proj2 (proj2 MaskEmail_examples_and_placeholder) "a@b@c"%string H1 H2).
Defined.

(** C10. The empty local part: an input with exactly one ['@'] and nothing
    before it is masked to ["***@"] followed by the domain, no first
    character being kept; and the one-byte slice of the local part is
    guarded, so that [MaskEmail] returns on every input. *)
Theorem MaskEmail_empty_local_part (email : string) :
  strings.Count email "@" = 1%nat ->
  (forall domain : string,
     email = String "@" domain ->
     logger.MaskEmail email = Some ("***@" ++ domain)) /\
  (forall username domain : string,
     strings.Split email "@" = [ username; domain ] ->
     username <> ""%string ->
     exists first : string,
       strings.slice_to username 1 = Some first /\
       logger.MaskEmail email = Some (first ++ "***@" ++ domain)) /\
  (forall any : string, is_Some (logger.MaskEmail any)).
Proof.
  intros Hcount. split; [| split].
  - intros domain ->. simpl in Hcount.
    assert (Hd : strings.Count domain "@" = 0%nat) by lia.
    unfold logger.MaskEmail. simpl. now rewrite (Split_no_sep _ _ Hd).
  - intros username domain Hsplit Hu. unfold logger.MaskEmail.
    destruct (String.eqb email "") eqn:E.
    + apply eqb_empty in E. subst. discriminate.
    + rewrite Hsplit. destruct username as [| c rest]; [contradiction |].
      simpl. eexists. split; reflexivity.
  - apply MaskEmail_total.
Qed.

Lemma MaskEmail_empty_local_part_witness :
  strings.Count "@gmail.com" "@" = 1%nat /\
  logger.MaskEmail "@gmail.com" = Some "***@gmail.com".
Proof.
  assert (H : strings.Count "@gmail.com" "@" = 1%nat) by reflexivity.
  split; [exact H |].
  exact (proj1 (MaskEmail_empty_local_part "@gmail.com" H) "gmail.com"%string eq_refl).
Defined.

(** ** The domain-error registry *)

Section Registry.

Variable registry : gmap string sharedError.ErrorResponse.

Lemma As_DomainError_Unwraps (e : error) (info : string) :
  sharedError.As_DomainError e = Some info -> Unwraps e (domainSentinel info).
Proof.
  revert info. induction e as [s | i | msg e IH | msg es IH] using error_ind'; intros info; simpl.
  - discriminate.
  - intros [= ->]. constructor.
  - intros H. constructor. now apply IH.
  - induction IH as [| e es He Hes IHes]; [discriminate |].
    destruct (sharedError.As_DomainError e) as [i |] eqn:E.
    + intros [= ->]. apply Unwraps_several with (e := e); [now left | now apply He].
    + intros H. specialize (IHes H). inversion IHes; subst.
      apply Unwraps_several with (e := e0); [now right | assumption].
Qed.

Lemma As_DomainError_Wraps (e : error) (info : string) :
  Wraps e (domainSentinel info) -> sharedError.As_DomainError e = Some info.
Proof.
  intros H. remember (domainSentinel info) as d eqn:Ed.
  induction H as [d | msg e d H IH]; subst; simpl; auto.
Qed.

Lemma ResolveDomainError_found (err : option error) (resp : sharedError.ErrorResponse) :
  sharedError.ResolveDomainError registry err = (resp, true) ->
  exists e info,
    err = Some e /\ Unwraps e (domainSentinel info) /\ registry !! info = Some resp.
Proof.
  unfold sharedError.ResolveDomainError.
  destruct err as [e |]; [| discriminate].
  destruct (sharedError.As_DomainError e) as [info |] eqn:E; [| discriminate].
  destruct (registry !! info) as [r |] eqn:L; [| discriminate].
  intros [= ->]. exists e, info. auto using As_DomainError_Unwraps.
Qed.

Lemma ResolveDomainError_not_found (err : option error) :
  (forall e info, err = Some e -> Unwraps e (domainSentinel info) -> registry !! info = None) ->
  sharedError.ResolveDomainError registry err = (sharedError.zero, false).
Proof.
  intros H. unfold sharedError.ResolveDomainError.
  destruct err as [e |]; [| reflexivity].
  destruct (sharedError.As_DomainError e) as [info |] eqn:E; [| reflexivity].
  now rewrite (H e info eq_refl (As_DomainError_Unwraps _ _ E)).
Qed.

Lemma ResolveDomainError_Wraps (e : error) (info : string) :
  Wraps e (domainSentinel info) ->
  sharedError.ResolveDomainError registry (Some e) =
    match registry !! info with
    | Some resp => (resp, true)
    | None => (sharedError.zero, false)
    end.
Proof.
  intros H. unfold sharedError.ResolveDomainError.
  now rewrite (As_DomainError_Wraps _ _ H).
Qed.

End Registry.

(** The callers of [ResolveDomainError]: what the three HTTP handlers send
    when the error of their service is not resolved. *)
Section Fallback.

Context {hasher : bcrypt.Hasher}.
Variable registry : gmap string sharedError.ErrorResponse.

Ltac fallback H Hnot :=
  unfold mbind, M_bind, mret, M_ret; rewrite H;
  destruct (sharedError.ResolveDomainError registry (Some _)) as [resp [|]];
  simpl in Hnot; [discriminate | reflexivity].

Lemma Handler_Signup_fallback a request c w w' (e : error) :
  snd (sharedError.ResolveDomainError registry (Some e)) = false ->
  auth.Signup a request w = (Some e, w') ->
  auth.Handler_Signup registry a request c w =
    (handler.RespondError c e sharedError.InternalServerError, w').
Proof. intros Hnot H. unfold auth.Handler_Signup. fallback H Hnot. Qed.

Lemma Handler_Login_fallback a request c w w' (e : error) :
  snd (sharedError.ResolveDomainError registry (Some e)) = false ->
  auth.Login a request w = (Err e, w') ->
  auth.Handler_Login registry a request c w =
    (handler.RespondError c e sharedError.InternalServerError, w').
Proof. intros Hnot H. unfold auth.Handler_Login. fallback H Hnot. Qed.

Lemma Handler_GetProfile_fallback id response c w w' (e : error) :
  snd (sharedError.ResolveDomainError registry (Some e)) = false ->
  gin.Get sharedContext.MemberIDKey c ≫= member.ParseUint32 = Some id ->
  member.GetProfile id w = ((response, Some e), w') ->
  member.Handler_GetProfile registry c w =
    (handler.RespondError c e sharedError.InternalServerError, w').
Proof.
  intros Hnot Hid H. unfold member.Handler_GetProfile, member.RequireMemberID.
  rewrite Hid. fallback H Hnot.
Qed.

End Fallback.

(** C5. Registry resolution and fallback: [ResolveDomainError] walks the
    chain of an error for a domain error; a domain error inside any number
    of wraps is resolved to the response registered for its identifier, with
    [found = true]; a response that is returned is the one registered for a
    domain error of the chain; an unregistered identifier, an error with no
    domain error in its chain and the nil error give [found = false]; and on
    [found = false] each handler sends the generic internal-error response,
    which does not depend on the error. *)
Theorem ResolveDomainError_resolution_and_fallback
    {hasher : bcrypt.Hasher}
    (registry : gmap string sharedError.ErrorResponse) (err : option error) :
  (forall e info resp,
     err = Some e -> Wraps e (domainSentinel info) -> registry !! info = Some resp ->
     sharedError.ResolveDomainError registry err = (resp, true)) /\
  (forall resp,
     sharedError.ResolveDomainError registry err = (resp, true) ->
     exists e info,
       err = Some e /\ Unwraps e (domainSentinel info) /\ registry !! info = Some resp) /\
  (forall e info,
     err = Some e -> Wraps e (domainSentinel info) -> registry !! info = None ->
     sharedError.ResolveDomainError registry err = (sharedError.zero, false)) /\
  ((forall e info,
      err = Some e -> Unwraps e (domainSentinel info) -> registry !! info = None) ->
   sharedError.ResolveDomainError registry err = (sharedError.zero, false)) /\
  (forall e,
     err = Some e ->
     snd (sharedError.ResolveDomainError registry err) = false ->
     (forall a request c w w',
        auth.Signup a request w = (Some e, w') ->
        auth.Handler_Signup registry a request c w =
          (handler.RespondError c e sharedError.InternalServerError, w')) /\
     (forall a request c w w',
        auth.Login a request w = (Err e, w') ->
        auth.Handler_Login registry a request c w =
          (handler.RespondError c e sharedError.InternalServerError, w')) /\
     (forall id response c w w',
        gin.Get sharedContext.MemberIDKey c ≫= member.ParseUint32 = Some id ->
        member.GetProfile id w = ((response, Some e), w') ->
        member.Handler_GetProfile registry c w =
          (handler.RespondError c e sharedError.InternalServerError, w'))).
Proof.
  repeat split.
  - intros e info resp -> HW L. rewrite (ResolveDomainError_Wraps registry _ _ HW). now rewrite L.
  - apply ResolveDomainError_found.
  - intros e info -> HW L. rewrite (ResolveDomainError_Wraps registry _ _ HW). now rewrite L.
  - apply ResolveDomainError_not_found.
  - subst err. intros. now apply Handler_Signup_fallback.
  - subst err. intros. now apply Handler_Login_fallback.
  - subst err. intros. eapply Handler_GetProfile_fallback; eauto.
Qed.

Lemma ResolveDomainError_resolution_and_fallback_witness :
  Wraps (errors.Errorf "error " member.ErrMemberNotFound) (domainSentinel "MEMBER_NOT_FOUND") /\
  domainErrorResponses !! "MEMBER_NOT_FOUND" =
    Some {| sharedError.Status := 404; sharedError.Code := "MEMBER-001";
            sharedError.Message := "회원 정보를 찾을 수 없습니다." |} /\
  sharedError.ResolveDomainError domainErrorResponses
      (Some (errors.Errorf "error " member.ErrMemberNotFound)) =
    ({| sharedError.Status := 404; sharedError.Code := "MEMBER-001";
        sharedError.Message := "회원 정보를 찾을 수 없습니다." |}, true).
Proof.
  assert (HW : Wraps (errors.Errorf "error " member.ErrMemberNotFound)
                 (domainSentinel "MEMBER_NOT_FOUND"))
    by (apply Wraps_step, Wraps_here).
  assert (HL : domainErrorResponses !! "MEMBER_NOT_FOUND" =
                 Some {| sharedError.Status := 404; sharedError.Code := "MEMBER-001";
                         sharedError.Message := "회원 정보를 찾을 수 없습니다." |})
    by (vm_compute; reflexivity).
  split; [exact HW |]. split; [exact HL |].
  exact (proj1 (ResolveDomainError_resolution_and_fallback (hasher := sample.hasher)
                  domainErrorResponses _) _ _ _ eq_refl HW HL).
Defined.

(** ** The encodings: UTF-8 in JSON strings, base64url *)

Lemma coerce_from_valid (s : string) (pending : nat) :
  utf8.valid_from pending s = true -> json.coerce_from pending s = s.
Proof.
  revert pending. induction s as [| c s IH]; intros pending; [reflexivity |].
  cbn [utf8.valid_from json.coerce_from].
  destruct pending as [| k].
  - destruct (utf8.DecodeRuneInString (String c s)) as [sz |]; [| discriminate].
    intros H. now rewrite IH.
  - intros H. now rewrite IH.
Qed.

(** A valid UTF-8 string is written and read back unchanged. *)
Lemma coerce_valid (s : string) : utf8.ValidString s = true -> json.coerce s = s.
Proof. apply coerce_from_valid. Qed.

Section Base64.

Local Open Scope string_scope.

Lemma below_64 (P : N -> bool) :
  forallb P (map N.of_nat (seq 0 64)) = true -> forall i, (i < 64)%N -> P i = true.
Proof.
  intros H i Hi. rewrite forallb_forall in H. apply H.
  apply in_map_iff. exists (N.to_nat i). split; [lia |]. apply in_seq. lia.
Qed.

Lemma decodeMap_encode (i : N) :
  (i < 64)%N -> base64.decodeMap (base64.encode i) = Some i.
Proof.
  intros Hi.
  pose proof (below_64
    (fun i => match base64.decodeMap (base64.encode i) with
              | Some j => N.eqb j i
              | None => false
              end) eq_refl i Hi) as H.
  simpl in H. destruct (base64.decodeMap (base64.encode i)) as [j |]; [| discriminate].
  apply N.eqb_eq in H. now subst.
Qed.

Lemma encode_decodeMap (c : ascii) (d : N) :
  base64.decodeMap c = Some d -> (d < 64)%N /\ base64.encode d = c.
Proof.
  destruct c as [[] [] [] [] [] [] [] []]; vm_compute; intros [= <-]; split; reflexivity.
Qed.

Lemma encode_plain (i : N) :
  (i < 64)%N -> base64.newline (base64.encode i) = false /\ base64.encode i <> "."%char.
Proof.
  intros Hi.
  pose proof (below_64
    (fun i => negb (base64.newline (base64.encode i)) &&
              negb (Ascii.eqb (base64.encode i) ".")) eq_refl i Hi) as H.
  simpl in H. apply andb_true_iff in H. destruct H as [H1 H2].
  apply negb_true_iff in H1, H2. split; [exact H1 |]. now apply Ascii.eqb_neq.
Qed.

Lemma land_63 (x : N) : N.land x 63 = (x mod 64)%N.
Proof. change 63%N with (N.ones 6). now rewrite N.land_ones. Qed.

Lemma land_255 (x : N) : N.land x 255 = (x mod 256)%N.
Proof. change 255%N with (N.ones 8). now rewrite N.land_ones. Qed.

Lemma index_eq (val shift : N) : base64.index val shift = ((val / 2 ^ shift) mod 64)%N.
Proof. unfold base64.index. now rewrite land_63, N.shiftr_div_pow2. Qed.

Lemma index_lt (val shift : N) : (base64.index val shift < 64)%N.
Proof. rewrite index_eq. now apply N.mod_lt. Qed.

Lemma lor_shiftl_add (x y n : N) :
  (y < 2 ^ n)%N -> N.lor (N.shiftl x n) y = (x * 2 ^ n + y)%N.
Proof.
  intros Hy.
  assert (D : N.land (N.shiftl x n) y = 0%N).
  { apply N.bits_inj_0. intros i. rewrite N.land_spec.
    destruct (N.lt_ge_cases i n) as [Hi | Hi].
    - now rewrite N.shiftl_spec_low.
    - destruct (N.eq_dec y 0%N) as [-> | Hy0].
      + now rewrite N.bits_0, andb_false_r.
      + rewrite (N.bits_above_log2 y i); [apply andb_false_r |].
        apply N.log2_lt_pow2; [lia |].
        apply N.lt_le_trans with (2 ^ n)%N; [exact Hy |].
        apply N.pow_le_mono_r; lia. }
  rewrite <- N.lxor_lor by exact D.
  rewrite <- N.add_nocarry_lxor by exact D.
  now rewrite N.shiftl_mul_pow2.
Qed.

Lemma byte_bound (c : ascii) : (N_of_ascii c < 256)%N.
Proof. apply N_ascii_bounded. Qed.

Lemma val3_eq (a b c : N) :
  (a < 256)%N -> (b < 256)%N -> (c < 256)%N ->
  N.lor (N.lor (N.shiftl a 16) (N.shiftl b 8)) c = (a * 65536 + b * 256 + c)%N.
Proof.
  intros Ha Hb Hc.
  rewrite (lor_shiftl_add a (N.shiftl b 8) 16)
    by (rewrite N.shiftl_mul_pow2; change (2 ^ 8)%N with 256%N; change (2 ^ 16)%N with 65536%N; lia).
  rewrite N.shiftl_mul_pow2.
  replace (a * 2 ^ 16 + b * 2 ^ 8)%N with (N.shiftl (a * 256 + b) 8)
    by (rewrite N.shiftl_mul_pow2; change (2 ^ 8)%N with 256%N; change (2 ^ 16)%N with 65536%N; lia).
  rewrite lor_shiftl_add by (change (2 ^ 8)%N with 256%N; lia).
  change (2 ^ 8)%N with 256%N. lia.
Qed.

Lemma val2_eq (a b : N) :
  (a < 256)%N -> (b < 256)%N ->
  N.lor (N.shiftl a 16) (N.shiftl b 8) = (a * 65536 + b * 256)%N.
Proof.
  intros Ha Hb. pose proof (val3_eq a b 0%N Ha Hb eq_refl) as H.
  rewrite N.lor_0_r in H. rewrite H. lia.
Qed.

Lemma val1_eq (a : N) : N.shiftl a 16 = (a * 65536)%N.
Proof. now rewrite N.shiftl_mul_pow2. Qed.

Lemma quantum_eq (d0 d1 d2 d3 : N) :
  (d0 < 64)%N -> (d1 < 64)%N -> (d2 < 64)%N -> (d3 < 64)%N ->
  base64.quantum d0 d1 d2 d3 = (d0 * 262144 + d1 * 4096 + d2 * 64 + d3)%N.
Proof.
  intros H0 H1 H2 H3. unfold base64.quantum.
  rewrite (lor_shiftl_add d0 (N.shiftl d1 12) 18)
    by (rewrite N.shiftl_mul_pow2; change (2 ^ 12)%N with 4096%N;
        change (2 ^ 18)%N with 262144%N; lia).
  rewrite N.shiftl_mul_pow2.
  replace (d0 * 2 ^ 18 + d1 * 2 ^ 12)%N with (N.shiftl (d0 * 64 + d1) 12)
    by (rewrite N.shiftl_mul_pow2; change (2 ^ 12)%N with 4096%N;
        change (2 ^ 18)%N with 262144%N; lia).
  rewrite (lor_shiftl_add _ (N.shiftl d2 6) 12)
    by (rewrite N.shiftl_mul_pow2; change (2 ^ 6)%N with 64%N;
        change (2 ^ 12)%N with 4096%N; lia).
  rewrite N.shiftl_mul_pow2.
  replace ((d0 * 64 + d1) * 2 ^ 12 + d2 * 2 ^ 6)%N with (N.shiftl ((d0 * 64 + d1) * 64 + d2) 6)
    by (rewrite N.shiftl_mul_pow2; change (2 ^ 6)%N with 64%N;
        change (2 ^ 12)%N with 4096%N; lia).
  rewrite lor_shiftl_add by (change (2 ^ 6)%N with 64%N; lia).
  change (2 ^ 6)%N with 64%N. lia.
Qed.

Lemma byte_eq (n : N) (c : ascii) : (n mod 256)%N = N_of_ascii c -> base64.byte n = c.
Proof. intros H. unfold base64.byte. rewrite land_255, H. apply ascii_N_embedding. Qed.


Lemma string_ind3 (P : string -> Prop) :
  P EmptyString ->
  (forall a, P (String a EmptyString)) ->
  (forall a b, P (String a (String b EmptyString))) ->
  (forall a b c rest, P rest -> P (String a (String b (String c rest)))) ->
  forall s, P s.
Proof.
  intros H0 H1 H2 H3. fix IH 1. intros [| a [| b [| c rest]]].
  - exact H0.
  - apply H1.
  - apply H2.
  - apply H3, IH.
Qed.

Lemma string_ind4 (P : string -> Prop) :
  P EmptyString ->
  (forall a, P (String a EmptyString)) ->
  (forall a b, P (String a (String b EmptyString))) ->
  (forall a b c, P (String a (String b (String c EmptyString)))) ->
  (forall a b c d rest, P rest -> P (String a (String b (String c (String d rest))))) ->
  forall s, P s.
Proof.
  intros H0 H1 H2 H3 H4. fix IH 1. intros [| a [| b [| c [| d rest]]]].
  - exact H0.
  - apply H1.
  - apply H2.
  - apply H3.
  - apply H4, IH.
Qed.

(** Decoding reads back what encoding wrote. *)
Lemma decode_EncodeToString (src : string) :
  base64.decode (base64.EncodeToString src) = Some src.
Proof.
  induction src as [| a | a b | a b c rest IH] using string_ind3.
  - reflexivity.
  - cbn [base64.EncodeToString base64.decode].
    rewrite !decodeMap_encode by apply index_lt. cbn [mbind option_bind].
    pose proof (byte_bound a) as Ha.
    rewrite quantum_eq by (try apply index_lt; lia).
    rewrite !index_eq, val1_eq, N.shiftr_div_pow2. pow2.
    f_equal. f_equal. apply byte_eq. div_lia.
  - cbn [base64.EncodeToString base64.decode].
    rewrite !decodeMap_encode by apply index_lt. cbn [mbind option_bind].
    pose proof (byte_bound a) as Ha. pose proof (byte_bound b) as Hb.
    rewrite quantum_eq by (try apply index_lt; lia).
    rewrite !index_eq, val2_eq, !N.shiftr_div_pow2 by assumption. pow2.
    f_equal. f_equal; [apply byte_eq; div_lia |].
    f_equal. apply byte_eq. div_lia.
  - cbn [base64.EncodeToString base64.decode].
    rewrite !decodeMap_encode by apply index_lt. cbn [mbind option_bind].
    rewrite IH. cbn [mbind option_bind].
    pose proof (byte_bound a) as Ha. pose proof (byte_bound b) as Hb.
    pose proof (byte_bound c) as Hc.
    rewrite quantum_eq by apply index_lt.
    rewrite !index_eq, val3_eq, !N.shiftr_div_pow2 by assumption. pow2.
    f_equal. f_equal; [apply byte_eq; div_lia |].
    f_equal; [apply byte_eq; div_lia |].
    f_equal. apply byte_eq. div_lia.
Qed.


Lemma plain_EncodeToString (src : string) : plain (base64.EncodeToString src) = true.
Proof.
  assert (H : forall val shift,
            negb (base64.newline (base64.encode (base64.index val shift))) &&
            negb (Ascii.eqb (base64.encode (base64.index val shift)) ".") = true).
  { intros val shift.
    destruct (encode_plain _ (index_lt val shift)) as [H1 H2].
    rewrite H1. apply Ascii.eqb_neq in H2. now rewrite H2. }
  induction src as [| a | a b | a b c rest IH] using string_ind3;
    cbn [base64.EncodeToString plain]; rewrite ?H, ?IH; reflexivity.
Qed.

Lemma plain_app (s t : string) : plain (s ++ t) = plain s && plain t.
Proof.
  induction s as [| c s IH]; simpl; [reflexivity |]. rewrite IH. now rewrite andb_assoc.
Qed.

Lemma without_newlines_plain (s : string) : plain s = true -> base64.without_newlines s = s.
Proof.
  induction s as [| c s IH]; simpl; [reflexivity |].
  intros H. apply andb_true_iff in H. destruct H as [H Hs].
  apply andb_true_iff in H. destruct H as [H _]. apply negb_true_iff in H.
  rewrite H. now rewrite IH.
Qed.

Lemma without_newlines_app (s t : string) :
  base64.without_newlines (s ++ t) = base64.without_newlines s ++ base64.without_newlines t.
Proof.
  induction s as [| c s IH]; simpl; [reflexivity |].
  destruct (base64.newline c); simpl; now rewrite IH.
Qed.

(** [DecodeString] reads back what [EncodeToString] wrote. *)
Lemma DecodeString_EncodeToString (src : string) :
  base64.DecodeString (base64.EncodeToString src) = Some src.
Proof.
  unfold base64.DecodeString.
  rewrite without_newlines_plain by apply plain_EncodeToString.
  apply decode_EncodeToString.
Qed.

Lemma N_of_byte (n : N) : N_of_ascii (base64.byte n) = (n mod 256)%N.
Proof.
  unfold base64.byte. rewrite land_255. apply N_ascii_embedding.
  now apply N.mod_lt.
Qed.

Lemma string_length_app (s t : string) :
  String.length (s ++ t) = (String.length s + String.length t)%nat.
Proof. induction s as [| c s IH]; simpl; [reflexivity | now rewrite IH]. Qed.

Lemma all_but_last_cons (c : ascii) (s : string) :
  s <> EmptyString -> all_but_last (String c s) = String c (all_but_last s).
Proof. destruct s; [contradiction | reflexivity]. Qed.

Lemma all_but_last_app (s : string) (c : ascii) (t : string) :
  t <> EmptyString -> all_but_last (s ++ String c t) = s ++ String c (all_but_last t).
Proof.
  intros Ht. induction s as [| d s IH].
  - simpl. now apply all_but_last_cons.
  - change (String d s ++ String c t) with (String d (s ++ String c t)).
    rewrite all_but_last_cons by (destruct s; discriminate).
    rewrite IH. reflexivity.
Qed.

Lemma string_app_inv_head (s t u : string) : s ++ t = s ++ u -> t = u.
Proof. induction s as [| c s IH]; simpl; [auto |]. intros [= H]. auto. Qed.

Lemma string_length_0 (s : string) : String.length s = 0%nat -> s = EmptyString.
Proof. destruct s; [reflexivity | discriminate]. Qed.

(** What decodes to [b] is the encoding of [b], but for its last byte. *)
Lemma decode_canonical (s b : string) :
  base64.decode s = Some b ->
  String.length s = String.length (base64.EncodeToString b) /\
  all_but_last s = all_but_last (base64.EncodeToString b).
Proof.
  revert b. induction s as [| c0 | c0 c1 | c0 c1 c2 | c0 c1 c2 c3 rest IH] using string_ind4;
    intros b; cbn [base64.decode].
  - intros [= <-]. split; reflexivity.
  - discriminate.
  - destruct (base64.decodeMap c0) as [d0 |] eqn:E0; [| discriminate].
    destruct (base64.decodeMap c1) as [d1 |] eqn:E1; [| discriminate].
    cbn [mbind option_bind]. intros [= <-].
    apply encode_decodeMap in E0, E1. destruct E0 as [H0 <-], E1 as [H1 <-].
    cbn [base64.EncodeToString String.length all_but_last].
    split; [reflexivity |]. f_equal. f_equal.
    rewrite index_eq, val1_eq, N_of_byte, quantum_eq, N.shiftr_div_pow2 by lia. pow2.
    div_lia.
  - destruct (base64.decodeMap c0) as [d0 |] eqn:E0; [| discriminate].
    destruct (base64.decodeMap c1) as [d1 |] eqn:E1; [| discriminate].
    destruct (base64.decodeMap c2) as [d2 |] eqn:E2; [| discriminate].
    cbn [mbind option_bind]. intros [= <-].
    apply encode_decodeMap in E0, E1, E2.
    destruct E0 as [H0 <-], E1 as [H1 <-], E2 as [H2 <-].
    cbn [base64.EncodeToString String.length all_but_last].
    split; [reflexivity |].
    rewrite !index_eq, !N_of_byte, quantum_eq, !N.shiftr_div_pow2 by lia.
    rewrite val2_eq by (now apply N.mod_lt). pow2.
    f_equal; [f_equal; div_lia |]. f_equal. f_equal. div_lia.
  - destruct (base64.decodeMap c0) as [d0 |] eqn:E0; [| discriminate].
    destruct (base64.decodeMap c1) as [d1 |] eqn:E1; [| discriminate].
    destruct (base64.decodeMap c2) as [d2 |] eqn:E2; [| discriminate].
    destruct (base64.decodeMap c3) as [d3 |] eqn:E3; [| discriminate].
    cbn [mbind option_bind].
    destruct (base64.decode rest) as [tail |] eqn:R; [| discriminate].
    cbn [mbind option_bind]. intros [= <-].
    destruct (IH tail eq_refl) as [Hlen Hbut].
    apply encode_decodeMap in E0, E1, E2, E3.
    destruct E0 as [H0 E0], E1 as [H1 E1], E2 as [H2 E2], E3 as [H3 E3].
    cbn [base64.EncodeToString].
    assert (Q : forall k,
              base64.index
                (N.lor
                   (N.lor
                      (N.shiftl
                         (N_of_ascii (base64.byte (N.shiftr (base64.quantum d0 d1 d2 d3) 16))) 16)
                      (N.shiftl
                         (N_of_ascii (base64.byte (N.shiftr (base64.quantum d0 d1 d2 d3) 8))) 8))
                   (N_of_ascii (base64.byte (N.shiftr (base64.quantum d0 d1 d2 d3) 0)))) k =
              base64.index (d0 * 262144 + d1 * 4096 + d2 * 64 + d3) k).
    { intros k. f_equal.
      rewrite !N_of_byte, quantum_eq, !N.shiftr_div_pow2 by lia.
      rewrite val3_eq by (now apply N.mod_lt). pow2. div_lia. }
    rewrite !Q. rewrite !index_eq. pow2.
    replace (((d0 * 262144 + d1 * 4096 + d2 * 64 + d3) / 262144) mod 64)%N with d0 by div_lia.
    replace (((d0 * 262144 + d1 * 4096 + d2 * 64 + d3) / 4096) mod 64)%N with d1 by div_lia.
    replace (((d0 * 262144 + d1 * 4096 + d2 * 64 + d3) / 64) mod 64)%N with d2 by div_lia.
    replace (((d0 * 262144 + d1 * 4096 + d2 * 64 + d3) / 1) mod 64)%N with d3 by div_lia.
    rewrite E0, E1, E2, E3.
    split; [simpl; now rewrite Hlen |].
    destruct rest as [| r rest].
    + simpl in Hlen. symmetry in Hlen. apply string_length_0 in Hlen. rewrite Hlen. reflexivity.
    + destruct (base64.EncodeToString tail) as [| t tail'] eqn:T; [discriminate Hlen |].
      rewrite !(all_but_last_cons c0), !(all_but_last_cons c1), !(all_but_last_cons c2),
        !(all_but_last_cons c3) by discriminate.
      now rewrite Hbut.
Qed.

Lemma decode_length (s t b : string) :
  base64.decode s = Some b -> base64.decode t = Some b -> String.length s = String.length t.
Proof.
  intros Hs Ht. apply decode_canonical in Hs, Ht. destruct Hs as [-> _], Ht as [-> _].
  reflexivity.
Qed.

(** Altering a byte other than the last of an encoding changes what it
    decodes to, or makes it undecodable. *)
Lemma DecodeString_altered (src p q : string) (x y : ascii) :
  base64.EncodeToString src = p ++ String x q ->
  y <> x -> q <> EmptyString ->
  base64.DecodeString (p ++ String y q) <> Some src.
Proof.
  intros He Hy Hq D.
  pose proof (plain_EncodeToString src) as Hplain.
  rewrite He, plain_app in Hplain. apply andb_true_iff in Hplain.
  destruct Hplain as [Hp Hxq]. simpl in Hxq.
  apply andb_true_iff in Hxq. destruct Hxq as [_ Hqp].
  pose proof (decode_EncodeToString src) as Horig. rewrite He in Horig.
  unfold base64.DecodeString in D.
  rewrite without_newlines_app in D. simpl in D.
  rewrite !without_newlines_plain in D by assumption.
  destruct (base64.newline y) eqn:N.
  - pose proof (decode_length _ _ _ D Horig) as L.
    rewrite !string_length_app in L. simpl in L. lia.
  - apply decode_canonical in D, Horig.
    destruct D as [_ D], Horig as [_ Horig].
    rewrite <- Horig in D. rewrite !all_but_last_app in D by assumption.
    apply string_app_inv_head in D. injection D as D. contradiction.
Qed.

End Base64.

Lemma Count_plain (s : string) : plain s = true -> strings.Count s "." = 0%nat.
Proof.
  induction s as [| c s IH]; simpl; [reflexivity |].
  intros H. apply andb_true_iff in H. destruct H as [H Hs].
  apply andb_true_iff in H. destruct H as [_ H]. apply negb_true_iff in H.
  rewrite H. simpl. auto.
Qed.

Lemma Split_cons (before after : string) (sep : ascii) :
  strings.Count before sep = 0%nat ->
  strings.Split (before ++ String sep after) sep = before :: strings.Split after sep.
Proof.
  intros Hb. induction before as [| c before IH]; simpl in *.
  - now rewrite Ascii.eqb_refl.
  - destruct (Ascii.eqb c sep); [discriminate |]. now rewrite (IH Hb).
Qed.

Lemma Split_singleton (s x : string) (sep : ascii) :
  strings.Split s sep = [ x ] -> x = s /\ strings.Count s sep = 0%nat.
Proof.
  intros H. pose proof (Split_length s sep) as L. rewrite H in L. simpl in L.
  assert (C : strings.Count s sep = 0%nat) by lia.
  rewrite (Split_no_sep _ _ C) in H. injection H as <-. auto.
Qed.

Lemma Count_without_newlines (s : string) :
  strings.Count (base64.without_newlines s) "." = strings.Count s ".".
Proof.
  induction s as [| c s IH]; simpl; [reflexivity |].
  destruct c as [[] [] [] [] [] [] [] []]; simpl; rewrite IH; reflexivity.
Qed.

Lemma decode_no_dot (s b : string) :
  base64.decode s = Some b -> strings.Count s "." = 0%nat.
Proof.
  assert (D : forall c d, base64.decodeMap c = Some d -> Ascii.eqb c "." = false).
  { intros c d H. destruct (Ascii.eqb_spec c ".") as [-> | ?]; [discriminate H | reflexivity]. }
  revert b. induction s as [| c0 | c0 c1 | c0 c1 c2 | c0 c1 c2 c3 rest IH] using string_ind4;
    intros b; cbn [base64.decode strings.Count].
  - reflexivity.
  - discriminate.
  - destruct (base64.decodeMap c0) as [d0 |] eqn:E0; [| discriminate].
    destruct (base64.decodeMap c1) as [d1 |] eqn:E1; [| discriminate].
    intros _. now rewrite (D _ _ E0), (D _ _ E1).
  - destruct (base64.decodeMap c0) as [d0 |] eqn:E0; [| discriminate].
    destruct (base64.decodeMap c1) as [d1 |] eqn:E1; [| discriminate].
    destruct (base64.decodeMap c2) as [d2 |] eqn:E2; [| discriminate].
    intros _. now rewrite (D _ _ E0), (D _ _ E1), (D _ _ E2).
  - destruct (base64.decodeMap c0) as [d0 |] eqn:E0; [| discriminate].
    destruct (base64.decodeMap c1) as [d1 |] eqn:E1; [| discriminate].
    destruct (base64.decodeMap c2) as [d2 |] eqn:E2; [| discriminate].
    destruct (base64.decodeMap c3) as [d3 |] eqn:E3; [| discriminate].
    cbn [mbind option_bind].
    destruct (base64.decode rest) as [tail |] eqn:R; [| discriminate].
    intros _. rewrite (D _ _ E0), (D _ _ E1), (D _ _ E2), (D _ _ E3). simpl.
    exact (IH tail eq_refl).
Qed.

(** What decodes has no dot. *)
Lemma DecodeString_no_dot (s b : string) :
  base64.DecodeString s = Some b -> strings.Count s "." = 0%nat.
Proof.
  unfold base64.DecodeString. intros H. apply decode_no_dot in H.
  now rewrite Count_without_newlines in H.
Qed.

(** ** The token manager *)

Section Token.

Context {mac : jwt.MAC}.

Lemma as_int64_Number (n old : Z) : int64 n -> json.as_int64 (json.Number n) old = Some n.
Proof.
  unfold int64, json.as_int64. intros [H1 H2].
  destruct (Z.leb_spec json.MinInt64 n); [| lia].
  destruct (Z.leb_spec n json.MaxInt64); [| lia]. reflexivity.
Qed.

(** Field resolution on the closed field table, by evaluation. *)
Ltac resolve_fields :=
  repeat (cbn -[json.as_int64 json.is_dominant json.dominant json.coerce];
    match goal with
    | |- context [json.is_dominant ?fs ?f] =>
        let b := eval vm_compute in (json.is_dominant fs f) in
        change (json.is_dominant fs f) with b
    | |- context [json.dominant ?fs ?k] =>
        let b := eval vm_compute in (json.dominant fs k) in
        change (json.dominant fs k) with b
    | |- context [json.as_int64 (json.Number ?n) _] =>
        rewrite (as_int64_Number n) by assumption
    end);
  cbn -[json.coerce].

(** What decoding makes of encoded claims: the fields of [Claims] itself
    come back, the strings coerced to valid UTF-8; of the embedded struct,
    [exp] and [iat] do not, their JSON names being taken by the outer
    fields. *)
Lemma marshal_unmarshal (mid em tt : string) (exp iat : Z) (iss sub : string)
    (rexp riat : option jwt.NumericDate) :
  int64 exp -> int64 iat ->
  jwt.UnmarshalJSON
    (jwt.MarshalJSON
       {| token.MemberID := mid; token.Email := em; token.TokenType := tt;
          token.ExpiresAt := exp; token.IssuedAt := iat;
          token.RegisteredClaims :=
            {| jwt.Issuer := iss; jwt.Subject := sub; jwt.Audience := [];
               jwt.ExpiresAt := rexp; jwt.NotBefore := None; jwt.IssuedAt := riat;
               jwt.ID := "" |} |})
    token.Claims_zero
  = Some {| token.MemberID := json.coerce mid; token.Email := json.coerce em;
            token.TokenType := json.coerce tt;
            token.ExpiresAt := exp; token.IssuedAt := iat;
            token.RegisteredClaims :=
              {| jwt.Issuer := json.coerce iss; jwt.Subject := json.coerce sub;
                 jwt.Audience := [];
                 jwt.ExpiresAt := None; jwt.NotBefore := None; jwt.IssuedAt := None;
                 jwt.ID := "" |} |}.
Proof.
  intros Hexp Hiat.
  destruct iss, sub; resolve_fields; reflexivity.
Qed.

(** C9. Access-token claims: the claims that [GenerateAccessToken] signs
    carry token type ["access"], the issue time as issued-at, the issue time
    plus the access TTL as expires-at, both in seconds, and the member id as
    subject identity, in the claims value and in the payload of the token,
    whose members [token_type], [iat], [exp] and [member_id] hold them (the
    member id as it is written, which is the member id itself when it is
    valid UTF-8). *)
Theorem GenerateAccessToken_claims (m : token.JWTManager) (now : time.Time)
    (memberID email : string) :
  let claims := token.access_claims m now memberID email in
  let payload := jwt.MarshalJSON claims in
  token.GenerateAccessToken m now memberID email =
    Ok (jwt.Compact (jwt.Header (Some jwt.HS256)) (jwt.ClaimsObject payload)
          (jwt.Signature
             (jwt.HMAC_SHA256 (token.secret m)
                (jwt.Header (Some jwt.HS256), jwt.ClaimsObject payload)))) /\
  token.TokenType claims = "access"%string /\
  token.IssuedAt claims = time.Unix now /\
  token.ExpiresAt claims = time.Unix (time.Add now (token.accessExpiry m)) /\
  token.MemberID claims = memberID /\
  json.member "token_type" payload = Some (json.Str "access") /\
  json.member "iat" payload = Some (json.Number (time.Unix now)) /\
  json.member "exp" payload =
    Some (json.Number (time.Unix (time.Add now (token.accessExpiry m)))) /\
  json.member "member_id" payload = Some (json.Str (json.coerce memberID)) /\
  (utf8.ValidString memberID = true ->
   json.member "member_id" payload = Some (json.Str memberID)).
Proof.
  cbv zeta.
  split; [reflexivity |]. split; [reflexivity |]. split; [reflexivity |].
  split; [reflexivity |]. split; [reflexivity |].
  assert (H : forall k v,
            json.member k
              [ ("member_id"%string, json.Str (json.coerce memberID));
                ("email"%string, json.Str (json.coerce email));
                ("token_type"%string, json.Str "access");
                ("exp"%string, json.Number (time.Unix (time.Add now (token.accessExpiry m))));
                ("iat"%string, json.Number (time.Unix now)) ] = Some v ->
            (k = "member_id"%string \/ k = "token_type"%string \/ k = "exp"%string \/
             k = "iat"%string) ->
            json.member k (jwt.MarshalJSON (token.access_claims m now memberID email)) = Some v).
  { intros k v Hk Hin. unfold token.access_claims, jwt.NewNumericDate.
    destruct (token.issuer m) as [| a iss];
      destruct Hin as [-> | [-> | [-> | ->]]]; resolve_fields; exact Hk. }
  split; [apply H; [reflexivity | auto] |].
  split; [apply H; [reflexivity | auto] |].
  split; [apply H; [reflexivity | auto] |].
  split; [apply H; [reflexivity | auto] |].
  intros Hvalid. rewrite <- (coerce_valid _ Hvalid) at 2. apply H; [reflexivity | auto].
Qed.

Lemma mem_HS256_registered : jwt.mem jwt.HS256 jwt.registered_methods = true.
Proof. reflexivity. Qed.

(** A token of [GenerateAccessToken] validates at every time [at_]: the
    expiry takes no part. *)
Lemma ValidateToken_generated (m : token.JWTManager) (now at_ : time.Time)
    (memberID email : string) :
  int64 (time.Unix now) ->
  int64 (time.Unix (time.Add now (token.accessExpiry m))) ->
  exists (c : jwt.ClaimsSegment) (sig : string) (claims : token.Claims),
    token.GenerateAccessToken m now memberID email =
      Ok (jwt.Compact (jwt.Header (Some jwt.HS256)) c (jwt.Signature sig)) /\
    sig = jwt.HMAC_SHA256 (token.secret m) (jwt.Header (Some jwt.HS256), c) /\
    c = jwt.ClaimsObject (jwt.MarshalJSON (token.access_claims m now memberID email)) /\
    jwt.UnmarshalJSON (jwt.MarshalJSON (token.access_claims m now memberID email))
      token.Claims_zero = Some claims /\
    token.ValidateToken m at_
      (jwt.Compact (jwt.Header (Some jwt.HS256)) c (jwt.Signature sig)) = Ok claims /\
    token.MemberID claims = json.coerce memberID /\
    token.Email claims = json.coerce email /\
    token.TokenType claims = token.ACCESS /\
    token.ExpiresAt claims = time.Unix (time.Add now (token.accessExpiry m)).
Proof.
  intros Hiat Hexp.
  eexists _, _, _.
  split; [reflexivity |]. split; [reflexivity |]. split; [reflexivity |].
  pose proof (marshal_unmarshal memberID email token.ACCESS _ _ (token.issuer m) ""
                (Some (time.Unix (time.Add now (token.accessExpiry m))))
                (Some (time.Unix now)) Hexp Hiat) as Hrt.
  split; [exact Hrt |].
  split; [| repeat split; reflexivity].
  unfold token.ValidateToken, jwt.ParseWithClaims.
  unfold token.access_claims, jwt.NewNumericDate in *.
  rewrite Hrt.
  rewrite mem_HS256_registered. simpl negb. cbv iota.
  unfold jwt.Verify. rewrite String.eqb_refl.
  reflexivity.
Qed.

(** The string of a token is read back as its segments: the first two
    decode to what they were written from, the third is whatever stands in
    its place. *)
Lemma split_serialized {text : json.Text} (o : json.Object) (third : string) :
  json.parse (json.text (jwt.header_object jwt.HS256)) = Some (jwt.header_object jwt.HS256) ->
  json.parse (json.text o) = Some o ->
  jwt.split
    (jwt.EncodeSegment (json.text (jwt.header_object jwt.HS256)) ++ "." ++
     jwt.EncodeSegment (json.text o) ++ "." ++ third) =
    match strings.Split third "." with
    | [ s ] =>
        jwt.Compact (jwt.Header (Some jwt.HS256)) (jwt.ClaimsObject o) (jwt.decode_signature s)
    | _ =>
        jwt.NotThreeSegments
          (jwt.EncodeSegment (json.text (jwt.header_object jwt.HS256)) ++ "." ++
           jwt.EncodeSegment (json.text o) ++ "." ++ third)
    end.
Proof.
  intros Hh Ho. unfold jwt.split at 1.
  repeat match goal with
         | |- context [("." ++ ?x)%string] => change ("." ++ x)%string with (String "." x)
         end.
  unfold jwt.EncodeSegment.
  rewrite !Split_cons by (apply Count_plain, plain_EncodeToString).
  destruct (strings.Split third ".") as [| s [| s' rest]]; try reflexivity.
  unfold jwt.decode_header, jwt.decode_claims, jwt.DecodeSegment.
  rewrite !DecodeString_EncodeToString. simpl.
  rewrite Hh, Ho. reflexivity.
Qed.

Lemma ValidateToken_NotThreeSegments (m : token.JWTManager) (now : time.Time) (raw : string) :
  token.ValidateToken m now (jwt.NotThreeSegments raw) = Err token.ErrInvalidToken.
Proof. reflexivity. Qed.

(** C1, as amended. Token round-trip, on the string of the token: for a
    member id and an e-mail that are valid UTF-8, the string that
    [GenerateAccessToken] returns, validated by the same manager before its
    expiry, yields claims with that member id, that e-mail and token type
    ["access"]; the same string with another signature segment is rejected
    with an error exactly when that segment does not decode to the signature,
    as is the case when one byte of the segment other than its last is
    altered.  The JSON text of the header and of the payload is taken to be
    read back as written. *)
Theorem access_token_round_trip {text : json.Text} (m : token.JWTManager)
    (now at_ : time.Time) (memberID email : string) :
  utf8.ValidString memberID = true ->
  utf8.ValidString email = true ->
  int64 (time.Unix now) ->
  int64 (time.Unix (time.Add now (token.accessExpiry m))) ->
  time.Before at_ (time.Add now (token.accessExpiry m)) = true ->
  json.parse (json.text (jwt.header_object jwt.HS256)) = Some (jwt.header_object jwt.HS256) ->
  json.parse (json.text (jwt.MarshalJSON (token.access_claims m now memberID email))) =
    Some (jwt.MarshalJSON (token.access_claims m now memberID email)) ->
  exists (t : jwt.TokenString) (header payload sig : string) (claims : token.Claims),
    token.GenerateAccessToken m now memberID email = Ok t /\
    jwt.serialize t = Some (header ++ "." ++ payload ++ "." ++ jwt.EncodeSegment sig) /\
    jwt.split (header ++ "." ++ payload ++ "." ++ jwt.EncodeSegment sig) = t /\
    token.ValidateToken m at_
      (jwt.split (header ++ "." ++ payload ++ "." ++ jwt.EncodeSegment sig)) = Ok claims /\
    token.MemberID claims = memberID /\
    token.Email claims = email /\
    token.TokenType claims = "access"%string /\
    (forall altered : string,
       jwt.DecodeSegment altered <> Some sig ->
       token.ValidateToken m at_ (jwt.split (header ++ "." ++ payload ++ "." ++ altered)) =
         Err token.ErrInvalidToken) /\
    (forall altered : string,
       jwt.DecodeSegment altered = Some sig ->
       token.ValidateToken m at_ (jwt.split (header ++ "." ++ payload ++ "." ++ altered)) =
         Ok claims) /\
    (forall (before after : string) (x y : ascii),
       jwt.EncodeSegment sig = (before ++ String x after)%string ->
       y <> x -> after <> ""%string ->
       token.ValidateToken m at_
         (jwt.split (header ++ "." ++ payload ++ "." ++ before ++ String y after)) =
         Err token.ErrInvalidToken).
Proof.
  intros Hid Hmail Hiat Hexp _ Hh Ho.
  destruct (ValidateToken_generated m now at_ memberID email Hiat Hexp)
    as (c & sig & claims & Hgen & Hsig & Hc & Hdec & Hval & Hcid & Hcmail & Htype & _).
  rewrite (coerce_valid _ Hid) in Hcid. rewrite (coerce_valid _ Hmail) in Hcmail.
  exists (jwt.Compact (jwt.Header (Some jwt.HS256)) c (jwt.Signature sig)),
    (jwt.EncodeSegment (json.text (jwt.header_object jwt.HS256))),
    (jwt.EncodeSegment (json.text (jwt.MarshalJSON (token.access_claims m now memberID email)))),
    sig, claims.
  assert (Hsplit : forall third,
            token.ValidateToken m at_
              (jwt.split
                 (jwt.EncodeSegment (json.text (jwt.header_object jwt.HS256)) ++ "." ++
                  jwt.EncodeSegment
                    (json.text (jwt.MarshalJSON (token.access_claims m now memberID email))) ++
                  "." ++ third)) =
            match jwt.DecodeSegment third with
            | Some sig' =>
                token.ValidateToken m at_
                  (jwt.Compact (jwt.Header (Some jwt.HS256)) c (jwt.Signature sig'))
            | None => Err token.ErrInvalidToken
            end).
  { intros third. rewrite (split_serialized _ third Hh Ho).
    destruct (strings.Split third ".") as [| s [| s' rest]] eqn:S.
    - pose proof (Split_length third ".") as L. rewrite S in L. discriminate L.
    - apply Split_singleton in S. destruct S as [-> _].
      unfold jwt.decode_signature. rewrite <- Hc.
      destruct (jwt.DecodeSegment third) as [sig' |]; [reflexivity |].
      unfold token.ValidateToken, jwt.ParseWithClaims.
      rewrite Hc, Hdec, mem_HS256_registered. reflexivity.
    - rewrite ValidateToken_NotThreeSegments.
      destruct (jwt.DecodeSegment third) as [sig' |] eqn:D; [| reflexivity].
      apply DecodeString_no_dot in D.
      pose proof (Split_length third ".") as L. rewrite S, D in L. discriminate L. }
  assert (Hround : jwt.DecodeSegment (jwt.EncodeSegment sig) = Some sig)
    by apply DecodeString_EncodeToString.
  assert (Hbad : forall altered,
            jwt.DecodeSegment altered <> Some sig ->
            token.ValidateToken m at_
              (jwt.split
                 (jwt.EncodeSegment (json.text (jwt.header_object jwt.HS256)) ++ "." ++
                  jwt.EncodeSegment
                    (json.text (jwt.MarshalJSON (token.access_claims m now memberID email))) ++
                  "." ++ altered)) = Err token.ErrInvalidToken).
  { intros altered Hne. rewrite Hsplit.
    destruct (jwt.DecodeSegment altered) as [sig' |]; [| reflexivity].
    unfold token.ValidateToken, jwt.ParseWithClaims.
    rewrite Hc, Hdec, mem_HS256_registered. simpl negb. cbv iota.
    unfold jwt.Verify. rewrite <- Hc, <- Hsig.
    destruct (String.eqb_spec sig' sig) as [-> | Hdiff]; [contradiction | reflexivity]. }
  split; [exact Hgen |].
  split; [rewrite Hc; reflexivity |].
  split.
  { rewrite (split_serialized _ _ Hh Ho).
    assert (S : strings.Split (jwt.EncodeSegment sig) "." = [ jwt.EncodeSegment sig ])
      by apply Split_no_sep, Count_plain, plain_EncodeToString.
    rewrite S. unfold jwt.decode_signature. rewrite Hround, Hc. reflexivity. }
  split; [rewrite Hsplit, Hround; exact Hval |].
  split; [exact Hcid |]. split; [exact Hcmail |]. split; [exact Htype |].
  split; [exact Hbad |].
  split.
  - intros altered D. rewrite Hsplit, D. exact Hval.
  - intros before after x y He Hy Hafter. apply Hbad.
    exact (DecodeString_altered sig before after x y He Hy Hafter).
Qed.

(** The parser hands back the claims it was given, marked valid. *)
Lemma ParseWithClaims_Ok (m : token.JWTManager) (now : time.Time)
    (tokenString : jwt.TokenString) (t : jwt.Token token.Claims) :
  jwt.ParseWithClaims [ jwt.HS256 ] now tokenString token.Claims_zero (token.secret m) = Ok t ->
  jwt.Valid t = true /\ exists claims, jwt.TokenClaims t = jwt.Ptr claims.
Proof.
  unfold jwt.ParseWithClaims.
  destruct tokenString as [raw | [| alg] c s]; try discriminate.
  destruct (match c with jwt.BadClaims => None | jwt.ClaimsObject o => _ end) as [decoded |];
    [| discriminate].
  destruct alg as [a |]; [| discriminate].
  destruct (negb (jwt.mem a jwt.registered_methods)); [discriminate |].
  destruct (negb (jwt.mem a [ jwt.HS256 ])); [discriminate |].
  destruct s as [| sig]; [discriminate |].
  destruct (jwt.Verify _ sig _); [discriminate |].
  destruct (jwt.Validate decoded now); [discriminate |].
  intros [= <-]. simpl. eauto.
Qed.

Lemma ValidateToken_of_parse_error (m : token.JWTManager) (now : time.Time)
    (tokenString : jwt.TokenString) (err : error) :
  jwt.ParseWithClaims [ jwt.HS256 ] now tokenString token.Claims_zero (token.secret m) = Err err ->
  token.ValidateToken m now tokenString =
    Err (if errors.Is err jwt.ErrTokenExpired then token.ErrExpiredToken
         else token.ErrInvalidToken).
Proof.
  intros H. unfold token.ValidateToken. rewrite H.
  now destruct (errors.Is err jwt.ErrTokenExpired).
Qed.

Lemma mem_valid_methods (a : string) :
  jwt.mem a [ jwt.HS256 ] = true -> a = jwt.HS256.
Proof.
  unfold jwt.mem. simpl. rewrite orb_false_r. intros H.
  apply String.eqb_eq in H. congruence.
Qed.

(** C2, as amended. The failures of [ValidateToken]: it fails with
    [ErrExpiredToken] exactly when the parser's error carries the library's
    expired condition, and then not with [ErrInvalidToken]; every other
    failure of the parser yields [ErrInvalidToken], among them a token that
    is malformed, a claim payload that cannot be decoded, an algorithm other
    than HS256 and a signature that does not verify; no token string makes it
    fail with [ErrInvalidClaims]. *)
Theorem ValidateToken_failure_taxonomy (m : token.JWTManager) (now : time.Time)
    (tokenString : jwt.TokenString) :
  (forall e : error,
     token.ValidateToken m now tokenString = Err e ->
     (e = token.ErrExpiredToken \/ e = token.ErrInvalidToken) /\ e <> token.ErrInvalidClaims) /\
  (token.ValidateToken m now tokenString = Err token.ErrExpiredToken <->
   exists err : error,
     jwt.ParseWithClaims [ jwt.HS256 ] now tokenString token.Claims_zero (token.secret m) = Err err /\
     errors.Is err jwt.ErrTokenExpired = true) /\
  (forall err : error,
     jwt.ParseWithClaims [ jwt.HS256 ] now tokenString token.Claims_zero (token.secret m) = Err err ->
     errors.Is err jwt.ErrTokenExpired = false ->
     token.ValidateToken m now tokenString = Err token.ErrInvalidToken) /\
  match tokenString with
  | jwt.NotThreeSegments _
  | jwt.Compact jwt.BadHeader _ _
  | jwt.Compact (jwt.Header _) jwt.BadClaims _ =>
      token.ValidateToken m now tokenString = Err token.ErrInvalidToken
  | jwt.Compact (jwt.Header alg) (jwt.ClaimsObject o) s =>
      (jwt.UnmarshalJSON o token.Claims_zero = None ->
       token.ValidateToken m now tokenString = Err token.ErrInvalidToken) /\
      (alg <> Some jwt.HS256 ->
       token.ValidateToken m now tokenString = Err token.ErrInvalidToken) /\
      (s <> jwt.Signature (jwt.HMAC_SHA256 (token.secret m) (jwt.Header alg, jwt.ClaimsObject o)) ->
       token.ValidateToken m now tokenString = Err token.ErrInvalidToken)
  end.
Proof.
  split; [| split; [| split]].
  - intros e. unfold token.ValidateToken.
    destruct (jwt.ParseWithClaims _ now tokenString _ _) as [t | err] eqn:P.
    + destruct (ParseWithClaims_Ok _ _ _ _ P) as [V [claims C]].
      rewrite C, V. discriminate.
    + destruct (errors.Is err jwt.ErrTokenExpired); intros [= <-]; split; auto; discriminate.
  - split.
    + unfold token.ValidateToken.
      destruct (jwt.ParseWithClaims _ now tokenString _ _) as [t | err] eqn:P.
      * destruct (ParseWithClaims_Ok _ _ _ _ P) as [V [claims C]].
        rewrite C, V. discriminate.
      * destruct (errors.Is err jwt.ErrTokenExpired) eqn:E; [eauto | discriminate].
    + intros (err & P & E). rewrite (ValidateToken_of_parse_error _ _ _ _ P). now rewrite E.
  - intros err P E. rewrite (ValidateToken_of_parse_error _ _ _ _ P). now rewrite E.
  - destruct tokenString as [raw | [| alg] [| o] s]; try reflexivity.
    split; [| split].
    + intros H. unfold token.ValidateToken, jwt.ParseWithClaims. now rewrite H.
    + intros Halg. unfold token.ValidateToken, jwt.ParseWithClaims.
      destruct (jwt.UnmarshalJSON o token.Claims_zero); [| reflexivity].
      destruct alg as [a |]; [| reflexivity].
      destruct (jwt.mem a jwt.registered_methods); [| reflexivity].
      destruct (jwt.mem a [ jwt.HS256 ]) eqn:V; [| reflexivity].
      apply mem_valid_methods in V. congruence.
    + intros Hs. unfold token.ValidateToken, jwt.ParseWithClaims.
      destruct (jwt.UnmarshalJSON o token.Claims_zero); [| reflexivity].
      destruct alg as [a |]; [| reflexivity].
      destruct (jwt.mem a jwt.registered_methods); [| reflexivity].
      destruct (jwt.mem a [ jwt.HS256 ]); [| reflexivity].
      destruct s as [| sig]; [reflexivity |].
      unfold jwt.Verify.
      destruct (String.eqb_spec sig
                  (jwt.HMAC_SHA256 (token.secret m) (jwt.Header (Some a), jwt.ClaimsObject o)))
        as [-> | Hne]; [contradiction | reflexivity].
Qed.

End Token.

Lemma access_token_round_trip_witness :
  (utf8.ValidString "1" = true /\
   utf8.ValidString "a@x.com" = true /\
   int64 (time.Unix sample.t0) /\
   int64 (time.Unix (time.Add sample.t0 (token.accessExpiry sample.manager))) /\
   time.Before (sample.t0 + time.Hour) (time.Add sample.t0 (token.accessExpiry sample.manager)) = true /\
   json.parse (Text := sample_more.text) (json.text (Text := sample_more.text) (jwt.header_object jwt.HS256)) =
     Some (jwt.header_object jwt.HS256) /\
   json.parse (Text := sample_more.text)
     (json.text (Text := sample_more.text) (jwt.MarshalJSON (token.access_claims sample.manager sample.t0 "1" "a@x.com"))) =
     Some (jwt.MarshalJSON (token.access_claims sample.manager sample.t0 "1" "a@x.com"))) /\
  exists (t : jwt.TokenString) (header payload sig : string) (claims : token.Claims),
    token.GenerateAccessToken (mac := sample.mac) sample.manager sample.t0 "1" "a@x.com" = Ok t /\
    jwt.serialize (text := sample_more.text) t =
      Some (header ++ "." ++ payload ++ "." ++ jwt.EncodeSegment sig) /\
    jwt.split (text := sample_more.text)
      (header ++ "." ++ payload ++ "." ++ jwt.EncodeSegment sig) = t /\
    token.ValidateToken (mac := sample.mac) sample.manager (sample.t0 + time.Hour)
      (jwt.split (text := sample_more.text)
         (header ++ "." ++ payload ++ "." ++ jwt.EncodeSegment sig)) = Ok claims /\
    token.MemberID claims = "1"%string /\
    token.Email claims = "a@x.com"%string /\
    token.TokenType claims = "access"%string /\
    (forall altered : string,
       jwt.DecodeSegment altered <> Some sig ->
       token.ValidateToken (mac := sample.mac) sample.manager (sample.t0 + time.Hour)
         (jwt.split (text := sample_more.text) (header ++ "." ++ payload ++ "." ++ altered)) =
         Err token.ErrInvalidToken) /\
    (forall altered : string,
       jwt.DecodeSegment altered = Some sig ->
       token.ValidateToken (mac := sample.mac) sample.manager (sample.t0 + time.Hour)
         (jwt.split (text := sample_more.text) (header ++ "." ++ payload ++ "." ++ altered)) =
         Ok claims) /\
    (forall (before after : string) (x y : ascii),
       jwt.EncodeSegment sig = (before ++ String x after)%string ->
       y <> x -> after <> ""%string ->
       token.ValidateToken (mac := sample.mac) sample.manager (sample.t0 + time.Hour)
         (jwt.split (text := sample_more.text)
            (header ++ "." ++ payload ++ "." ++ before ++ String y after)) =
         Err token.ErrInvalidToken).
Proof.
  assert (U1 : utf8.ValidString "1" = true) by reflexivity.
  assert (U2 : utf8.ValidString "a@x.com" = true) by reflexivity.
  assert (H1 : int64 (time.Unix sample.t0)) by (vm_compute; split; discriminate).
  assert (H2 : int64 (time.Unix (time.Add sample.t0 (token.accessExpiry sample.manager))))
    by (vm_compute; split; discriminate).
  assert (H3 : time.Before (sample.t0 + time.Hour)
                 (time.Add sample.t0 (token.accessExpiry sample.manager)) = true)
    by (vm_compute; reflexivity).
  assert (J1 : json.parse (Text := sample_more.text) (json.text (Text := sample_more.text) (jwt.header_object jwt.HS256)) =
               Some (jwt.header_object jwt.HS256)) by reflexivity.
  assert (J2 : json.parse (Text := sample_more.text)
                 (json.text (Text := sample_more.text) (jwt.MarshalJSON
                               (token.access_claims sample.manager sample.t0 "1" "a@x.com"))) =
               Some (jwt.MarshalJSON (token.access_claims sample.manager sample.t0 "1" "a@x.com")))
    by (vm_compute; reflexivity).
  split; [exact (conj U1 (conj U2 (conj H1 (conj H2 (conj H3 (conj J1 J2)))))) |].
  exact (access_token_round_trip (mac := sample.mac) (text := sample_more.text)
           sample.manager sample.t0 (sample.t0 + time.Hour) "1" "a@x.com"
           U1 U2 H1 H2 H3 J1 J2).
Defined.

(** C1, counterexamples to the claim as stated.  A member id that is no
    valid UTF-8 does not come back: the byte [0xFF] is written as U+FFFD.
    And a token signed with 32 bytes, the last byte of its signature segment
    altered from [w] to [x] (which differ in the two bits that no byte of
    the signature takes up), is still accepted. *)
Lemma access_token_round_trip_fails_for_some_string_and_some_byte :
  (exists (t : jwt.TokenString) (claims : token.Claims),
     token.GenerateAccessToken (mac := sample.mac) sample.manager sample.t0
       (String "255" "") "a@x.com" = Ok t /\
     token.ValidateToken (mac := sample.mac) sample.manager (sample.t0 + time.Hour) t =
       Ok claims /\
     token.MemberID claims = json.replacement /\
     token.MemberID claims <> String "255" "") /\
  (exists (t : jwt.TokenString) (header payload before : string) (claims : token.Claims),
     token.GenerateAccessToken (mac := sample_more.mac32) sample.manager sample.t0
       "1" "a@x.com" = Ok t /\
     jwt.serialize (text := sample_more.text) t =
       Some (header ++ "." ++ payload ++ "." ++ before ++ "w") /\
     String.length before = 42%nat /\
     token.ValidateToken (mac := sample_more.mac32) sample.manager (sample.t0 + time.Hour)
       (jwt.split (text := sample_more.text)
          (header ++ "." ++ payload ++ "." ++ before ++ "x")) = Ok claims /\
     token.MemberID claims = "1"%string /\
     token.Email claims = "a@x.com"%string).
Proof.
  split.
  - eexists _, _. split; [reflexivity |].
    split; [vm_compute; reflexivity |].
    split; [reflexivity | discriminate].
  - eexists.
    exists (base64.EncodeToString "header"), (base64.EncodeToString "payload"),
      "dGVzdC1qd3Qtc2VjcmV0LWtleS1tdXN0LWJlLWF0LW"%string.
    eexists. split; [reflexivity |].
    split; [vm_compute; reflexivity |].
    split; [reflexivity |].
    split; [vm_compute; reflexivity |].
    split; reflexivity.
Qed.

Lemma GenerateAccessToken_claims_witness :
  utf8.ValidString "1" = true /\
  jwt.MarshalJSON (token.access_claims sample.manager sample.t0 "1" "a@x.com") =
    [ ("member_id", json.Str "1"); ("email", json.Str "a@x.com");
      ("token_type", json.Str "access"); ("exp", json.Number 1700086400);
      ("iat", json.Number 1700000000); ("iss", json.Str "pray-together-api") ]%string /\
  json.member "member_id"
    (jwt.MarshalJSON (token.access_claims sample.manager sample.t0 "1" "a@x.com")) =
    Some (json.Str "1").
Proof.
  assert (U : utf8.ValidString "1" = true) by reflexivity.
  split; [exact U |]. split; [vm_compute; reflexivity |].
  exact (proj2 (proj2 (proj2 (proj2 (proj2 (proj2 (proj2 (proj2 (proj2
           (GenerateAccessToken_claims (mac := sample.mac) sample.manager sample.t0
              "1" "a@x.com"))))))))) U).
Defined.

(** C2, counterexample to the claim as stated: a correctly signed token
    whose claim payload cannot be decoded into [Claims] (its [member_id] is
    a number) fails with [ErrInvalidToken], not with [ErrInvalidClaims]. *)
Lemma ValidateToken_undecodable_claims_is_ErrInvalidToken :
  let payload := jwt.ClaimsObject [ ("member_id", json.Number 7) ] in
  let header := jwt.Header (Some jwt.HS256) in
  let tokenString :=
    jwt.Compact header payload
      (jwt.Signature (sample.mac (token.secret sample.manager) (header, payload))) in
  jwt.UnmarshalJSON [ ("member_id", json.Number 7) ] token.Claims_zero = None /\
  token.ValidateToken (mac := sample.mac) sample.manager sample.t0 tokenString =
    Err token.ErrInvalidToken /\
  token.ValidateToken (mac := sample.mac) sample.manager sample.t0 tokenString <>
    Err token.ErrInvalidClaims.
Proof.
  cbv zeta. split; [vm_compute; reflexivity |].
  assert (H : token.ValidateToken (mac := sample.mac) sample.manager sample.t0
                (jwt.Compact (jwt.Header (Some jwt.HS256))
                   (jwt.ClaimsObject [ ("member_id", json.Number 7) ])
                   (jwt.Signature
                      (sample.mac (token.secret sample.manager)
                         (jwt.Header (Some jwt.HS256),
                          jwt.ClaimsObject [ ("member_id", json.Number 7) ]))))
              = Err token.ErrInvalidToken) by (vm_compute; reflexivity).
  split; [exact H |]. rewrite H. discriminate.
Qed.

Lemma ValidateToken_failure_taxonomy_witness :
  let tokenString :=
    jwt.Compact (jwt.Header (Some jwt.HS256)) (jwt.ClaimsObject []) (jwt.Signature "forged") in
  (exists err : error,
     jwt.ParseWithClaims (mac := sample.mac) [ jwt.HS256 ] sample.t0 tokenString
       token.Claims_zero (token.secret sample.manager) = Err err /\
     errors.Is err jwt.ErrTokenExpired = false) /\
  token.ValidateToken (mac := sample.mac) sample.manager sample.t0 tokenString =
    Err token.ErrInvalidToken.
Proof.
  cbv zeta.
  assert (P : jwt.ParseWithClaims (mac := sample.mac) [ jwt.HS256 ] sample.t0
                (jwt.Compact (jwt.Header (Some jwt.HS256)) (jwt.ClaimsObject [])
                   (jwt.Signature "forged"))
                token.Claims_zero (token.secret sample.manager)
              = Err (jwt.newError "" jwt.ErrTokenSignatureInvalid [ jwt.ErrSignatureInvalid ]))
    by (vm_compute; reflexivity).
  assert (E : errors.Is (jwt.newError "" jwt.ErrTokenSignatureInvalid [ jwt.ErrSignatureInvalid ])
                jwt.ErrTokenExpired = false) by (vm_compute; reflexivity).
  split; [eexists; split; [exact P | exact E] |].
  exact (proj1 (proj2 (proj2 (ValidateToken_failure_taxonomy (mac := sample.mac)
                                sample.manager sample.t0 _))) _ P E).
Defined.

(** ** Expiry: the embedded [exp] is hidden by the outer one

    What the field resolution of [Claims] does to the expiry check of the
    parser: the check never sees an expiry. *)

Section Expiry.

Context {mac : jwt.MAC}.

Lemma fold_min_le_init {R : Type} (fs : list (json.field R)) (a : nat) :
  (fold_right (fun g d => Nat.min (json.depth g) d) a fs <= a)%nat.
Proof. induction fs as [| x fs IH]; simpl; lia. Qed.

Lemma fold_min_le_elem {R : Type} (fs : list (json.field R)) (a : nat) (g : json.field R) :
  g ∈ fs -> (fold_right (fun g d => Nat.min (json.depth g) d) a fs <= json.depth g)%nat.
Proof.
  induction fs as [| x fs IH]; intros Hin; [inversion Hin |].
  apply elem_of_cons in Hin. simpl. destruct Hin as [-> | Hin]; [lia |].
  specialize (IH Hin). lia.
Qed.

Lemma least_depth_le {R : Type} (fs : list (json.field R)) (g : json.field R) :
  g ∈ fs -> (json.least_depth fs <= json.depth g)%nat.
Proof.
  destruct fs as [| f fs]; intros Hin; [inversion Hin |].
  apply elem_of_cons in Hin. simpl. destruct Hin as [-> | Hin].
  - apply fold_min_le_init.
  - now apply fold_min_le_elem.
Qed.

Lemma dominant_spec {R : Type} (fs : list (json.field R)) (k : string) (f : json.field R) :
  json.dominant fs k = Some f ->
  f ∈ fs /\ json.name f = k /\
  forall g, g ∈ fs -> json.name g = k -> (json.depth f <= json.depth g)%nat.
Proof.
  unfold json.dominant.
  destruct (filter _ (json.named fs k)) as [| f' [| ? ?]] eqn:E; try discriminate.
  intros [= ->].
  assert (Hin : f ∈ filter (fun f0 => (json.depth f0 =? json.least_depth (json.named fs k))%nat = true)
                  (json.named fs k)) by (rewrite E; left).
  apply list_elem_of_filter in Hin. destruct Hin as [Hd Hin].
  apply Nat.eqb_eq in Hd.
  unfold json.named in Hin. apply list_elem_of_filter in Hin as Hin'.
  destruct Hin' as [Hn Hfs]. apply String.eqb_eq in Hn.
  split; [assumption |]. split; [assumption |].
  intros g Hg Hgn. rewrite Hd. apply least_depth_le.
  unfold json.named. apply list_elem_of_filter. split; [now apply String.eqb_eq | assumption].
Qed.

(** No member name of a JSON object denotes the embedded [ExpiresAt]. *)
Lemma Claims_exp_is_hidden (k : string) (f : json.field token.FieldRef) :
  json.dominant token.Claims_fields k = Some f ->
  json.target f <> token.fRegisteredExpiresAt.
Proof.
  intros H. apply dominant_spec in H. destruct H as (Hin & Hname & Hmin).
  intros Ht.
  unfold token.Claims_fields in Hin.
  repeat (apply elem_of_cons in Hin; destruct Hin as [-> | Hin]; try discriminate Ht).
  - simpl in Hname. subst k.
    specialize (Hmin {| json.name := "exp"; json.depth := 0; json.omitempty := false;
                        json.target := token.fExpiresAt |}).
    simpl in Hmin. assert (1 <= 0)%nat; [| lia].
    apply Hmin; [| reflexivity].
    unfold token.Claims_fields. do 3 right. left.
  - inversion Hin.
Qed.

Lemma Unmarshal_keeps_registered_expiry (o : json.Object) (c c' : token.Claims) :
  jwt.UnmarshalJSON o c = Some c' ->
  jwt.ExpiresAt (token.RegisteredClaims c') = jwt.ExpiresAt (token.RegisteredClaims c).
Proof.
  simpl. revert c. induction o as [| [k v] o IH]; intros c; simpl.
  - now intros [= ->].
  - destruct (json.dominant token.Claims_fields k) as [f |] eqn:D; [| apply IH].
    pose proof (Claims_exp_is_hidden _ _ D) as Hne.
    destruct (token.set_field (json.target f) v c) as [c1 |] eqn:Hset; [| discriminate].
    simpl. intros H. rewrite (IH _ H).
    clear - Hset Hne. unfold token.set_field in Hset.
    destruct (json.target f); try contradiction.
    all: match type of Hset with
         | (?x ≫= _) = _ => destruct x; simpl in Hset
         end; try discriminate.
    all: injection Hset as <-; reflexivity.
Qed.

(** The parser never reports the expired condition for [Claims], so
    [ValidateToken] never fails with [ErrExpiredToken]. *)
Lemma ValidateToken_never_ErrExpiredToken (m : token.JWTManager) (now : time.Time)
    (tokenString : jwt.TokenString) :
  token.ValidateToken m now tokenString <> Err token.ErrExpiredToken.
Proof.
  unfold token.ValidateToken, jwt.ParseWithClaims.
  destruct tokenString as [raw | [| alg] c s]; try discriminate.
  destruct (match c with jwt.BadClaims => None | jwt.ClaimsObject o => _ end)
    as [decoded |] eqn:U; [| discriminate].
  destruct alg as [a |]; [| discriminate].
  destruct (negb (jwt.mem a jwt.registered_methods)); [discriminate |].
  destruct (negb (jwt.mem a [ jwt.HS256 ])); [discriminate |].
  destruct s as [| sig]; [discriminate |].
  unfold jwt.Verify. destruct (String.eqb sig _); [| discriminate].
  destruct c as [| o]; [discriminate |].
  apply Unmarshal_keeps_registered_expiry in U.
  unfold jwt.Validate, jwt.verifyExpiresAt. simpl jwt.GetExpirationTime.
  rewrite U. simpl.
  unfold jwt.verifyNotBefore.
  destruct (jwt.GetNotBefore decoded) as [nbf |]; [| discriminate].
  destruct (time.Before now (jwt.Time_of nbf)); discriminate.
Qed.

(** A token of [GenerateAccessToken] is still accepted when its expiry has
    passed. *)
Lemma ValidateToken_accepts_expired_token (m : token.JWTManager) (now at_ : time.Time)
    (memberID email : string) (tokenString : jwt.TokenString) :
  int64 (time.Unix now) ->
  int64 (time.Unix (time.Add now (token.accessExpiry m))) ->
  time.Before at_ (time.Add now (token.accessExpiry m)) = false ->
  token.GenerateAccessToken m now memberID email = Ok tokenString ->
  exists claims : token.Claims,
    token.ValidateToken m at_ tokenString = Ok claims /\
    token.ExpiresAt claims = time.Unix (time.Add now (token.accessExpiry m)).
Proof.
  intros Hiat Hexp _ Hgen.
  destruct (ValidateToken_generated m now at_ memberID email Hiat Hexp)
    as (c & sig & claims & Hgen' & _ & _ & _ & Hval & _ & _ & _ & He).
  rewrite Hgen' in Hgen. injection Hgen as <-. eauto.
Qed.

End Expiry.

(** The claims of an access token, for every manager, time and member;
    those of a refresh token carry the subject. *)
Lemma access_claims_fields (m : token.JWTManager) (now : time.Time) (memberID email : string) :
  let claims := token.access_claims m now memberID email in
  token.TokenType claims = "access"%string /\
  token.IssuedAt claims = time.Unix now /\
  token.ExpiresAt claims = time.Unix (time.Add now (token.accessExpiry m)) /\
  jwt.GetIssuedAt claims = Some (time.Unix now) /\
  jwt.GetExpirationTime claims = Some (time.Unix (time.Add now (token.accessExpiry m))) /\
  jwt.GetSubject claims = ""%string /\
  jwt.GetSubject (token.refresh_claims m now memberID email) = memberID.
Proof. repeat split. Qed.

(** ** The auth and member services *)

Section Services.

Context {hasher : bcrypt.Hasher}.

Lemma find_absent {A : Type} (cond : A -> bool) (l : list A) :
  (forall x, x ∈ l -> cond x = false) -> List.find cond l = None.
Proof.
  induction l as [| x l IH]; intros H; simpl; [reflexivity |].
  rewrite (H x) by left. apply IH. intros y Hy. apply H. now right.
Qed.

Lemma filter_absent {A : Type} (cond : A -> bool) (l : list A) :
  (forall x, x ∈ l -> cond x = false) -> List.filter cond l = [].
Proof.
  induction l as [| x l IH]; intros H; simpl; [reflexivity |].
  rewrite (H x) by left. apply IH. intros y Hy. apply H. now right.
Qed.

Lemma by_email_false (email : string) (row : model.Member) :
  model.Email row <> email -> gorm.by_email email row = false.
Proof. intros H. unfold gorm.by_email. now apply String.eqb_neq. Qed.

Lemma Login_unknown_email (a : auth.AuthService) (request : auth.LoginRequest) (w : World) :
  gorm.failure (db w) = None ->
  (forall row, row ∈ gorm.member (db w) -> model.Email row <> auth.Email request) ->
  fst (auth.Login a request w) = Err (errors.Errorf "error " auth.ErrInCorrectEmailPassword).
Proof.
  intros Hok Habs.
  unfold auth.Login, member.FindByEmail, get_db, gorm.First, mbind, M_bind, mret, M_ret.
  rewrite Hok, find_absent; [reflexivity |].
  intros row Hrow. apply by_email_false. auto.
Qed.

Lemma Login_wrong_password (a : auth.AuthService) (request : auth.LoginRequest) (w : World)
    (m : model.Member) :
  gorm.failure (db w) = None ->
  List.find (gorm.by_email (auth.Email request)) (gorm.member (db w)) = Some m ->
  bcrypt.CompareHashAndPassword (model.Password m) (auth.Password request) <> None ->
  fst (auth.Login a request w) = Err (errors.Errorf "error " auth.ErrInCorrectEmailPassword).
Proof.
  intros Hok Hfind Hcmp.
  unfold auth.Login, member.FindByEmail, get_db, gorm.First, mbind, M_bind, mret, M_ret.
  rewrite Hok, Hfind.
  destruct (bcrypt.CompareHashAndPassword _ _); [reflexivity | contradiction].
Qed.

Lemma Handler_Login_error (a : auth.AuthService) (request : auth.LoginRequest)
    (c : gin.Context) (w : World) (e : error) (resp : sharedError.ErrorResponse) :
  fst (auth.Login a request w) = Err e ->
  sharedError.ResolveDomainError domainErrorResponses (Some e) = (resp, true) ->
  gin.Response (fst (auth.Handler_Login domainErrorResponses a request c w)) =
    Some (sharedError.Status resp, gin.ErrorBody resp).
Proof.
  intros HL HR. unfold auth.Handler_Login, mbind, M_bind, mret, M_ret.
  destruct (auth.Login a request w) as [r w']. simpl in HL. subst r.
  now rewrite HR.
Qed.

(** C3. Login anti-enumeration: a login with an e-mail that has no Member
    row and a login with a registered e-mail and a password that does not
    match both fail, with errors that resolve to the same response, status
    400 and code ["AUTH-003"], and the handler sends the same status and
    body in both cases. *)
Theorem Login_anti_enumeration (a : auth.AuthService)
    (unknown wrong : auth.LoginRequest) (w1 w2 : World) (m : model.Member) :
  gorm.failure (db w1) = None ->
  gorm.failure (db w2) = None ->
  (forall row, row ∈ gorm.member (db w1) -> model.Email row <> auth.Email unknown) ->
  List.find (gorm.by_email (auth.Email wrong)) (gorm.member (db w2)) = Some m ->
  bcrypt.CompareHashAndPassword (model.Password m) (auth.Password wrong) <> None ->
  exists e1 e2 : error,
    fst (auth.Login a unknown w1) = Err e1 /\
    fst (auth.Login a wrong w2) = Err e2 /\
    sharedError.ResolveDomainError domainErrorResponses (Some e1) =
      (incorrectEmailPasswordResponse, true) /\
    sharedError.ResolveDomainError domainErrorResponses (Some e2) =
      sharedError.ResolveDomainError domainErrorResponses (Some e1) /\
    forall c : gin.Context,
      gin.Response (fst (auth.Handler_Login domainErrorResponses a unknown c w1)) =
        Some (400, gin.ErrorBody incorrectEmailPasswordResponse) /\
      gin.Response (fst (auth.Handler_Login domainErrorResponses a wrong c w2)) =
        gin.Response (fst (auth.Handler_Login domainErrorResponses a unknown c w1)).
Proof.
  intros Hok1 Hok2 Habs Hfind Hcmp.
  pose proof (Login_unknown_email a unknown w1 Hok1 Habs) as H1.
  pose proof (Login_wrong_password a wrong w2 m Hok2 Hfind Hcmp) as H2.
  assert (HR : sharedError.ResolveDomainError domainErrorResponses
                 (Some (errors.Errorf "error " auth.ErrInCorrectEmailPassword)) =
               (incorrectEmailPasswordResponse, true)) by (vm_compute; reflexivity).
  exists (errors.Errorf "error " auth.ErrInCorrectEmailPassword),
         (errors.Errorf "error " auth.ErrInCorrectEmailPassword).
  repeat split; try assumption.
  - now rewrite (Handler_Login_error a unknown c w1 _ _ H1 HR).
  - rewrite (Handler_Login_error a unknown c w1 _ _ H1 HR).
    now rewrite (Handler_Login_error a wrong c w2 _ _ H2 HR).
Qed.

Lemma count_present {A : Type} (cond : A -> bool) (l : list A) (x : A) :
  x ∈ l -> cond x = true -> (0 <? Z.of_nat (length (List.filter cond l))) = true.
Proof.
  intros Hin Hc. apply Z.ltb_lt.
  induction l as [| y l IH]; [inversion Hin |].
  apply elem_of_cons in Hin. simpl. destruct Hin as [<- | Hin].
  - rewrite Hc. simpl. lia.
  - specialize (IH Hin). destruct (cond y); simpl; lia.
Qed.

Lemma count_absent {A : Type} (cond : A -> bool) (l : list A) :
  (0 <? Z.of_nat (length (List.filter cond l))) = false -> List.filter cond l = [].
Proof.
  intros H. apply Z.ltb_ge in H.
  destruct (List.filter cond l); [reflexivity | simpl in H; lia].
Qed.

Lemma Signup_existing_email (a : auth.AuthService) (request : auth.SignupRequest) (w : World)
    (row : model.Member) :
  gorm.failure (db w) = None ->
  row ∈ gorm.member (db w) ->
  model.Email row = auth.SignupEmail request ->
  fst (auth.Signup a request w) = Some (errors.Errorf "error " member.ErrMemberAlreadyExists) /\
  db (snd (auth.Signup a request w)) = db w.
Proof.
  intros Hok Hin Hmail.
  unfold auth.Signup, database.WithTransaction, member.IsExist, gorm.Count_email.
  run_M. rewrite Hok. simpl. rewrite Hok.
  rewrite (count_present _ _ row Hin); [split; reflexivity |].
  unfold gorm.by_email. now apply String.eqb_eq.
Qed.

Lemma Signup_success (a : auth.AuthService) (request : auth.SignupRequest) (w : World) :
  fst (auth.Signup a request w) = None ->
  gorm.failure (db w) = None /\
  List.filter (gorm.by_email (auth.SignupEmail request)) (gorm.member (db w)) = [] /\
  exists row : model.Member,
    model.Email row = auth.SignupEmail request /\
    gorm.member (db (snd (auth.Signup a request w))) = (gorm.member (db w) ++ [ row ])%list /\
    gorm.failure (db (snd (auth.Signup a request w))) = None.
Proof.
  unfold auth.Signup, database.WithTransaction, member.IsExist, member.Create,
    gorm.Count_email, gorm.Create.
  run_M.
  destruct (gorm.failure (db w)) as [e |] eqn:Hok; [discriminate |].
  simpl. rewrite Hok.
  destruct (0 <? _) eqn:Hcount; [discriminate |].
  apply count_absent in Hcount.
  destruct (bcrypt.GenerateFromPassword _ _) as [hashed | e]; [| discriminate].
  simpl. rewrite Hok.
  destruct (existsb _ _); [discriminate |].
  simpl. intros _. split; [reflexivity |]. split; [assumption |].
  eexists. split; [| split; reflexivity]. reflexivity.
Qed.

(** C4. Signup with a duplicate e-mail: when a Member row with the e-mail of
    the request exists, [Signup] fails with an error that wraps
    [ErrMemberAlreadyExists], which resolves to 409 / ["MEMBER-002"], and
    leaves the table as it was; and after a successful signup, a second
    signup with the same e-mail fails in that way and exactly one row has
    that e-mail (exactly one row in all, when the table was empty). *)
Theorem Signup_duplicate_email (a : auth.AuthService)
    (first second : auth.SignupRequest) (w : World) :
  auth.SignupEmail second = auth.SignupEmail first ->
  (gorm.failure (db w) = None ->
   (exists row, row ∈ gorm.member (db w) /\ model.Email row = auth.SignupEmail second) ->
   exists e : error,
     fst (auth.Signup a second w) = Some e /\
     Wraps e member.ErrMemberAlreadyExists /\
     errors.Is e member.ErrMemberAlreadyExists = true /\
     sharedError.ResolveDomainError domainErrorResponses (Some e) =
       (memberAlreadyExistsResponse, true) /\
     db (snd (auth.Signup a second w)) = db w) /\
  (fst (auth.Signup a first w) = None ->
   let w1 := snd (auth.Signup a first w) in
   let w2 := snd (auth.Signup a second w1) in
   (exists e : error,
      fst (auth.Signup a second w1) = Some e /\
      Wraps e member.ErrMemberAlreadyExists /\
      sharedError.ResolveDomainError domainErrorResponses (Some e) =
        (memberAlreadyExistsResponse, true)) /\
   db w2 = db w1 /\
   length (List.filter (gorm.by_email (auth.SignupEmail first)) (gorm.member (db w2))) = 1%nat /\
   (gorm.member (db w) = [] -> length (gorm.member (db w2)) = 1%nat)).
Proof.
  intros Hsame.
  assert (Hfacts : Wraps (errors.Errorf "error " member.ErrMemberAlreadyExists)
                     member.ErrMemberAlreadyExists /\
                   errors.Is (errors.Errorf "error " member.ErrMemberAlreadyExists)
                     member.ErrMemberAlreadyExists = true /\
                   sharedError.ResolveDomainError domainErrorResponses
                     (Some (errors.Errorf "error " member.ErrMemberAlreadyExists)) =
                     (memberAlreadyExistsResponse, true)).
  { split; [apply Wraps_step, Wraps_here |]. split; vm_compute; reflexivity. }
  destruct Hfacts as (HW & HI & HR).
  split.
  - intros Hok (row & Hin & Hmail).
    destruct (Signup_existing_email a second w row Hok Hin Hmail) as [He Hdb].
    eexists. repeat split; eassumption.
  - intros H1. cbv zeta.
    destruct (Signup_success a first w H1) as (Hok & Hnone & row & Hmail & Hrows & Hok1).
    assert (Hin : row ∈ gorm.member (db (snd (auth.Signup a first w)))).
    { rewrite Hrows. apply elem_of_app. right. left. }
    assert (Hmail2 : model.Email row = auth.SignupEmail second) by congruence.
    destruct (Signup_existing_email a second _ row Hok1 Hin Hmail2) as [He Hdb].
    split; [eexists; repeat split; eassumption |].
    split; [assumption |].
    rewrite Hdb, Hrows. split.
    + rewrite List.filter_app, Hnone. simpl.
      unfold gorm.by_email. rewrite Hmail, String.eqb_refl. reflexivity.
    + intros Hempty. rewrite Hempty. reflexivity.
Qed.

Lemma find_redact (cond : model.Member -> bool) (l l' : list model.Member) :
  (forall m, cond (redact m) = cond m) ->
  map redact l = map redact l' ->
  redact <$> List.find cond l = redact <$> List.find cond l'.
Proof.
  intros Hcond. revert l'. induction l as [| x l IH]; intros [| y l'] H; try discriminate.
  - reflexivity.
  - pose proof (f_equal (hd (redact x)) H) as Hxy.
    pose proof (f_equal (@tl _) H) as Hl. simpl in Hxy, Hl. simpl.
    rewrite <- (Hcond x), <- (Hcond y), Hxy.
    destruct (cond (redact y)); simpl; [congruence | auto].
Qed.

Lemma GetProfile_found (memberID : N) (w : World) (m : model.Member) :
  gorm.failure (db w) = None ->
  List.find (gorm.by_id memberID) (gorm.member (db w)) = Some m ->
  member.GetProfile memberID w = ((Some (profile_of m), None), w).
Proof.
  intros Hok Hfind.
  unfold member.GetProfile, database.WithTransaction, member.FindByID, gorm.First.
  run_M. rewrite Hok. simpl. rewrite Hok, Hfind. reflexivity.
Qed.

Lemma GetProfile_not_found (memberID : N) (w : World) :
  gorm.failure (db w) = None ->
  List.find (gorm.by_id memberID) (gorm.member (db w)) = None ->
  fst (member.GetProfile memberID w) =
    (None, Some (errors.Errorf "error " member.ErrMemberNotFound)) /\
  db (snd (member.GetProfile memberID w)) = db w.
Proof.
  intros Hok Hfind.
  unfold member.GetProfile, database.WithTransaction, member.FindByID, gorm.First.
  run_M. rewrite Hok. simpl. rewrite Hok, Hfind. split; reflexivity.
Qed.

Lemma GetProfile_cannot_begin (memberID : N) (w : World) (e : error) :
  gorm.failure (db w) = Some e ->
  member.GetProfile memberID w = ((None, Some e), w).
Proof.
  intros Hfail.
  unfold member.GetProfile, database.WithTransaction.
  run_M. rewrite Hfail. reflexivity.
Qed.

Lemma profile_JSON_members (r : member.GetProfileResponse) (k : string) (v : json.Value) :
  (k, v) ∈ json.Marshal member.GetProfileResponse_fields member.get_field r ->
  k ∈ [ "id"; "name"; "email"; "phoneNumber" ]%string.
Proof.
  unfold json.Marshal, member.GetProfileResponse_fields. simpl flat_map.
  repeat match goal with
         | |- context [json.is_dominant ?fs ?f] =>
             let b := eval vm_compute in (json.is_dominant fs f) in
             change (json.is_dominant fs f) with b
         end.
  destruct (member.PhoneNumber r); simpl; intros H;
    repeat (apply elem_of_cons in H; destruct H as [[= <- _] | H]; [set_solver |]);
    inversion H.
Qed.

(** C7. Profile view: [GetProfile] looks the Member up by id inside a
    transaction (a transaction that cannot begin returns its own error and
    no lookup is made); when no row has the id the error wraps
    [ErrMemberNotFound], which resolves to 404 / ["MEMBER-001"]; when a row
    has it, the view is its id, name, e-mail and phone number, the JSON body
    has no member other than those four, and the view is the same whatever
    the password hashes stored in the table; the table is not written. *)
Theorem GetProfile_view (memberID : N) (w : World) :
  (forall e, gorm.failure (db w) = Some e ->
     fst (member.GetProfile memberID w) = (None, Some e)) /\
  (gorm.failure (db w) = None ->
   List.find (gorm.by_id memberID) (gorm.member (db w)) = None ->
   exists e : error,
     fst (member.GetProfile memberID w) = (None, Some e) /\
     Wraps e member.ErrMemberNotFound /\
     sharedError.ResolveDomainError domainErrorResponses (Some e) =
       (memberNotFoundResponse, true)) /\
  (forall m : model.Member,
     gorm.failure (db w) = None ->
     List.find (gorm.by_id memberID) (gorm.member (db w)) = Some m ->
     fst (member.GetProfile memberID w) =
       (Some {| member.ID := model.ID m; member.Name := model.Name m;
                member.Email := model.Email m;
                member.PhoneNumber := model.PhoneNumber m |}, None) /\
     (forall k v,
        member.GetProfileResponse_JSON (fst (fst (member.GetProfile memberID w))) =
          gin.JSONBody
            (json.Marshal member.GetProfileResponse_fields member.get_field (profile_of m)) /\
        ((k, v) ∈ json.Marshal member.GetProfileResponse_fields member.get_field (profile_of m) ->
         k ∈ [ "id"; "name"; "email"; "phoneNumber" ]%string /\ k <> "password"%string)) /\
     (forall w' : World,
        gorm.failure (db w') = None ->
        map redact (gorm.member (db w')) = map redact (gorm.member (db w)) ->
        fst (member.GetProfile memberID w') = fst (member.GetProfile memberID w))) /\
  db (snd (member.GetProfile memberID w)) = db w.
Proof.
  split; [| split; [| split]].
  - intros e He. now rewrite (GetProfile_cannot_begin _ _ _ He).
  - intros Hok Hfind. destruct (GetProfile_not_found _ _ Hok Hfind) as [H _].
    eexists. split; [exact H |]. split; [apply Wraps_step, Wraps_here |].
    vm_compute; reflexivity.
  - intros m Hok Hfind. rewrite (GetProfile_found _ _ _ Hok Hfind).
    split; [reflexivity |]. split.
    + intros k v. split; [reflexivity |].
      intros Hin. pose proof (profile_JSON_members _ _ _ Hin) as Hk.
      split; [assumption |]. intros ->.
      repeat (apply elem_of_cons in Hk; destruct Hk as [Hk | Hk]; [discriminate |]).
      inversion Hk.
    + intros w' Hok' Hred.
      assert (Hby : forall x, gorm.by_id memberID (redact x) = gorm.by_id memberID x)
        by reflexivity.
      pose proof (find_redact _ _ _ Hby Hred) as Hf. rewrite Hfind in Hf.
      destruct (List.find (gorm.by_id memberID) (gorm.member (db w'))) as [m' |] eqn:Hfind';
        [| discriminate].
      rewrite (GetProfile_found _ _ _ Hok' Hfind'). simpl in *.
      injection Hf as H1 H2 H3 H4 _. unfold profile_of. now rewrite H1, H2, H3, H4.
  - destruct (gorm.failure (db w)) as [e |] eqn:Hok.
    + now rewrite (GetProfile_cannot_begin _ _ _ Hok).
    + destruct (List.find (gorm.by_id memberID) (gorm.member (db w))) as [m |] eqn:Hfind.
      * now rewrite (GetProfile_found _ _ _ Hok Hfind).
      * now destruct (GetProfile_not_found _ _ Hok Hfind).
Qed.

End Services.

(** ** The JWT middleware *)

Section Middleware.

Context {mac : jwt.MAC} {decoder : jwt.Decoder}.

Lemma EqualFold_to_lower (s t : string) :
  strings.EqualFold s t = true <-> to_lower s = to_lower t.
Proof.
  revert t. induction s as [| a s IH]; intros [| b t]; simpl; try easy.
  rewrite andb_true_iff, Ascii.eqb_eq, IH. split.
  - intros [-> ->]. reflexivity.
  - intros [= -> ->]. auto.
Qed.

Lemma handleJWTError_registered (c : gin.Context) (err : error) :
  err = middleware.ErrMissingToken \/ err = middleware.ErrInvalidToken \/
  err = middleware.ErrExpiredToken \/ err = middleware.ErrInvalidClaims ->
  sharedError.ResolveDomainError domainErrorResponses (Some err) =
    (middleware.loginPlease, true) /\
  middleware.handleJWTError domainErrorResponses c err =
    gin.Abort (gin.JSON 401 (gin.ErrorBody middleware.loginPlease) c).
Proof.
  intros H.
  assert (HR : sharedError.ResolveDomainError domainErrorResponses (Some err) =
               (middleware.loginPlease, true))
    by (destruct H as [-> | [-> | [-> | ->]]]; vm_compute; reflexivity).
  split; [exact HR |]. unfold middleware.handleJWTError. now rewrite HR.
Qed.

Lemma mapTokenError_cases (e : error) :
  middleware.mapTokenError e = middleware.ErrExpiredToken \/
  middleware.mapTokenError e = middleware.ErrInvalidClaims \/
  middleware.mapTokenError e = middleware.ErrInvalidToken.
Proof.
  unfold middleware.mapTokenError.
  destruct (errors.Is e token.ErrExpiredToken); [auto |].
  destruct (errors.Is e token.ErrInvalidClaims); auto.
Qed.

Lemma extractToken_cases (c : gin.Context) (err : error) :
  middleware.extractToken c = Err err ->
  err = middleware.ErrMissingToken \/ err = middleware.ErrInvalidToken.
Proof.
  unfold middleware.extractToken.
  destruct (String.eqb _ ""); [intros [= <-]; auto |].
  destruct (strings.SplitN2 _ " ") as [| scheme [| credential [| ? ?]]];
    try (intros [= <-]; auto).
  destruct (strings.EqualFold scheme _); simpl; [discriminate | intros [= <-]; auto].
Qed.

Lemma JWT_extract_failure (cfg : config.Config) (next : gin.HandlerFunc) (c : gin.Context)
    (w : World) (err : error) :
  middleware.extractToken c = Err err ->
  fst (middleware.JWT domainErrorResponses cfg next c w) =
    middleware.handleJWTError domainErrorResponses c err.
Proof.
  intros H. unfold middleware.JWT. rewrite H. reflexivity.
Qed.

Lemma JWT_validate_failure (cfg : config.Config) (next : gin.HandlerFunc) (c : gin.Context)
    (w : World) (tokenString : string) (err : error) :
  middleware.extractToken c = Ok tokenString ->
  token.ValidateToken (token.NewJWTManager cfg) (clock w) (jwt.segments tokenString) = Err err ->
  fst (middleware.JWT domainErrorResponses cfg next c w) =
    middleware.handleJWTError domainErrorResponses c (middleware.mapTokenError err).
Proof.
  intros H V. unfold middleware.JWT. rewrite H. run_M. rewrite V. reflexivity.
Qed.

Lemma JWT_success (cfg : config.Config) (next : gin.HandlerFunc) (c : gin.Context)
    (w : World) (tokenString : string) (claims : token.Claims) :
  middleware.extractToken c = Ok tokenString ->
  token.ValidateToken (token.NewJWTManager cfg) (clock w) (jwt.segments tokenString) = Ok claims ->
  middleware.JWT domainErrorResponses cfg next c w =
    next (gin.Set_ sharedContext.MemberEmailKey (token.Email claims)
            (gin.Set_ sharedContext.MemberIDKey (token.MemberID claims) c)) w.
Proof.
  intros H V. unfold middleware.JWT. rewrite H. run_M. rewrite V. reflexivity.
Qed.

Lemma serve_aborted (mw : gin.Middleware) (handler : gin.HandlerFunc) (c : gin.Context)
    (w : World) :
  gin.IsAborted (fst (mw (gin.Next handler) c w)) = true ->
  gin.serve mw handler c w = mw (gin.Next handler) c w.
Proof.
  intros H. unfold gin.serve. run_M.
  destruct (mw (gin.Next handler) c w) as [c' w']. simpl in H. now rewrite H.
Qed.

(** C6. The JWT middleware.  A missing [Authorization] header yields
    [ErrMissingToken]; a header that does not split at its first space into
    two parts, or whose first part is not ["Bearer"] up to case, yields
    [ErrInvalidToken]; otherwise the second part is handed to
    [ValidateToken].  [mapTokenError] maps every error that is
    [ErrExpiredToken] to the domain error [ErrExpiredToken], every other
    one that is [ErrInvalidClaims] to [ErrInvalidClaims] and every remaining
    one to [ErrInvalidToken], three different domain errors, each with a
    registered response; the error of [ValidateToken] is answered with the
    response of its image.  On each failure that response is sent, the
    context is aborted and the handler behind the middleware is not run; on
    success the member id and the e-mail of the claims are set on the
    context, with which the rest of the chain runs. *)
Theorem JWT_middleware (cfg : config.Config) (handler : gin.HandlerFunc)
    (c : gin.Context) (w : World) :
  let header := gin.Authorization (gin.Req c) in
  let rejected (err : error) :=
    sharedError.ResolveDomainError domainErrorResponses (Some err) =
      (middleware.loginPlease, true) /\
    fst (middleware.JWT domainErrorResponses cfg (gin.Next handler) c w) =
      gin.Abort (gin.JSON 401 (gin.ErrorBody middleware.loginPlease) c) /\
    fst (gin.serve (middleware.JWT domainErrorResponses cfg) handler c w) =
      gin.Abort (gin.JSON 401 (gin.ErrorBody middleware.loginPlease) c) in
  (header = ""%string ->
   middleware.extractToken c = Err middleware.ErrMissingToken /\
   rejected middleware.ErrMissingToken) /\
  (header <> ""%string ->
   length (strings.SplitN2 header " ") <> 2%nat \/
   (exists scheme credential,
      strings.SplitN2 header " " = [ scheme; credential ] /\
      to_lower scheme <> "bearer"%string) ->
   middleware.extractToken c = Err middleware.ErrInvalidToken /\
   rejected middleware.ErrInvalidToken) /\
  ((forall err : error,
      (errors.Is err token.ErrExpiredToken = true ->
       middleware.mapTokenError err = middleware.ErrExpiredToken) /\
      (errors.Is err token.ErrExpiredToken = false ->
       errors.Is err token.ErrInvalidClaims = true ->
       middleware.mapTokenError err = middleware.ErrInvalidClaims) /\
      (errors.Is err token.ErrExpiredToken = false ->
       errors.Is err token.ErrInvalidClaims = false ->
       middleware.mapTokenError err = middleware.ErrInvalidToken) /\
      sharedError.ResolveDomainError domainErrorResponses
        (Some (middleware.mapTokenError err)) = (middleware.loginPlease, true) /\
      middleware.handleJWTError domainErrorResponses c (middleware.mapTokenError err) =
        gin.Abort (gin.JSON 401 (gin.ErrorBody middleware.loginPlease) c)) /\
   middleware.mapTokenError token.ErrExpiredToken = middleware.ErrExpiredToken /\
   middleware.mapTokenError token.ErrInvalidClaims = middleware.ErrInvalidClaims /\
   middleware.mapTokenError token.ErrInvalidToken = middleware.ErrInvalidToken /\
   middleware.ErrExpiredToken <> middleware.ErrInvalidClaims /\
   middleware.ErrExpiredToken <> middleware.ErrInvalidToken /\
   middleware.ErrInvalidClaims <> middleware.ErrInvalidToken) /\
  (forall scheme credential,
     header <> ""%string ->
     strings.SplitN2 header " " = [ scheme; credential ] ->
     to_lower scheme = "bearer"%string ->
     middleware.extractToken c = Ok credential /\
     (forall err,
        token.ValidateToken (token.NewJWTManager cfg) (clock w) (jwt.segments credential) = Err err ->
        fst (middleware.JWT domainErrorResponses cfg (gin.Next handler) c w) =
          middleware.handleJWTError domainErrorResponses c (middleware.mapTokenError err) /\
        rejected (middleware.mapTokenError err)) /\
     (forall claims,
        token.ValidateToken (token.NewJWTManager cfg) (clock w) (jwt.segments credential) = Ok claims ->
        let c' :=
          gin.Set_ sharedContext.MemberEmailKey (token.Email claims)
            (gin.Set_ sharedContext.MemberIDKey (token.MemberID claims) c) in
        gin.Get sharedContext.MemberIDKey c' = Some (token.MemberID claims) /\
        gin.Get sharedContext.MemberEmailKey c' = Some (token.Email claims) /\
        middleware.JWT domainErrorResponses cfg (gin.Next handler) c w = gin.Next handler c' w)).
Proof.
  cbv zeta.
  assert (Hrej : forall err,
            fst (middleware.JWT domainErrorResponses cfg (gin.Next handler) c w) =
              middleware.handleJWTError domainErrorResponses c err ->
            (err = middleware.ErrMissingToken \/ err = middleware.ErrInvalidToken \/
             err = middleware.ErrExpiredToken \/ err = middleware.ErrInvalidClaims) ->
            sharedError.ResolveDomainError domainErrorResponses (Some err) =
              (middleware.loginPlease, true) /\
            fst (middleware.JWT domainErrorResponses cfg (gin.Next handler) c w) =
              gin.Abort (gin.JSON 401 (gin.ErrorBody middleware.loginPlease) c) /\
            fst (gin.serve (middleware.JWT domainErrorResponses cfg) handler c w) =
              gin.Abort (gin.JSON 401 (gin.ErrorBody middleware.loginPlease) c)).
  { intros err Hrun Hreg.
    destruct (handleJWTError_registered c err Hreg) as [HR HH].
    rewrite HH in Hrun. split; [exact HR |]. split; [exact Hrun |].
    rewrite serve_aborted; [exact Hrun |]. now rewrite Hrun. }
  assert (Hmapped : forall err,
            middleware.mapTokenError err = middleware.ErrMissingToken \/
            middleware.mapTokenError err = middleware.ErrInvalidToken \/
            middleware.mapTokenError err = middleware.ErrExpiredToken \/
            middleware.mapTokenError err = middleware.ErrInvalidClaims)
    by (intros err; pose proof (mapTokenError_cases err); tauto).
  split; [| split; [| split]].
  - intros Hempty.
    assert (E : middleware.extractToken c = Err middleware.ErrMissingToken).
    { unfold middleware.extractToken, gin.GetHeader_Authorization. now rewrite Hempty. }
    split; [exact E |]. apply Hrej; [now apply JWT_extract_failure | auto].
  - intros Hne Hbad.
    assert (E : middleware.extractToken c = Err middleware.ErrInvalidToken).
    { unfold middleware.extractToken, gin.GetHeader_Authorization.
      destruct (String.eqb_spec (gin.Authorization (gin.Req c)) ""); [contradiction |].
      destruct Hbad as [Hlen | (scheme & credential & Hsplit & Hscheme)].
      - destruct (strings.SplitN2 _ " ") as [| ? [| ? [| ? ?]]]; try reflexivity.
        now contradiction Hlen.
      - rewrite Hsplit.
        destruct (strings.EqualFold scheme middleware.BearerScheme) eqn:F; [| reflexivity].
        apply EqualFold_to_lower in F. contradiction. }
    split; [exact E |]. apply Hrej; [now apply JWT_extract_failure | auto].
  - split; [| split; [| split; [| split]]]; try reflexivity.
    + intros err. unfold middleware.mapTokenError at 1 2 3.
      split; [intros ->; reflexivity |].
      split; [intros -> ->; reflexivity |].
      split; [intros -> ->; reflexivity |].
      exact (handleJWTError_registered c _ (Hmapped err)).
    + repeat split; discriminate.
  - intros scheme credential Hne Hsplit Hscheme.
    assert (E : middleware.extractToken c = Ok credential).
    { unfold middleware.extractToken, gin.GetHeader_Authorization.
      destruct (String.eqb_spec (gin.Authorization (gin.Req c)) ""); [contradiction |].
      rewrite Hsplit.
      assert (F : strings.EqualFold scheme middleware.BearerScheme = true)
        by (apply EqualFold_to_lower; exact Hscheme).
      now rewrite F. }
    split; [exact E |]. split.
    + intros err V.
      pose proof (JWT_validate_failure cfg (gin.Next handler) c w credential err E V) as Hrun.
      split; [exact Hrun |]. apply Hrej; [exact Hrun | apply Hmapped].
    + intros claims V. split; [| split].
      * unfold gin.Get, gin.Set_. simpl.
        rewrite lookup_insert_ne by discriminate. apply lookup_insert_eq.
      * unfold gin.Get, gin.Set_. simpl. apply lookup_insert_eq.
      * now apply (JWT_success _ _ _ _ credential).
Qed.

End Middleware.

(** ** The statements at the sample parameters *)

Lemma Login_anti_enumeration_witness :
  let a := authService (mac := sample.mac) sample.cfg in
  let unknown := {| auth.Email := "nobody@x.com"; auth.Password := "password1" |} in
  let wrong := {| auth.Email := "a@x.com"; auth.Password := "wrongpass1" |} in
  let w1 := sample.world sample.empty_db sample.t0 in
  let w2 := sample.world sample.db1 sample.t0 in
  (gorm.failure (db w1) = None /\
   gorm.failure (db w2) = None /\
   (forall row, row ∈ gorm.member (db w1) -> model.Email row <> auth.Email unknown) /\
   List.find (gorm.by_email (auth.Email wrong)) (gorm.member (db w2)) = Some sample.alice_row /\
   bcrypt.CompareHashAndPassword (Hasher := sample.hasher)
     (model.Password sample.alice_row) (auth.Password wrong) <> None) /\
  exists e1 e2 : error,
    fst (auth.Login (hasher := sample.hasher) a unknown w1) = Err e1 /\
    fst (auth.Login (hasher := sample.hasher) a wrong w2) = Err e2 /\
    sharedError.ResolveDomainError domainErrorResponses (Some e1) =
      (incorrectEmailPasswordResponse, true) /\
    sharedError.ResolveDomainError domainErrorResponses (Some e2) =
      sharedError.ResolveDomainError domainErrorResponses (Some e1) /\
    forall c : gin.Context,
      gin.Response
        (fst (auth.Handler_Login (hasher := sample.hasher) domainErrorResponses a unknown c w1)) =
        Some (400, gin.ErrorBody incorrectEmailPasswordResponse) /\
      gin.Response
        (fst (auth.Handler_Login (hasher := sample.hasher) domainErrorResponses a wrong c w2)) =
        gin.Response
          (fst (auth.Handler_Login (hasher := sample.hasher) domainErrorResponses a unknown c w1)).
Proof.
  cbv zeta.
  assert (H1 : gorm.failure (db (sample.world sample.empty_db sample.t0)) = None)
    by reflexivity.
  assert (H2 : gorm.failure (db (sample.world sample.db1 sample.t0)) = None) by reflexivity.
  assert (H3 : forall row,
             row ∈ gorm.member (db (sample.world sample.empty_db sample.t0)) ->
             model.Email row <>
               auth.Email {| auth.Email := "nobody@x.com"; auth.Password := "password1" |})
    by (intros row Hrow; inversion Hrow).
  assert (H4 : List.find
                 (gorm.by_email (auth.Email {| auth.Email := "a@x.com";
                                               auth.Password := "wrongpass1" |}))
                 (gorm.member (db (sample.world sample.db1 sample.t0))) =
               Some sample.alice_row) by reflexivity.
  assert (H5 : bcrypt.CompareHashAndPassword (Hasher := sample.hasher)
                 (model.Password sample.alice_row)
                 (auth.Password {| auth.Email := "a@x.com"; auth.Password := "wrongpass1" |})
               <> None) by (vm_compute; discriminate).
  split; [exact (conj H1 (conj H2 (conj H3 (conj H4 H5)))) |].
  exact (Login_anti_enumeration (hasher := sample.hasher) _ _ _ _ _ _ H1 H2 H3 H4 H5).
Defined.

Lemma Signup_duplicate_email_witness :
  let a := authService (mac := sample.mac) sample.cfg in
  let second :=
    {| auth.Name := "Another User"; auth.SignupEmail := "a@x.com";
       auth.PhoneNumber := "010-9876-5432"; auth.SignupPassword := "password456" |} in
  let w := sample.world sample.empty_db sample.t0 in
  let w1 := snd (auth.Signup (hasher := sample.hasher) a sample.alice w) in
  let w2 := snd (auth.Signup (hasher := sample.hasher) a second w1) in
  (auth.SignupEmail second = auth.SignupEmail sample.alice /\
   fst (auth.Signup (hasher := sample.hasher) a sample.alice w) = None) /\
  (exists e : error,
     fst (auth.Signup (hasher := sample.hasher) a second w1) = Some e /\
     Wraps e member.ErrMemberAlreadyExists /\
     sharedError.ResolveDomainError domainErrorResponses (Some e) =
       (memberAlreadyExistsResponse, true)) /\
  db w2 = db w1 /\
  length (List.filter (gorm.by_email (auth.SignupEmail sample.alice)) (gorm.member (db w2))) = 1%nat /\
  (gorm.member (db w) = [] -> length (gorm.member (db w2)) = 1%nat).
Proof.
  cbv zeta.
  pose (second := {| auth.Name := "Another User"; auth.SignupEmail := "a@x.com";
                     auth.PhoneNumber := "010-9876-5432";
                     auth.SignupPassword := "password456" |}).
  assert (H1 : auth.SignupEmail second = auth.SignupEmail sample.alice) by reflexivity.
  assert (H2 : fst (auth.Signup (hasher := sample.hasher)
                      (authService (mac := sample.mac) sample.cfg) sample.alice
                      (sample.world sample.empty_db sample.t0)) = None)
    by (vm_compute; reflexivity).
  split; [exact (conj H1 H2) |].
  exact (proj2 (Signup_duplicate_email (hasher := sample.hasher)
                  (authService (mac := sample.mac) sample.cfg) sample.alice second
                  (sample.world sample.empty_db sample.t0) H1) H2).
Defined.

Lemma GetProfile_view_witness :
  let w := sample.world sample.db1 sample.t0 in
  (gorm.failure (db w) = None /\
   List.find (gorm.by_id 1) (gorm.member (db w)) = Some sample.alice_row) /\
  fst (member.GetProfile 1 w) =
    (Some {| member.ID := 1; member.Name := "A"; member.Email := "a@x.com";
             member.PhoneNumber := "010-1234-5678" |}, None).
Proof.
  cbv zeta.
  assert (H1 : gorm.failure (db (sample.world sample.db1 sample.t0)) = None) by reflexivity.
  assert (H2 : List.find (gorm.by_id 1) (gorm.member (db (sample.world sample.db1 sample.t0))) =
               Some sample.alice_row) by reflexivity.
  split; [exact (conj H1 H2) |].
  exact (proj1 (proj1 (proj2 (proj2 (GetProfile_view 1 (sample.world sample.db1 sample.t0))))
                  sample.alice_row H1 H2)).
Defined.

Lemma JWT_middleware_witness :
  let c := sample.request "bearer access.token.1" in
  let w := sample.world sample.db1 (sample.t0 + time.Hour) in
  (gin.Authorization (gin.Req c) <> ""%string /\
   strings.SplitN2 (gin.Authorization (gin.Req c)) " " = [ "bearer"; "access.token.1" ]%string /\
   to_lower "bearer" = "bearer"%string) /\
  middleware.extractToken c = Ok "access.token.1"%string.
Proof.
  cbv zeta.
  assert (H1 : gin.Authorization (gin.Req (sample.request "bearer access.token.1")) <> ""%string)
    by discriminate.
  assert (H2 : strings.SplitN2 (gin.Authorization (gin.Req (sample.request "bearer access.token.1")))
                 " " = [ "bearer"; "access.token.1" ]%string) by reflexivity.
  assert (H3 : to_lower "bearer" = "bearer"%string) by reflexivity.
  split; [exact (conj H1 (conj H2 H3)) |].
  exact (proj1 (proj2 (proj2 (proj2 (JWT_middleware (mac := sample.mac)
                                       (decoder := sample.decoder) sample.cfg
                                       (member.Handler_GetProfile domainErrorResponses)
                                       (sample.request "bearer access.token.1")
                                       (sample.world sample.db1 (sample.t0 + time.Hour)))))
                  "bearer"%string "access.token.1"%string H1 H2 H3)).
Defined.

(** The scenario of the specification, run on the routes: signup, login,
    and the profile fetched with the access token. *)
Example scenario :
  let a := authService (mac := sample.mac) sample.cfg in
  let w0 := sample.world sample.empty_db sample.t0 in
  let '(c1, w1) := POST_signup (mac := sample.mac) (hasher := sample.hasher)
                     sample.cfg sample.alice (sample.request "") w0 in
  let '(c2, w2) := POST_login (mac := sample.mac) (hasher := sample.hasher) sample.cfg
                     {| auth.Email := "a@x.com"; auth.Password := "password1" |}
                     (sample.request "") w1 in
  let '(c3, w3) := GET_members_me (mac := sample.mac) (decoder := sample.decoder) sample.cfg
                     (sample.request "Bearer access.token.1") w2 in
  gin.Response c1 = Some (201, gin.JSONBody []) /\
  db w1 = sample.db1 /\
  (exists refresh,
     gin.Response c2 = Some (200, gin.TokensBody sample.access_token refresh)) /\
  gin.Response c3 =
    Some (200, gin.JSONBody [ ("id", json.Number 1); ("name", json.Str "A");
                              ("email", json.Str "a@x.com");
                              ("phoneNumber", json.Str "010-1234-5678") ]).
Proof.
  vm_compute. repeat split. eexists. reflexivity.
Qed.

(** * Further properties of the code *)

(** ** The token manager: refresh tokens, expiry, other secrets *)

Section TokenMore.

Context {mac : jwt.MAC}.

Lemma ValidateToken_refresh_generated (m : token.JWTManager) (now at_ : time.Time)
    (memberID email : string) :
  int64 (time.Unix now) ->
  int64 (time.Unix (time.Add now (token.refreshExpiry m))) ->
  exists (tokenString : jwt.TokenString) (claims : token.Claims),
    token.GenerateRefreshToken m now memberID email = Ok tokenString /\
    token.ValidateToken m at_ tokenString = Ok claims /\
    token.MemberID claims = json.coerce memberID /\
    token.Email claims = json.coerce email /\
    token.TokenType claims = "refresh"%string /\
    jwt.GetSubject claims = json.coerce memberID /\
    jwt.GetIssuer claims = json.coerce (token.issuer m) /\
    token.IssuedAt claims = time.Unix now /\
    token.ExpiresAt claims = time.Unix (time.Add now (token.refreshExpiry m)).
Proof.
  intros Hiat Hexp.
  pose proof (marshal_unmarshal memberID email token.REFRESH _ _ (token.issuer m) memberID
                (Some (time.Unix (time.Add now (token.refreshExpiry m))))
                (Some (time.Unix now)) Hexp Hiat) as Hrt.
  eexists _, _. split; [reflexivity |].
  split.
  { unfold token.ValidateToken, jwt.ParseWithClaims.
    unfold token.refresh_claims, jwt.NewNumericDate in *.
    rewrite Hrt, mem_HS256_registered. simpl negb. cbv iota.
    unfold jwt.Verify. rewrite String.eqb_refl. reflexivity. }
  repeat split; reflexivity.
Qed.

(** A refresh token for a member id, an e-mail and an issuer that are
    valid UTF-8 validates with the manager that issued it, at every time,
    and comes back with type ["refresh"], the member id as member id and as
    subject, the e-mail, the issuer and both times in seconds:
    [ValidateToken] does not look at the token type. *)
Theorem refresh_token_round_trip (m : token.JWTManager) (now at_ : time.Time)
    (memberID email : string) :
  utf8.ValidString memberID = true ->
  utf8.ValidString email = true ->
  utf8.ValidString (token.issuer m) = true ->
  int64 (time.Unix now) ->
  int64 (time.Unix (time.Add now (token.refreshExpiry m))) ->
  exists (tokenString : jwt.TokenString) (claims : token.Claims),
    token.GenerateRefreshToken m now memberID email = Ok tokenString /\
    token.ValidateToken m at_ tokenString = Ok claims /\
    token.MemberID claims = memberID /\
    token.Email claims = email /\
    token.TokenType claims = "refresh"%string /\
    jwt.GetSubject claims = memberID /\
    jwt.GetIssuer claims = token.issuer m /\
    token.IssuedAt claims = time.Unix now /\
    token.ExpiresAt claims = time.Unix (time.Add now (token.refreshExpiry m)).
Proof.
  intros Hid Hmail Hiss Hiat Hexp.
  destruct (ValidateToken_refresh_generated m now at_ memberID email Hiat Hexp)
    as (tokenString & claims & Hgen & Hval & H1 & H2 & H3 & H4 & H5 & H6 & H7).
  rewrite (coerce_valid _ Hid) in H1, H4. rewrite (coerce_valid _ Hmail) in H2.
  rewrite (coerce_valid _ Hiss) in H5.
  exists tokenString, claims. auto 10.
Qed.

(** Whatever the token string and the time, a failure of [ValidateToken]
    is [ErrInvalidToken]: it is never [ErrExpiredToken], never
    [ErrInvalidClaims]. *)
Theorem ValidateToken_fails_only_with_ErrInvalidToken (m : token.JWTManager)
    (now : time.Time) (tokenString : jwt.TokenString) (e : error) :
  token.ValidateToken m now tokenString = Err e ->
  e = token.ErrInvalidToken.
Proof.
  intros H.
  pose proof (ValidateToken_never_ErrExpiredToken m now tokenString) as Hnever.
  unfold token.ValidateToken in *.
  destruct (jwt.ParseWithClaims _ now tokenString _ _) as [t | err] eqn:P.
  - destruct (ParseWithClaims_Ok _ _ _ _ P) as [V [claims C]].
    rewrite C, V in H. discriminate.
  - destruct (errors.Is err jwt.ErrTokenExpired); [contradiction | congruence].
Qed.

(** A token issued under one secret is rejected by a manager with another
    secret, unless the two keyed hashes of its signing string coincide. *)
Theorem ValidateToken_rejects_other_secret (m other : token.JWTManager)
    (now at_ : time.Time) (memberID email : string)
    (h : jwt.HeaderSegment) (c : jwt.ClaimsSegment) (sig : string) :
  token.GenerateAccessToken m now memberID email = Ok (jwt.Compact h c (jwt.Signature sig)) ->
  jwt.HMAC_SHA256 (token.secret other) (h, c) <> sig ->
  token.ValidateToken other at_ (jwt.Compact h c (jwt.Signature sig)) =
    Err token.ErrInvalidToken.
Proof.
  intros Hgen Hmac.
  unfold token.GenerateAccessToken, jwt.SignedString in Hgen.
  injection Hgen as <- <- <-.
  unfold token.ValidateToken, jwt.ParseWithClaims.
  destruct (jwt.UnmarshalJSON _ token.Claims_zero); [| reflexivity].
  rewrite mem_HS256_registered. simpl negb. cbv iota.
  unfold jwt.Verify.
  destruct (String.eqb _ _) eqn:E; [| reflexivity].
  apply String.eqb_eq in E. exfalso. apply Hmac. now rewrite E.
Qed.

End TokenMore.

Lemma refresh_token_round_trip_witness :
  (utf8.ValidString "1" = true /\
   utf8.ValidString "a@x.com" = true /\
   utf8.ValidString (token.issuer sample.manager) = true /\
   int64 (time.Unix sample.t0) /\
   int64 (time.Unix (time.Add sample.t0 (token.refreshExpiry sample.manager)))) /\
  exists (tokenString : jwt.TokenString) (claims : token.Claims),
    token.GenerateRefreshToken (mac := sample.mac) sample.manager sample.t0 "1" "a@x.com" =
      Ok tokenString /\
    token.ValidateToken (mac := sample.mac) sample.manager (sample.t0 + time.Hour) tokenString =
      Ok claims /\
    token.MemberID claims = "1"%string /\
    token.Email claims = "a@x.com"%string /\
    token.TokenType claims = "refresh"%string /\
    jwt.GetSubject claims = "1"%string /\
    jwt.GetIssuer claims = token.issuer sample.manager /\
    token.IssuedAt claims = time.Unix sample.t0 /\
    token.ExpiresAt claims = time.Unix (time.Add sample.t0 (token.refreshExpiry sample.manager)).
Proof.
  assert (H1 : int64 (time.Unix sample.t0)) by (vm_compute; split; discriminate).
  assert (H2 : int64 (time.Unix (time.Add sample.t0 (token.refreshExpiry sample.manager))))
    by (vm_compute; split; discriminate).
  assert (U1 : utf8.ValidString "1" = true) by reflexivity.
  assert (U2 : utf8.ValidString "a@x.com" = true) by reflexivity.
  assert (U3 : utf8.ValidString (token.issuer sample.manager) = true) by reflexivity.
  split; [exact (conj U1 (conj U2 (conj U3 (conj H1 H2)))) |].
  exact (refresh_token_round_trip (mac := sample.mac) sample.manager sample.t0
           (sample.t0 + time.Hour) "1" "a@x.com" U1 U2 U3 H1 H2).
Defined.

Lemma ValidateToken_fails_only_with_ErrInvalidToken_witness :
  token.ValidateToken (mac := sample.mac) sample.manager sample.t0
    (jwt.NotThreeSegments "mock-access-token") =
    Err (errors.New "token: invalid token") /\
  errors.New "token: invalid token" = token.ErrInvalidToken.
Proof.
  assert (H : token.ValidateToken (mac := sample.mac) sample.manager sample.t0
                (jwt.NotThreeSegments "mock-access-token") =
              Err (errors.New "token: invalid token")) by (vm_compute; reflexivity).
  split; [exact H |].
  exact (ValidateToken_fails_only_with_ErrInvalidToken (mac := sample.mac)
           sample.manager sample.t0 _ _ H).
Defined.

Lemma ValidateToken_accepts_expired_token_witness :
  (int64 (time.Unix sample.t0) /\
   int64 (time.Unix (time.Add sample.t0 (token.accessExpiry sample.manager))) /\
   time.Before (sample.t0 + 8760 * time.Hour)
     (time.Add sample.t0 (token.accessExpiry sample.manager)) = false /\
   token.GenerateAccessToken (mac := sample.mac) sample.manager sample.t0 "1" "a@x.com" =
     Ok sample.access_token) /\
  exists claims : token.Claims,
    token.ValidateToken (mac := sample.mac) sample.manager (sample.t0 + 8760 * time.Hour)
      sample.access_token = Ok claims /\
    token.ExpiresAt claims = time.Unix (time.Add sample.t0 (token.accessExpiry sample.manager)).
Proof.
  assert (H1 : int64 (time.Unix sample.t0)) by (vm_compute; split; discriminate).
  assert (H2 : int64 (time.Unix (time.Add sample.t0 (token.accessExpiry sample.manager))))
    by (vm_compute; split; discriminate).
  assert (H3 : time.Before (sample.t0 + 8760 * time.Hour)
                 (time.Add sample.t0 (token.accessExpiry sample.manager)) = false)
    by (vm_compute; reflexivity).
  assert (H4 : token.GenerateAccessToken (mac := sample.mac) sample.manager sample.t0
                 "1" "a@x.com" = Ok sample.access_token) by (vm_compute; reflexivity).
  split; [exact (conj H1 (conj H2 (conj H3 H4))) |].
  exact (ValidateToken_accepts_expired_token (mac := sample.mac) sample.manager sample.t0
           (sample.t0 + 8760 * time.Hour) "1" "a@x.com" sample.access_token H1 H2 H3 H4).
Defined.

Lemma ValidateToken_rejects_other_secret_witness :
  let other :=
    {| token.secret := "another-secret"; token.issuer := "pray-together-api";
       token.accessExpiry := 24 * time.Hour; token.refreshExpiry := 168 * time.Hour |} in
  let h := jwt.Header (Some jwt.HS256) in
  let c := jwt.ClaimsObject (jwt.MarshalJSON (token.access_claims sample.manager sample.t0 "1" "a@x.com")) in
  let sig := token.secret sample.manager in
  (token.GenerateAccessToken (mac := sample.mac) sample.manager sample.t0 "1" "a@x.com" =
     Ok (jwt.Compact h c (jwt.Signature sig)) /\
   jwt.HMAC_SHA256 (MAC := sample.mac) (token.secret other) (h, c) <> sig) /\
  token.ValidateToken (mac := sample.mac) other sample.t0 (jwt.Compact h c (jwt.Signature sig)) =
    Err token.ErrInvalidToken.
Proof.
  cbv zeta.
  pose (other := {| token.secret := "another-secret"; token.issuer := "pray-together-api";
                    token.accessExpiry := 24 * time.Hour;
                    token.refreshExpiry := 168 * time.Hour |}).
  assert (H1 : token.GenerateAccessToken (mac := sample.mac) sample.manager sample.t0
                 "1" "a@x.com" =
               Ok (jwt.Compact (jwt.Header (Some jwt.HS256))
                     (jwt.ClaimsObject
                        (jwt.MarshalJSON (token.access_claims sample.manager sample.t0 "1" "a@x.com")))
                     (jwt.Signature (token.secret sample.manager)))) by reflexivity.
  assert (H2 : jwt.HMAC_SHA256 (MAC := sample.mac) (token.secret other)
                 (jwt.Header (Some jwt.HS256),
                  jwt.ClaimsObject
                    (jwt.MarshalJSON (token.access_claims sample.manager sample.t0 "1" "a@x.com")))
               <> token.secret sample.manager) by (vm_compute; discriminate).
  split; [exact (conj H1 H2) |].
  exact (ValidateToken_rejects_other_secret (mac := sample.mac) sample.manager other
           sample.t0 sample.t0 "1" "a@x.com" _ _ _ H1 H2).
Defined.

(** ** The JWT middleware: what it extracts, what it lets through *)

Section MiddlewareMore.

Context {mac : jwt.MAC} {decoder : jwt.Decoder}.

Lemma lower_space (c : ascii) :
  Ascii.eqb (strings.lower c) " " = Ascii.eqb c " ".
Proof. destruct c as [[] [] [] [] [] [] [] []]; reflexivity. Qed.

Lemma Count_space_to_lower (s : string) :
  strings.Count (to_lower s) " " = strings.Count s " ".
Proof.
  induction s as [| c s IH]; simpl; [reflexivity |].
  now rewrite lower_space, IH.
Qed.

Lemma SplitN2_at_first (before after : string) (sep : ascii) :
  strings.Count before sep = 0%nat ->
  strings.SplitN2 (before ++ String sep after) sep = [ before; after ].
Proof.
  induction before as [| c before IH]; simpl.
  - intros _. now rewrite Ascii.eqb_refl.
  - destruct (Ascii.eqb c sep); simpl; [discriminate |].
    intros H. now rewrite (IH H).
Qed.

(** The credential of a well-formed header comes out as it went in: for
    [scheme] equal to ["Bearer"] up to case, the header [scheme], one space
    and any string [credential] (empty, or with further spaces) yields
    [credential] itself. *)
Theorem extractToken_returns_the_credential (c : gin.Context) (scheme credential : string) :
  to_lower scheme = "bearer"%string ->
  gin.Authorization (gin.Req c) = (scheme ++ " " ++ credential)%string ->
  middleware.extractToken c = Ok credential.
Proof.
  intros Hscheme Hheader.
  assert (Hcount : strings.Count scheme " " = 0%nat)
    by (rewrite <- Count_space_to_lower, Hscheme; reflexivity).
  unfold middleware.extractToken, gin.GetHeader_Authorization. rewrite Hheader.
  destruct scheme as [| a scheme]; [discriminate |].
  change ((String a scheme ++ " " ++ credential)%string)
    with ((String a scheme ++ String " " credential)%string).
  rewrite (SplitN2_at_first _ _ _ Hcount). simpl String.eqb.
  assert (F : strings.EqualFold (String a scheme) middleware.BearerScheme = true)
    by (apply EqualFold_to_lower; exact Hscheme).
  now rewrite F.
Qed.

Lemma serve_ran_next (mw : gin.Middleware) (handler : gin.HandlerFunc)
    (c c' : gin.Context) (w : World) :
  mw (gin.Next handler) c w = gin.Next handler c' w ->
  gin.serve mw handler c w = gin.Next handler c' w.
Proof.
  intros H. unfold gin.serve. run_M. rewrite H.
  unfold gin.Next. run_M. destruct (handler c' w) as [c2 w2]. simpl.
  now rewrite orb_true_r.
Qed.

(** Every request behind the middleware either is answered with 401 and
    code ["AUTH-000"], aborted, the handler not run and the keys untouched,
    or carries a credential that [ValidateToken] accepts, and then the
    handler runs on the context with the two keys set.  The fallback
    response ["AUTH-999"] is never sent. *)
Theorem JWT_rejects_with_AUTH_000_or_runs_the_handler (cfg : config.Config)
    (handler : gin.HandlerFunc) (c : gin.Context) (w : World) :
  fst (gin.serve (middleware.JWT domainErrorResponses cfg) handler c w) =
    gin.Abort (gin.JSON 401 (gin.ErrorBody middleware.loginPlease) c) \/
  exists (credential : string) (claims : token.Claims),
    middleware.extractToken c = Ok credential /\
    token.ValidateToken (token.NewJWTManager cfg) (clock w) (jwt.segments credential) =
      Ok claims /\
    gin.serve (middleware.JWT domainErrorResponses cfg) handler c w =
      gin.Next handler
        (gin.Set_ sharedContext.MemberEmailKey (token.Email claims)
           (gin.Set_ sharedContext.MemberIDKey (token.MemberID claims) c)) w.
Proof.
  assert (Hrej : forall err,
            fst (middleware.JWT domainErrorResponses cfg (gin.Next handler) c w) =
              middleware.handleJWTError domainErrorResponses c err ->
            (err = middleware.ErrMissingToken \/ err = middleware.ErrInvalidToken \/
             err = middleware.ErrExpiredToken \/ err = middleware.ErrInvalidClaims) ->
            fst (gin.serve (middleware.JWT domainErrorResponses cfg) handler c w) =
              gin.Abort (gin.JSON 401 (gin.ErrorBody middleware.loginPlease) c)).
  { intros err Hrun Hreg.
    destruct (handleJWTError_registered c err Hreg) as [_ HH].
    rewrite HH in Hrun. rewrite serve_aborted; [exact Hrun |]. now rewrite Hrun. }
  destruct (middleware.extractToken c) as [credential | err] eqn:E.
  - destruct (token.ValidateToken (token.NewJWTManager cfg) (clock w) (jwt.segments credential))
      as [claims | err] eqn:V.
    + right. exists credential, claims.
      split; [reflexivity |]. split; [exact V |].
      apply serve_ran_next. now apply (JWT_success _ _ _ _ credential).
    + left. apply (Hrej (middleware.mapTokenError err)).
      * now apply (JWT_validate_failure _ _ _ _ credential).
      * pose proof (mapTokenError_cases err). tauto.
  - left. apply (Hrej err).
    + now apply JWT_extract_failure.
    + destruct (extractToken_cases c err E); auto.
Qed.


End MiddlewareMore.

Lemma extractToken_returns_the_credential_witness :
  (to_lower "BEARER" = "bearer"%string /\
   gin.Authorization (gin.Req (sample.request "BEARER a b")) = ("BEARER" ++ " " ++ "a b")%string) /\
  middleware.extractToken (sample.request "BEARER a b") = Ok "a b"%string.
Proof.
  assert (H1 : to_lower "BEARER" = "bearer"%string) by reflexivity.
  assert (H2 : gin.Authorization (gin.Req (sample.request "BEARER a b")) =
               ("BEARER" ++ " " ++ "a b")%string) by reflexivity.
  split; [exact (conj H1 H2) |].
  exact (extractToken_returns_the_credential (sample.request "BEARER a b")
           "BEARER" "a b" H1 H2).
Defined.


(** ** The member id between [Login] and [GetMemberID] *)

Section MemberID.

Local Open Scope N_scope.

Lemma digit_of_pretty_N_char (r : N) :
  r < 10 -> N.of_nat (nat_of_ascii (pretty_N_char r)) = 48 + r.
Proof.
  intros H.
  assert (r = 0 \/ r = 1 \/ r = 2 \/ r = 3 \/ r = 4 \/ r = 5 \/ r = 6 \/ r = 7 \/ r = 8 \/ r = 9)
    as Hr by lia.
  repeat (destruct Hr as [-> | Hr]; [reflexivity |]). now subst.
Qed.

Lemma parse_digits_step (c : ascii) (s : string) (acc r : N) :
  r < 10 -> c = pretty_N_char r ->
  member.parse_digits (String c s) acc = member.parse_digits s (acc * 10 + r).
Proof.
  intros Hr ->. simpl. rewrite (digit_of_pretty_N_char r Hr).
  replace (48 <=? 48 + r) with true by (symmetry; apply N.leb_le; lia).
  replace (48 + r <=? 57) with true by (symmetry; apply N.leb_le; lia).
  simpl. f_equal. lia.
Qed.

Lemma parse_digits_pretty_N_go (x : N) :
  exists p, forall s acc,
    member.parse_digits (pretty_N_go x s) acc = member.parse_digits s (acc * p + x).
Proof.
  induction (N.lt_wf_0 x) as [x _ IH].
  destruct (N.eq_dec x 0) as [-> | Hx].
  - exists 1. intros s acc. rewrite pretty_N_go_0. f_equal. lia.
  - assert (Hpos : 0 < x) by lia.
    destruct (IH (x / 10)) as [p Hp]; [apply N.div_lt; lia |].
    exists (p * 10). intros s acc.
    rewrite (pretty_N_go_step x s Hpos), Hp.
    rewrite (parse_digits_step _ s _ (x mod 10)); [| apply N.mod_lt; lia | reflexivity].
    f_equal. pose proof (N.div_mod x 10 ltac:(lia)). lia.
Qed.

Lemma pretty_N_go_nonempty (x : N) (s : string) :
  s <> ""%string -> pretty_N_go x s <> ""%string.
Proof.
  revert s. induction (N.lt_wf_0 x) as [x _ IH]; intros s Hs.
  destruct (N.eq_dec x 0) as [-> | Hx]; [now rewrite pretty_N_go_0 |].
  rewrite pretty_N_go_step by lia. apply IH; [apply N.div_lt; lia | discriminate].
Qed.

Lemma ParseUint32_pretty (id : N) :
  id <= member.MaxUint32 -> member.ParseUint32 (pretty id) = Some id.
Proof.
  intros Hid. unfold pretty, pretty_N.
  destruct (decide (id = 0)) as [-> | Hne]; [reflexivity |].
  assert (Hnonempty : pretty_N_go id "" <> ""%string).
  { rewrite pretty_N_go_step by lia. apply pretty_N_go_nonempty. discriminate. }
  unfold member.ParseUint32.
  destruct (pretty_N_go id "") as [| c s] eqn:E; [contradiction |].
  rewrite <- E. destruct (parse_digits_pretty_N_go id) as [p Hp].
  rewrite Hp. rewrite N.mul_0_l, N.add_0_l. simpl.
  apply N.leb_le in Hid. now rewrite Hid.
Qed.


Lemma parse_digits_all_digits (s : string) (acc n : N) :
  member.parse_digits s acc = Some n -> all_digits s = true.
Proof.
  revert acc. induction s as [| c s IH]; intros acc; simpl; [reflexivity |].
  unfold is_digit, regexp.in_range.
  change (nat_of_ascii "0") with 48%nat. change (nat_of_ascii "9") with 57%nat.
  destruct ((48 <=? N.of_nat (nat_of_ascii c)) && (N.of_nat (nat_of_ascii c) <=? 57)) eqn:D;
    [| discriminate].
  intros H. rewrite (IH _ H), andb_true_r.
  apply andb_true_iff in D. destruct D as [D1 D2].
  apply N.leb_le in D1. apply N.leb_le in D2.
  apply andb_true_iff. split; apply Nat.leb_le; lia.
Qed.


(** The member id that [Login] writes into the tokens,
    [strconv.FormatUint(uint64(member.ID), 10)], is read back by
    [GetMemberID] as the same id, for every [uint32]. *)
Theorem member_id_round_trip (id : N) (c : gin.Context) :
  id <= member.MaxUint32 ->
  gin.Get sharedContext.MemberIDKey (gin.Set_ sharedContext.MemberIDKey (pretty id) c)
    ≫= member.ParseUint32 = Some id.
Proof.
  intros Hid. unfold gin.Get, gin.Set_. simpl.
  rewrite lookup_insert_eq. simpl. now apply ParseUint32_pretty.
Qed.

(** What [GetMemberID] accepts is a non-empty string of decimal digits, and
    the id it yields is at most 4294967295: signs, spaces and larger
    numbers are refused. *)
Theorem ParseUint32_accepts_digits_in_range (s : string) (id : N) :
  member.ParseUint32 s = Some id ->
  s <> ""%string /\ all_digits s = true /\ id <= member.MaxUint32.
Proof.
  unfold member.ParseUint32.
  destruct s as [| c s]; [discriminate |].
  destruct (member.parse_digits (String c s) 0) as [n |] eqn:P; [| discriminate].
  simpl. destruct (n <=? member.MaxUint32) eqn:L; [| discriminate].
  intros [= <-]. split; [discriminate |]. split.
  - exact (parse_digits_all_digits _ _ _ P).
  - now apply N.leb_le.
Qed.

End MemberID.

Lemma member_id_round_trip_witness :
  (4294967295 <= member.MaxUint32)%N /\
  gin.Get sharedContext.MemberIDKey
    (gin.Set_ sharedContext.MemberIDKey (pretty 4294967295%N) (sample.request ""))
    ≫= member.ParseUint32 = Some 4294967295%N.
Proof.
  assert (H : (4294967295 <= member.MaxUint32)%N) by (vm_compute; discriminate).
  split; [exact H |].
  exact (member_id_round_trip 4294967295 (sample.request "") H).
Defined.

Lemma ParseUint32_accepts_digits_in_range_witness :
  member.ParseUint32 "007" = Some 7%N /\
  ("007" <> "" /\ all_digits "007" = true /\ (7 <= member.MaxUint32)%N)%string.
Proof.
  assert (H : member.ParseUint32 "007" = Some 7%N) by reflexivity.
  split; [exact H |].
  exact (ParseUint32_accepts_digits_in_range "007" 7 H).
Defined.

(** ** The registry: registration, then resolution *)

Section RegistryMore.

Variable registry : gmap string sharedError.ErrorResponse.

(** Registration followed by resolution: a domain error resolves to the
    response registered last for its identifier, whatever was registered
    before, and registering one identifier changes nothing for the domain
    errors of any other. *)
Theorem RegisterDomainErrorResponse_then_resolve
    (errInfo : string) (resp : sharedError.ErrorResponse) (e : error) :
  Wraps e (domainSentinel errInfo) ->
  sharedError.ResolveDomainError
    (sharedError.RegisterDomainErrorResponse errInfo resp registry) (Some e) = (resp, true) /\
  (forall earlier,
     sharedError.ResolveDomainError
       (sharedError.RegisterDomainErrorResponse errInfo resp
          (sharedError.RegisterDomainErrorResponse errInfo earlier registry)) (Some e) =
       (resp, true)) /\
  (forall other e',
     other <> errInfo -> Wraps e' (domainSentinel other) ->
     sharedError.ResolveDomainError
       (sharedError.RegisterDomainErrorResponse errInfo resp registry) (Some e') =
       sharedError.ResolveDomainError registry (Some e')).
Proof.
  intros HW. unfold sharedError.RegisterDomainErrorResponse. split; [| split].
  - rewrite (ResolveDomainError_Wraps _ _ _ HW). now rewrite lookup_insert_eq.
  - intros earlier. rewrite (ResolveDomainError_Wraps _ _ _ HW). now rewrite lookup_insert_eq.
  - intros other e' Hne HW'. rewrite !(ResolveDomainError_Wraps _ _ _ HW').
    now rewrite lookup_insert_ne by congruence.
Qed.

(** The three [init] functions register different identifiers, so the
    order in which the packages are initialised does not matter; and the
    registry of the program knows the seven identifiers of these packages
    and no other. *)
Theorem package_inits_commute :
  member.init (auth.init registry) = auth.init (member.init registry) /\
  middleware.init (auth.init registry) = auth.init (middleware.init registry) /\
  middleware.init (member.init registry) = member.init (middleware.init registry) /\
  forall info : string,
    is_Some (domainErrorResponses !! info) <->
    info ∈ [ auth.incorrectEmailPassword; member.memberNotFound; member.memberAlreadyExists;
             middleware.missingToken; middleware.invalidToken; middleware.expiredToken;
             middleware.invalidClaims ].
Proof.
  assert (Hext : forall m1 m2 : gmap string sharedError.ErrorResponse,
            (forall k, m1 !! k = m2 !! k) -> m1 = m2) by (intros; now apply map_eq).
  unfold member.init, auth.init, middleware.init, sharedError.RegisterDomainErrorResponse.
  repeat split.
  1-3: apply Hext; intros k; rewrite !lookup_insert; repeat case_decide; subst;
       try reflexivity; try discriminate.
  - unfold domainErrorResponses, member.init, auth.init, middleware.init,
      sharedError.RegisterDomainErrorResponse.
    rewrite !lookup_insert. rewrite lookup_empty.
    repeat case_decide; subst; intros Hsome; try (inversion Hsome; discriminate);
      repeat (apply elem_of_cons; first [left; reflexivity | right]).
  - unfold domainErrorResponses, member.init, auth.init, middleware.init,
      sharedError.RegisterDomainErrorResponse.
    intros Hin.
    repeat (apply elem_of_cons in Hin; destruct Hin as [-> | Hin]; [vm_compute; eauto |]).
    inversion Hin.
Qed.

End RegistryMore.

Lemma RegisterDomainErrorResponse_then_resolve_witness :
  Wraps (errors.Errorf "error " member.ErrMemberNotFound) (domainSentinel "MEMBER_NOT_FOUND") /\
  sharedError.ResolveDomainError
    (sharedError.RegisterDomainErrorResponse "MEMBER_NOT_FOUND" sharedError.InvalidRequest ∅)
    (Some (errors.Errorf "error " member.ErrMemberNotFound)) =
    (sharedError.InvalidRequest, true).
Proof.
  assert (HW : Wraps (errors.Errorf "error " member.ErrMemberNotFound)
                 (domainSentinel "MEMBER_NOT_FOUND")) by (apply Wraps_step, Wraps_here).
  split; [exact HW |].
  exact (proj1 (RegisterDomainErrorResponse_then_resolve ∅ "MEMBER_NOT_FOUND"
                  sharedError.InvalidRequest _ HW)).
Defined.

(** ** The transaction, the repository and the services: what is written *)

Section ServicesMore.

Context {mac : jwt.MAC} {hasher : bcrypt.Hasher}.

Lemma find_filter_count {A : Type} (cond : A -> bool) (l : list A) :
  (0 <? Z.of_nat (length (List.filter cond l)))%Z = true <->
  exists x, List.find cond l = Some x.
Proof.
  induction l as [| y l IH]; simpl.
  - split; [discriminate | intros [x H]; discriminate].
  - destruct (cond y); simpl.
    + split; [eauto | intros _; apply Z.ltb_lt; lia].
    + exact IH.
Qed.

Lemma find_app_new {A : Type} (cond : A -> bool) (l : list A) (x : A) :
  List.find cond l = None -> cond x = true -> List.find cond (l ++ [ x ]) = Some x.
Proof.
  induction l as [| y l IH]; simpl; intros Hnone Hx.
  - now rewrite Hx.
  - destruct (cond y); [discriminate | auto].
Qed.

Lemma existsb_find_none {A : Type} (cond : A -> bool) (l : list A) :
  existsb cond l = false -> List.find cond l = None.
Proof.
  induction l as [| y l IH]; simpl; [reflexivity |].
  destruct (cond y); simpl; [discriminate | exact IH].
Qed.

Lemma find_by_email_holds (email : string) (l : list model.Member) (m : model.Member) :
  List.find (gorm.by_email email) l = Some m -> model.Email m = email.
Proof.
  intros H. apply List.find_some in H. destruct H as [_ H].
  now apply String.eqb_eq in H.
Qed.

(** The existence check and the lookup by e-mail agree: [IsExist] answers
    true exactly when [FindByEmail] finds a row, which then has that e-mail,
    and when it answers false the lookup reports the record as not found. *)
Theorem IsExist_agrees_with_FindByEmail (email : string) (w : World) :
  (fst (member.IsExist email w) = Ok true <->
   exists m, fst (member.FindByEmail email w) = Ok m /\ model.Email m = email) /\
  (fst (member.IsExist email w) = Ok false ->
   fst (member.FindByEmail email w) = Err gorm.ErrRecordNotFound) /\
  snd (member.IsExist email w) = w /\
  snd (member.FindByEmail email w) = w.
Proof.
  unfold member.IsExist, member.FindByEmail, gorm.Count_email, gorm.First. run_M.
  destruct (gorm.failure (db w)) as [e |]; simpl.
  - repeat split; try discriminate. intros (m & H & _). discriminate.
  - pose proof (find_filter_count (gorm.by_email email) (gorm.member (db w))) as Hc.
    destruct (0 <? _)%Z eqn:C; simpl.
    + destruct (proj1 Hc eq_refl) as [m Hm]. rewrite Hm. repeat split; try discriminate.
      intros _. exists m. split; [reflexivity | exact (find_by_email_holds _ _ _ Hm)].
    + destruct (List.find _ _) as [m |] eqn:Hm.
      * assert (Habs : false = true) by (apply Hc; eauto). discriminate Habs.
      * repeat split; try discriminate. intros (m & H & _). discriminate.
Qed.

(** Insert, then look up, for a member as [NewMember] builds it (no id, no
    timestamps): after [Create] has succeeded, [FindByEmail] on its e-mail
    returns the stored row, which has the next identity value as id, the
    clock as both timestamps and the other fields as given; [IsExist]
    answers true; and in a table with distinct ids below the next identity
    value, [FindByID] on the new id returns that row. *)
Theorem Create_then_find (name email phoneNumber password : string) (w : World) :
  let m := model.NewMember name email phoneNumber password in
  fst (member.Create m w) = None ->
  let w' := snd (member.Create m w) in
  let row :=
    {| model.ID := gorm.member_seq (db w); model.Email := email;
       model.Name := name; model.PhoneNumber := phoneNumber;
       model.Password := password;
       model.Base :=
         {| model.CreatedAt := clock w; model.UpdatedAt := clock w;
            model.CreatedBy := None; model.UpdatedBy := None |} |} in
  gorm.member (db w') = (gorm.member (db w) ++ [ row ])%list /\
  fst (member.FindByEmail email w') = Ok row /\
  fst (member.IsExist email w') = Ok true /\
  (table_ok (db w) -> fst (member.FindByID (gorm.member_seq (db w)) w') = Ok row).
Proof.
  cbv zeta. unfold member.Create, gorm.Create. run_M.
  destruct (gorm.failure (db w)) as [e |] eqn:F; [simpl; discriminate |].
  destruct (existsb _ _) eqn:X; [simpl; discriminate |].
  simpl. intros _.
  apply existsb_find_none in X. simpl in X.
  split; [reflexivity |].
  assert (Hfind : forall cond old (row : model.Member),
            List.find cond old = None -> cond row = true ->
            gorm.First {| gorm.member := (old ++ [ row ])%list;
                          gorm.member_seq := (gorm.member_seq (db w) + 1)%N;
                          gorm.failure := None |} cond = Ok row).
  { intros cond old row Hn Hc. unfold gorm.First. simpl. now rewrite (find_app_new _ _ _ Hn Hc). }
  split; [| split].
  - unfold member.FindByEmail. run_M. simpl. apply Hfind; [exact X |].
    unfold gorm.by_email. simpl. apply String.eqb_refl.
  - unfold member.IsExist, gorm.Count_email. run_M. simpl.
    rewrite List.filter_app. simpl. unfold gorm.by_email at 2. simpl.
    rewrite String.eqb_refl. rewrite length_app. simpl.
    replace (0 <? _)%Z with true; [reflexivity |]. symmetry. apply Z.ltb_lt. lia.
  - intros (_ & _ & Hbelow). unfold member.FindByID. run_M. simpl. apply Hfind.
    + apply find_absent. intros x Hx. unfold gorm.by_id. apply N.eqb_neq.
      specialize (Hbelow x Hx). lia.
    + unfold gorm.by_id. simpl. apply N.eqb_refl.
Qed.

End ServicesMore.

(** ** Signup and login: what they write and how they compose *)

Section AuthMore.

Context {mac : jwt.MAC} {hasher : bcrypt.Hasher}.

Lemma Signup_outcome (a : auth.AuthService) (request : auth.SignupRequest) (w : World) :
  (exists e, fst (auth.Signup a request w) = Some e /\ db (snd (auth.Signup a request w)) = db w) \/
  (exists hashed,
     fst (auth.Signup a request w) = None /\
     gorm.failure (db w) = None /\
     List.find (gorm.by_email (auth.SignupEmail request)) (gorm.member (db w)) = None /\
     bcrypt.GenerateFromPassword (auth.SignupPassword request) bcrypt.DefaultCost = Ok hashed /\
     db (snd (auth.Signup a request w)) =
       {| gorm.member :=
            (gorm.member (db w) ++
             [ {| model.ID := gorm.member_seq (db w);
                  model.Email := auth.SignupEmail request;
                  model.Name := auth.Name request;
                  model.PhoneNumber := auth.PhoneNumber request;
                  model.Password := hashed;
                  model.Base :=
                    {| model.CreatedAt := clock w; model.UpdatedAt := clock w;
                       model.CreatedBy := None; model.UpdatedBy := None |} |} ])%list;
          gorm.member_seq := (gorm.member_seq (db w) + 1)%N;
          gorm.failure := None |} /\
     clock (snd (auth.Signup a request w)) = clock w).
Proof.
  unfold auth.Signup, database.WithTransaction, member.IsExist, member.Create,
    gorm.Count_email, gorm.Create.
  run_M.
  destruct (gorm.failure (db w)) as [e |] eqn:Hok; [left; simpl; eauto |].
  simpl. rewrite Hok.
  destruct (0 <? _) eqn:Hcount; [left; simpl; eauto |].
  destruct (bcrypt.GenerateFromPassword _ _) as [hashed | e] eqn:G; [| left; simpl; eauto].
  simpl. rewrite Hok.
  destruct (existsb _ _) eqn:X; [left; simpl; eauto |].
  right. exists hashed. simpl.
  apply existsb_find_none in X. auto 10.
Qed.

(** Signup is all or nothing: whenever [Signup] returns an error, of
    whatever kind, the table is as it was before the call. *)
Theorem Signup_error_writes_nothing (a : auth.AuthService) (request : auth.SignupRequest)
    (w : World) (e : error) :
  fst (auth.Signup a request w) = Some e ->
  db (snd (auth.Signup a request w)) = db w.
Proof.
  intros H. destruct (Signup_outcome a request w) as [(e' & _ & Hdb) | (h & Hnone & _)].
  - exact Hdb.
  - congruence.
Qed.

(** A successful signup appends exactly one row: it has the next identity
    value as id, the name, e-mail and phone number of the request, the
    clock as timestamps, and as password the output of the hash function on
    the password of the request; no earlier row had that e-mail. *)
Theorem Signup_success_writes_one_row (a : auth.AuthService) (request : auth.SignupRequest)
    (w : World) :
  fst (auth.Signup a request w) = None ->
  exists hashed : string,
    bcrypt.GenerateFromPassword (auth.SignupPassword request) bcrypt.DefaultCost = Ok hashed /\
    (forall row, row ∈ gorm.member (db w) -> model.Email row <> auth.SignupEmail request) /\
    db (snd (auth.Signup a request w)) =
      {| gorm.member :=
           (gorm.member (db w) ++
            [ {| model.ID := gorm.member_seq (db w);
                 model.Email := auth.SignupEmail request;
                 model.Name := auth.Name request;
                 model.PhoneNumber := auth.PhoneNumber request;
                 model.Password := hashed;
                 model.Base :=
                   {| model.CreatedAt := clock w; model.UpdatedAt := clock w;
                      model.CreatedBy := None; model.UpdatedBy := None |} |} ])%list;
         gorm.member_seq := (gorm.member_seq (db w) + 1)%N;
         gorm.failure := None |}.
Proof.
  intros H. destruct (Signup_outcome a request w) as [(e & He & _) | (h & _ & _ & Hf & G & Hdb & _)].
  - congruence.
  - exists h. split; [exact G |]. split; [| exact Hdb].
    intros row Hin Hmail.
    pose proof (List.find_none _ _ Hf row (proj1 (list_elem_of_In _ _) Hin)) as Hno.
    unfold gorm.by_email in Hno. apply String.eqb_neq in Hno. contradiction.
Qed.

(** Signup keeps the table well formed, whatever its outcome: e-mails
    stay distinct, ids stay distinct and below the next identity value. *)
Theorem Signup_keeps_table_ok (a : auth.AuthService) (request : auth.SignupRequest)
    (w : World) :
  table_ok (db w) -> table_ok (db (snd (auth.Signup a request w))).
Proof.
  intros (Hmails & Hids & Hbelow).
  destruct (Signup_outcome a request w) as [(e & _ & Hdb) | (h & _ & _ & Hf & _ & Hdb & _)];
    rewrite Hdb; [repeat split; assumption |].
  unfold table_ok. simpl. rewrite !map_app. simpl.
  split; [| split].
  - apply NoDup_app. split; [assumption |]. split; [| apply NoDup_singleton].
    intros x Hx Hx'. apply list_elem_of_singleton in Hx'. subst x.
    apply list_elem_of_fmap in Hx. destruct Hx as (row & Hmail & Hin).
    pose proof (List.find_none _ _ Hf row (proj1 (list_elem_of_In _ _) Hin)) as Hno.
    unfold gorm.by_email in Hno. apply String.eqb_neq in Hno. congruence.
  - apply NoDup_app. split; [assumption |]. split; [| apply NoDup_singleton].
    intros x Hx Hx'. apply list_elem_of_singleton in Hx'. subst x.
    apply list_elem_of_fmap in Hx. destruct Hx as (row & Hid & Hin).
    specialize (Hbelow row Hin). lia.
  - intros m Hm. apply elem_of_app in Hm. destruct Hm as [Hm | Hm].
    + specialize (Hbelow m Hm). lia.
    + apply list_elem_of_singleton in Hm. subst m. simpl. lia.
Qed.

(** Login only reads: whatever the request and the outcome, the table and
    the clock after [Login] are those before it. *)
Theorem Login_writes_nothing (a : auth.AuthService) (request : auth.LoginRequest) (w : World) :
  db (snd (auth.Login a request w)) = db w /\
  clock (snd (auth.Login a request w)) = clock w.
Proof.
  unfold auth.Login, member.FindByEmail, gorm.First. run_M.
  destruct (gorm.failure (db w)) as [e |]; simpl.
  - destruct (errors.Is e gorm.ErrRecordNotFound); split; reflexivity.
  - destruct (List.find _ _) as [m |]; simpl; [| split; reflexivity].
    destruct (bcrypt.CompareHashAndPassword _ _); simpl; [split; reflexivity |].
    destruct (token.Manager_GenerateAccessToken _ _ _ _); simpl; [| split; reflexivity].
    destruct (token.Manager_GenerateRefreshToken _ _ _ _); simpl; split; reflexivity.
Qed.

End AuthMore.

(** ** From signup to login to the profile *)

Section EndToEnd.

Context {mac : jwt.MAC} {decoder : jwt.Decoder} {hasher : bcrypt.Hasher}.
Variable cfg : config.Config.



(** Signup, then login with the same e-mail and password, succeeds when
    the hash function accepts the passwords it has hashed: the two tokens
    are those the token manager issues for the id of the new row and the
    e-mail of the request. *)
Theorem Signup_then_Login (request : auth.SignupRequest) (w : World) :
  hasher_sound hasher ->
  fst (auth.Signup (authService cfg) request w) = None ->
  let w1 := snd (auth.Signup (authService cfg) request w) in
  let login :=
    {| auth.Email := auth.SignupEmail request; auth.Password := auth.SignupPassword request |} in
  exists access refresh : jwt.TokenString,
    fst (auth.Login (authService cfg) login w1) =
      Ok {| auth.AccessToken := access; auth.RefreshToken := refresh |} /\
    token.GenerateAccessToken (token.NewJWTManager cfg) (clock w)
      (pretty (gorm.member_seq (db w))) (auth.SignupEmail request) = Ok access /\
    token.GenerateRefreshToken (token.NewJWTManager cfg) (clock w)
      (pretty (gorm.member_seq (db w))) (auth.SignupEmail request) = Ok refresh.
Proof.
  intros Hsound Hnone. cbv zeta.
  destruct (Signup_outcome (authService cfg) request w)
    as [(e & He & _) | (hashed & _ & _ & Hf & G & Hdb & Hclock)]; [congruence |].
  unfold auth.Login, member.FindByEmail, gorm.First. run_M.
  rewrite Hdb. simpl.
  rewrite (find_app_new _ _ _ Hf) by (unfold gorm.by_email; simpl; apply String.eqb_refl).
  simpl. rewrite (Hsound _ _ _ G). simpl. rewrite Hclock.
  eexists _, _. split; [reflexivity |]. split; reflexivity.
Qed.

(** Storage failures surface as the generic 500: while the connection is
    unusable with an error that is no domain error and not the
    record-not-found sentinel, login, signup and the profile each answer
    with the internal-server-error response. *)
Theorem storage_failure_is_answered_with_500 (a : auth.AuthService) (e : error)
    (w : World) (c : gin.Context) :
  gorm.failure (db w) = Some e ->
  sharedError.As_DomainError e = None ->
  errors.Is e gorm.ErrRecordNotFound = false ->
  (forall request,
     gin.Response (fst (auth.Handler_Login domainErrorResponses a request c w)) =
       Some (500, gin.ErrorBody sharedError.InternalServerError)) /\
  (forall request,
     gin.Response (fst (auth.Handler_Signup domainErrorResponses a request c w)) =
       Some (500, gin.ErrorBody sharedError.InternalServerError)) /\
  (forall id,
     gin.Get sharedContext.MemberIDKey c ≫= member.ParseUint32 = Some id ->
     gin.Response (fst (member.Handler_GetProfile domainErrorResponses c w)) =
       Some (500, gin.ErrorBody sharedError.InternalServerError)).
Proof.
  intros Hfail Has Hnf. split; [| split].
  - intros request.
    unfold auth.Handler_Login, auth.Login, member.FindByEmail, gorm.First. run_M.
    rewrite Hfail. simpl. rewrite Hnf. simpl.
    unfold sharedError.ResolveDomainError. simpl. now rewrite Has.
  - intros request.
    unfold auth.Handler_Signup, auth.Signup, database.WithTransaction. run_M.
    rewrite Hfail. simpl.
    unfold sharedError.ResolveDomainError. now rewrite Has.
  - intros id Hid.
    unfold member.Handler_GetProfile, member.RequireMemberID. rewrite Hid. run_M.
    rewrite (GetProfile_cannot_begin id w e Hfail). simpl.
    unfold sharedError.ResolveDomainError. now rewrite Has.
Qed.


End EndToEnd.

(** ** Masking: what of an address is kept *)

Lemma Split_one_separator (before after : string) (sep : ascii) :
  strings.Count before sep = 0%nat ->
  strings.Count after sep = 0%nat ->
  strings.Split (before ++ String sep after) sep = [ before; after ].
Proof.
  intros Hb Ha. induction before as [| c before IH]; simpl in *.
  - now rewrite Ascii.eqb_refl, (Split_no_sep _ _ Ha).
  - destruct (Ascii.eqb c sep); [discriminate |]. now rewrite (IH Hb).
Qed.

(** Of an address with one ['@'] and a non-empty local part, the mask keeps
    the first byte of the local part and the whole domain, and nothing else:
    the rest of the local part does not show in the result. *)
Theorem MaskEmail_keeps_first_byte_and_domain (c : ascii) (rest domain : string) :
  c <> "@"%char ->
  strings.Count rest "@" = 0%nat ->
  strings.Count domain "@" = 0%nat ->
  logger.MaskEmail (String c (rest ++ String "@" domain)) =
    Some (String c ("***@" ++ domain)).
Proof.
  intros Hc Hrest Hdomain. unfold logger.MaskEmail. simpl String.eqb. cbv iota.
  simpl strings.Split.
  destruct (Ascii.eqb_spec c "@") as [-> | _]; [contradiction |].
  rewrite (Split_one_separator _ _ _ Hrest Hdomain). simpl.
  unfold strings.slice_to. simpl. now destruct rest.
Qed.

Lemma MaskEmail_keeps_first_byte_and_domain_witness :
  ("j"%char <> "@"%char /\
   strings.Count "ohn.doe" "@" = 0%nat /\
   strings.Count "gmail.com" "@" = 0%nat) /\
  logger.MaskEmail (String "j" ("ohn.doe" ++ String "@" "gmail.com")) =
    Some (String "j" ("***@" ++ "gmail.com")).
Proof.
  assert (H1 : "j"%char <> "@"%char) by discriminate.
  assert (H2 : strings.Count "ohn.doe" "@" = 0%nat) by reflexivity.
  assert (H3 : strings.Count "gmail.com" "@" = 0%nat) by reflexivity.
  split; [exact (conj H1 (conj H2 H3)) |].
  exact (MaskEmail_keeps_first_byte_and_domain "j" "ohn.doe" "gmail.com" H1 H2 H3).
Defined.

(** ** The phone number pattern *)

Section Phone.

Lemma MatchString_Void (s : string) : regexp.MatchString regexp.Void s = false.
Proof. induction s; simpl; auto. Qed.

Lemma MatchString_Empty (s : string) :
  regexp.MatchString regexp.Empty s = true <-> s = ""%string.
Proof.
  destruct s; simpl; [tauto |]. rewrite MatchString_Void. split; discriminate.
Qed.

Lemma MatchString_Alt (r1 r2 : regexp.Regexp) (s : string) :
  regexp.MatchString (regexp.Alt r1 r2) s =
    regexp.MatchString r1 s || regexp.MatchString r2 s.
Proof. revert r1 r2. induction s; intros; simpl; auto. Qed.

Lemma MatchString_Lit (c : ascii) (s : string) :
  regexp.MatchString (regexp.Lit c) s = true <-> s = String c "".
Proof.
  destruct s as [| d s]; simpl; [split; discriminate |].
  destruct (Ascii.eqb_spec d c) as [-> | Hne].
  - rewrite MatchString_Empty. split; [intros ->; reflexivity | intros [= ->]; reflexivity].
  - rewrite MatchString_Void. split; [discriminate | intros [= -> _]; contradiction].
Qed.

Lemma MatchString_Range (lo hi : ascii) (s : string) :
  regexp.MatchString (regexp.Range lo hi) s = true <->
  exists c, s = String c "" /\ regexp.in_range lo hi c = true.
Proof.
  destruct s as [| d s]; simpl; [split; [discriminate | intros (c & H & _); discriminate] |].
  destruct (regexp.in_range lo hi d) eqn:R.
  - rewrite MatchString_Empty. split.
    + intros ->. eauto.
    + intros (c & [= -> ->] & _). reflexivity.
  - rewrite MatchString_Void. split; [discriminate |].
    intros (c & [= -> ->] & H). congruence.
Qed.

Lemma MatchString_Opt (r : regexp.Regexp) (s : string) :
  regexp.MatchString (regexp.Opt r) s = true <->
  s = ""%string \/ regexp.MatchString r s = true.
Proof.
  destruct s as [| d s]; simpl; [tauto |].
  split; [auto | intros [H | H]; [discriminate | exact H]].
Qed.

(** A concatenation matches the strings that split into a match of each
    part. *)
Lemma MatchString_Cat (r1 r2 : regexp.Regexp) (s : string) :
  regexp.MatchString (regexp.Cat r1 r2) s = true <->
  exists s1 s2, s = (s1 ++ s2)%string /\
    regexp.MatchString r1 s1 = true /\ regexp.MatchString r2 s2 = true.
Proof.
  revert r1. induction s as [| c s IH]; intros r1.
  - simpl. rewrite andb_true_iff. split.
    + intros [H1 H2]. exists ""%string, ""%string. auto.
    + intros (s1 & s2 & Hs & H1 & H2).
      destruct s1; [| discriminate]. destruct s2; [| discriminate]. auto.
  - simpl. destruct (regexp.nullable r1) eqn:N.
    + rewrite MatchString_Alt, orb_true_iff, IH. split.
      * intros [(s1 & s2 & -> & H1 & H2) | H].
        -- exists (String c s1), s2. auto.
        -- exists ""%string, (String c s). auto.
      * intros (s1 & s2 & Hs & H1 & H2). destruct s1 as [| d s1].
        -- right. change (String c s = s2) in Hs. rewrite <- Hs in H2. exact H2.
        -- change (String c s = String d (s1 ++ s2)%string) in Hs.
           injection Hs as -> ->. left. exists s1, s2. auto.
    + rewrite IH. split.
      * intros (s1 & s2 & -> & H1 & H2). exists (String c s1), s2. auto.
      * intros (s1 & s2 & Hs & H1 & H2). destruct s1 as [| d s1].
        -- simpl in H1. congruence.
        -- change (String c s = String d (s1 ++ s2)%string) in Hs.
           injection Hs as -> ->. exists s1, s2. auto.
Qed.

Lemma MatchString_Repeat_digit (n : nat) (s : string) :
  regexp.MatchString (regexp.Repeat n validator.digit) s = true <->
  String.length s = n /\ all_digits s = true.
Proof.
  revert s. induction n as [| n IH]; intros s; simpl.
  - rewrite MatchString_Empty. split.
    + intros ->. auto.
    + intros [H _]. destruct s; [reflexivity | discriminate].
  - rewrite MatchString_Cat. split.
    + intros (s1 & s2 & -> & H1 & H2).
      apply MatchString_Range in H1. destruct H1 as (c & -> & Hc).
      apply IH in H2. destruct H2 as [Hlen Hall].
      change ((String c "" ++ s2)%string) with (String c s2). simpl.
      unfold is_digit. rewrite Hc, Hall, Hlen. auto.
    + intros [Hlen Hall]. destruct s as [| c s]; [discriminate |].
      simpl in Hlen, Hall. apply andb_true_iff in Hall. destruct Hall as [Hc Hall].
      exists (String c ""), s. split; [reflexivity |]. split.
      * apply MatchString_Range. eauto.
      * apply IH. split; [lia | assumption].
Qed.

(** [ValidatePhone] accepts exactly the strings made of ["01"], one digit,
    an optional hyphen, four digits, an optional hyphen and four digits;
    nothing may precede or follow. *)
Theorem ValidatePhone_accepts_exactly (phone : string) :
  validator.ValidatePhone phone = true <->
  exists (d : ascii) (h1 a h2 b : string),
    phone = ("01" ++ String d (h1 ++ a ++ h2 ++ b))%string /\
    is_digit d = true /\
    (h1 = ""%string \/ h1 = "-"%string) /\
    (String.length a = 4%nat /\ all_digits a = true) /\
    (h2 = ""%string \/ h2 = "-"%string) /\
    (String.length b = 4%nat /\ all_digits b = true).
Proof.
  unfold validator.ValidatePhone, validator.phoneRegex, validator.hyphen.
  assert (Hh : forall h, regexp.MatchString (regexp.Opt (regexp.Lit "-")) h = true <->
                         h = ""%string \/ h = "-"%string).
  { intros h. rewrite MatchString_Opt, MatchString_Lit. tauto. }
  split.
  - intros H.
    apply MatchString_Cat in H. destruct H as (z & s1 & -> & Hz & H).
    apply MatchString_Lit in Hz. subst z.
    apply MatchString_Cat in H. destruct H as (o & s2 & -> & Ho & H).
    apply MatchString_Lit in Ho. subst o.
    apply MatchString_Cat in H. destruct H as (ds & s3 & -> & Hd & H).
    apply MatchString_Range in Hd. destruct Hd as (d & -> & Hd).
    apply MatchString_Cat in H. destruct H as (h1 & s4 & -> & Hh1 & H).
    apply MatchString_Cat in H. destruct H as (a & s5 & -> & Ha & H).
    apply MatchString_Cat in H. destruct H as (h2 & b & -> & Hh2 & Hb).
    exists d, h1, a, h2, b.
    split; [reflexivity |]. split; [exact Hd |].
    split; [now apply Hh |]. split; [now apply MatchString_Repeat_digit |].
    split; [now apply Hh |]. now apply MatchString_Repeat_digit.
  - intros (d & h1 & a & h2 & b & -> & Hd & Hh1 & Ha & Hh2 & Hb).
    apply MatchString_Cat. exists "0"%string, ("1" ++ String d (h1 ++ a ++ h2 ++ b))%string.
    split; [reflexivity |]. split; [now apply MatchString_Lit |].
    apply MatchString_Cat. exists "1"%string, (String d (h1 ++ a ++ h2 ++ b)).
    split; [reflexivity |]. split; [now apply MatchString_Lit |].
    apply MatchString_Cat. exists (String d ""), (h1 ++ a ++ h2 ++ b)%string.
    split; [reflexivity |]. split; [apply MatchString_Range; eauto |].
    apply MatchString_Cat. exists h1, (a ++ h2 ++ b)%string.
    split; [reflexivity |]. split; [now apply Hh |].
    apply MatchString_Cat. exists a, (h2 ++ b)%string.
    split; [reflexivity |]. split; [now apply MatchString_Repeat_digit |].
    apply MatchString_Cat. exists h2, b.
    split; [reflexivity |]. split; [now apply Hh |].
    now apply MatchString_Repeat_digit.
Qed.

End Phone.

(** ** The profile handler without a member id *)

(** When the context carries no usable member id (no key, or a value that
    is no [uint32] in decimal), the profile handler answers 401 with code
    ["AUTH-000"], aborts, and does not touch the database. *)
Theorem GetProfile_without_member_id (c : gin.Context) (w : World) :
  gin.Get sharedContext.MemberIDKey c ≫= member.ParseUint32 = None ->
  let result := member.Handler_GetProfile domainErrorResponses c w in
  gin.Response (fst result) = Some (401, gin.ErrorBody middleware.loginPlease) /\
  gin.IsAborted (fst result) = true /\
  db (snd result) = db w /\
  exists record, logs (snd result) = (logs w ++ [ record ])%list /\
                 slog.level record = slog.LevelError.
Proof.
  intros Hid. cbv zeta. unfold member.Handler_GetProfile, member.RequireMemberID.
  rewrite Hid. run_M. simpl. repeat split. eexists. split; reflexivity.
Qed.

Lemma GetProfile_without_member_id_witness :
  let c := gin.Set_ sharedContext.MemberIDKey "-1" (sample.request "") in
  let w := sample.world sample.db1 sample.t0 in
  gin.Get sharedContext.MemberIDKey c ≫= member.ParseUint32 = None /\
  gin.Response (fst (member.Handler_GetProfile domainErrorResponses c w)) =
    Some (401, gin.ErrorBody middleware.loginPlease).
Proof.
  cbv zeta.
  assert (H : gin.Get sharedContext.MemberIDKey
                (gin.Set_ sharedContext.MemberIDKey "-1" (sample.request ""))
              ≫= member.ParseUint32 = None) by (vm_compute; reflexivity).
  split; [exact H |].
  exact (proj1 (GetProfile_without_member_id _ (sample.world sample.db1 sample.t0) H)).
Defined.

(** ** The further statements at the sample parameters *)

Lemma sample_db1_ok : table_ok sample.db1.
Proof.
  unfold table_ok. simpl. split; [apply NoDup_singleton |]. split; [apply NoDup_singleton |].
  intros m Hm. apply list_elem_of_singleton in Hm. subst m. reflexivity.
Qed.

Lemma sample_hasher_sound : hasher_sound sample.hasher.
Proof.
  intros password cost hashed. simpl.
  destruct (72 <? String.length password)%nat; [discriminate |].
  intros [= <-]. now rewrite String.eqb_refl.
Qed.

Lemma Create_then_find_witness :
  let m := model.NewMember "B" "b@x.com" "010-0000-0000" "hash" in
  let w := sample.world sample.db1 sample.t0 in
  fst (member.Create m w) = None /\
  exists row,
    fst (member.FindByEmail "b@x.com" (snd (member.Create m w))) = Ok row /\
    model.ID row = 2%N.
Proof.
  cbv zeta.
  assert (H : fst (member.Create (model.NewMember "B" "b@x.com" "010-0000-0000" "hash")
                     (sample.world sample.db1 sample.t0)) = None) by (vm_compute; reflexivity).
  split; [exact H |].
  eexists.
  split; [exact (proj1 (proj2 (Create_then_find "B" "b@x.com" "010-0000-0000" "hash"
                                 (sample.world sample.db1 sample.t0) H))) |].
  reflexivity.
Defined.

Lemma Signup_error_writes_nothing_witness :
  let a := authService (mac := sample.mac) sample.cfg in
  let w := sample.world sample.db1 sample.t0 in
  fst (auth.Signup (hasher := sample.hasher) a sample.alice w) =
    Some (errors.Errorf "error " member.ErrMemberAlreadyExists) /\
  db (snd (auth.Signup (hasher := sample.hasher) a sample.alice w)) = db w.
Proof.
  cbv zeta.
  assert (H : fst (auth.Signup (hasher := sample.hasher)
                     (authService (mac := sample.mac) sample.cfg) sample.alice
                     (sample.world sample.db1 sample.t0)) =
              Some (errors.Errorf "error " member.ErrMemberAlreadyExists))
    by (vm_compute; reflexivity).
  split; [exact H |].
  exact (Signup_error_writes_nothing (hasher := sample.hasher) _ _ _ _ H).
Defined.

Lemma Signup_success_writes_one_row_witness :
  let a := authService (mac := sample.mac) sample.cfg in
  let w := sample.world sample.empty_db sample.t0 in
  fst (auth.Signup (hasher := sample.hasher) a sample.alice w) = None /\
  exists hashed : string,
    bcrypt.GenerateFromPassword (Hasher := sample.hasher)
      (auth.SignupPassword sample.alice) bcrypt.DefaultCost = Ok hashed /\
    (forall row, row ∈ gorm.member (db w) -> model.Email row <> auth.SignupEmail sample.alice) /\
    db (snd (auth.Signup (hasher := sample.hasher) a sample.alice w)) =
      {| gorm.member :=
           (gorm.member (db w) ++
            [ {| model.ID := gorm.member_seq (db w);
                 model.Email := auth.SignupEmail sample.alice;
                 model.Name := auth.Name sample.alice;
                 model.PhoneNumber := auth.PhoneNumber sample.alice;
                 model.Password := hashed;
                 model.Base :=
                   {| model.CreatedAt := clock w; model.UpdatedAt := clock w;
                      model.CreatedBy := None; model.UpdatedBy := None |} |} ])%list;
         gorm.member_seq := (gorm.member_seq (db w) + 1)%N;
         gorm.failure := None |}.
Proof.
  cbv zeta.
  assert (H : fst (auth.Signup (hasher := sample.hasher)
                     (authService (mac := sample.mac) sample.cfg) sample.alice
                     (sample.world sample.empty_db sample.t0)) = None)
    by (vm_compute; reflexivity).
  split; [exact H |].
  exact (Signup_success_writes_one_row (hasher := sample.hasher) _ _ _ H).
Defined.

Lemma Signup_keeps_table_ok_witness :
  let a := authService (mac := sample.mac) sample.cfg in
  let second :=
    {| auth.Name := "B"; auth.SignupEmail := "b@x.com";
       auth.PhoneNumber := "010-9876-5432"; auth.SignupPassword := "password456" |} in
  table_ok sample.db1 /\
  table_ok (db (snd (auth.Signup (hasher := sample.hasher) a second
                       (sample.world sample.db1 sample.t0)))).
Proof.
  cbv zeta. split; [exact sample_db1_ok |].
  exact (Signup_keeps_table_ok (hasher := sample.hasher) _ _
           (sample.world sample.db1 sample.t0) sample_db1_ok).
Defined.

Lemma Signup_then_Login_witness :
  let a := authService (mac := sample.mac) sample.cfg in
  let w := sample.world sample.empty_db sample.t0 in
  (hasher_sound sample.hasher /\
   fst (auth.Signup (hasher := sample.hasher) a sample.alice w) = None) /\
  exists access refresh : jwt.TokenString,
    fst (auth.Login (hasher := sample.hasher) a
           {| auth.Email := auth.SignupEmail sample.alice;
              auth.Password := auth.SignupPassword sample.alice |}
           (snd (auth.Signup (hasher := sample.hasher) a sample.alice w))) =
      Ok {| auth.AccessToken := access; auth.RefreshToken := refresh |} /\
    token.GenerateAccessToken (mac := sample.mac) (token.NewJWTManager sample.cfg) (clock w)
      (pretty (gorm.member_seq (db w))) (auth.SignupEmail sample.alice) = Ok access /\
    token.GenerateRefreshToken (mac := sample.mac) (token.NewJWTManager sample.cfg) (clock w)
      (pretty (gorm.member_seq (db w))) (auth.SignupEmail sample.alice) = Ok refresh.
Proof.
  cbv zeta.
  assert (H : fst (auth.Signup (hasher := sample.hasher)
                     (authService (mac := sample.mac) sample.cfg) sample.alice
                     (sample.world sample.empty_db sample.t0)) = None)
    by (vm_compute; reflexivity).
  split; [exact (conj sample_hasher_sound H) |].
  exact (Signup_then_Login (mac := sample.mac) (hasher := sample.hasher) sample.cfg
           sample.alice (sample.world sample.empty_db sample.t0) sample_hasher_sound H).
Defined.

Lemma storage_failure_is_answered_with_500_witness :
  let e := errors.New "driver: bad connection" in
  let w := sample.world {| gorm.member := []; gorm.member_seq := 1; gorm.failure := Some e |}
             sample.t0 in
  (gorm.failure (db w) = Some e /\
   sharedError.As_DomainError e = None /\
   errors.Is e gorm.ErrRecordNotFound = false) /\
  forall request,
    gin.Response
      (fst (auth.Handler_Login (hasher := sample.hasher) domainErrorResponses
              (authService (mac := sample.mac) sample.cfg) request (sample.request "") w)) =
      Some (500, gin.ErrorBody sharedError.InternalServerError).
Proof.
  cbv zeta.
  pose (e := errors.New "driver: bad connection").
  pose (w := sample.world {| gorm.member := []; gorm.member_seq := 1; gorm.failure := Some e |}
               sample.t0).
  assert (H1 : gorm.failure (db w) = Some e) by reflexivity.
  assert (H2 : sharedError.As_DomainError e = None) by reflexivity.
  assert (H3 : errors.Is e gorm.ErrRecordNotFound = false) by reflexivity.
  split; [exact (conj H1 (conj H2 H3)) |].
  exact (proj1 (storage_failure_is_answered_with_500 (hasher := sample.hasher)
                  (authService (mac := sample.mac) sample.cfg) e w (sample.request "")
                  H1 H2 H3)).
Defined.


Lemma ValidatePhone_accepts_exactly_witness :
  validator.ValidatePhone "010-1234-5678" = true /\
  exists (d : ascii) (h1 a h2 b : string),
    "010-1234-5678"%string = ("01" ++ String d (h1 ++ a ++ h2 ++ b))%string /\
    is_digit d = true /\
    (h1 = ""%string \/ h1 = "-"%string) /\
    (String.length a = 4%nat /\ all_digits a = true) /\
    (h2 = ""%string \/ h2 = "-"%string) /\
    (String.length b = 4%nat /\ all_digits b = true).
Proof.
  assert (H : validator.ValidatePhone "010-1234-5678" = true) by reflexivity.
  split; [exact H |].
  exact (proj1 (ValidatePhone_accepts_exactly "010-1234-5678") H).
Defined.

(** ** Validation of the configuration, and the migration guard *)

(** [Validate] accepts exactly the configurations with an application port
    in 1..65535, a non-empty database host, service, user and password, and
    a JWT secret of at least 32 bytes.  An empty secret is reported twice:
    as missing and as too short. *)
Theorem Validate_accepts_exactly (c : config_full.Config) :
  (config_full.Validate c = None <->
   (1 <= config.Port (config_full.App c) <= 65535)%Z /\
   config_full.Host (config_full.Database c) <> ""%string /\
   config_full.Service (config_full.Database c) <> ""%string /\
   config_full.User (config_full.Database c) <> ""%string /\
   config_full.Password (config_full.Database c) <> ""%string /\
   (32 <= String.length (config.Secret (config_full.JWT c)))%nat) /\
  (config.Secret (config_full.JWT c) = ""%string ->
   exists before,
     config_full.Validate_errors c =
       (before ++ [ config_full.secretRequired; config_full.secretTooShort ])%list).
Proof.
  split.
  - unfold config_full.Validate, config_full.Validate_errors.
    destruct (orb _ _) eqn:E1;
      destruct (String.eqb (config_full.Host _) "") eqn:E2;
      destruct (String.eqb (config_full.Service _) "") eqn:E3;
      destruct (String.eqb (config_full.User _) "") eqn:E4;
      destruct (String.eqb (config_full.Password _) "") eqn:E5;
      destruct (String.eqb (config.Secret _) "") eqn:E6;
      destruct (Nat.ltb _ 32) eqn:E7;
      cbn [app length Nat.ltb Nat.leb];
      (split; [intros H; try discriminate H | intros (H1 & H2 & H3 & H4 & H5 & H6)]);
      rewrite ?orb_true_iff, ?orb_false_iff, ?Z.ltb_lt, ?Z.ltb_ge,
        ?String.eqb_eq, ?String.eqb_neq, ?Nat.ltb_lt, ?Nat.ltb_ge in *;
      try contradiction; try lia; try (repeat split; (lia || assumption)).
    rewrite E6 in H6. simpl in H6. lia.
  - intros Hsecret. unfold config_full.Validate_errors. rewrite Hsecret. simpl.
    rewrite <- !app_assoc. simpl. eexists. reflexivity.
Qed.

(** The migration guard: with auto-migration off, [Migrate] returns nil and
    leaves the database as it was; with auto-migration on in the
    environments ["prod"] and ["production"], it returns an error and leaves
    the database as it was.  In neither case is a statement sent, whatever
    the dropping and creating steps would do. *)
Theorem Migrate_guard (drop_tables : M unit) (runAutoMigrate : M (option error))
    (cfg : config_full.Config) (w : World) :
  let result := migration.Migrate drop_tables runAutoMigrate cfg w in
  (config_full.IsAutoMigrate (config_full.Database cfg) = false ->
   fst result = None /\ db (snd result) = db w) /\
  (config_full.IsAutoMigrate (config_full.Database cfg) = true ->
   config.Env (config_full.App cfg) = "prod"%string \/
   config.Env (config_full.App cfg) = "production"%string ->
   fst result = Some (errors.New migration.blocked) /\ db (snd result) = db w).
Proof.
  cbv zeta. unfold migration.Migrate. split.
  - intros ->. simpl. run_M. split; reflexivity.
  - intros -> Henv. simpl.
    assert (E : String.eqb (config.Env (config_full.App cfg)) "prod" ||
                String.eqb (config.Env (config_full.App cfg)) "production" = true).
    { destruct Henv as [-> | ->]; reflexivity. }
    rewrite E. run_M. split; reflexivity.
Qed.

Lemma IsExist_agrees_with_FindByEmail_witness :
  let w := sample.world sample.db1 sample.t0 in
  fst (member.IsExist "a@x.com" w) = Ok true /\
  exists m, fst (member.FindByEmail "a@x.com" w) = Ok m /\ model.Email m = "a@x.com"%string.
Proof.
  cbv zeta.
  assert (H : fst (member.IsExist "a@x.com" (sample.world sample.db1 sample.t0)) = Ok true)
    by (vm_compute; reflexivity).
  split; [exact H |].
  exact (proj1 (proj1 (IsExist_agrees_with_FindByEmail "a@x.com"
                         (sample.world sample.db1 sample.t0))) H).
Defined.

Lemma Validate_accepts_exactly_witness :
  let c :=
    {| config_full.App := {| config.Name := "api"; config.Env := "local"; config.Port := 8080 |};
       config_full.Database :=
         {| config_full.Host := "localhost"; config_full.Port := 1521;
            config_full.Service := "XEPDB1"; config_full.User := "app";
            config_full.Password := "secret"; config_full.IsAutoMigrate := false |};
       config_full.JWT :=
         {| config.Secret := "0123456789abcdef0123456789abcdef";
            config.Expiry := 24 * time.Hour; config.RefreshExpiry := 168 * time.Hour |} |} in
  ((1 <= config.Port (config_full.App c) <= 65535)%Z /\
   config_full.Host (config_full.Database c) <> ""%string /\
   config_full.Service (config_full.Database c) <> ""%string /\
   config_full.User (config_full.Database c) <> ""%string /\
   config_full.Password (config_full.Database c) <> ""%string /\
   (32 <= String.length (config.Secret (config_full.JWT c)))%nat) /\
  config_full.Validate c = None.
Proof.
  cbv zeta.
  pose (c :=
    {| config_full.App := {| config.Name := "api"; config.Env := "local"; config.Port := 8080 |};
       config_full.Database :=
         {| config_full.Host := "localhost"; config_full.Port := 1521;
            config_full.Service := "XEPDB1"; config_full.User := "app";
            config_full.Password := "secret"; config_full.IsAutoMigrate := false |};
       config_full.JWT :=
         {| config.Secret := "0123456789abcdef0123456789abcdef";
            config.Expiry := 24 * time.Hour; config.RefreshExpiry := 168 * time.Hour |} |}).
  assert (H : (1 <= config.Port (config_full.App c) <= 65535)%Z /\
              config_full.Host (config_full.Database c) <> ""%string /\
              config_full.Service (config_full.Database c) <> ""%string /\
              config_full.User (config_full.Database c) <> ""%string /\
              config_full.Password (config_full.Database c) <> ""%string /\
              (32 <= String.length (config.Secret (config_full.JWT c)))%nat).
  { simpl. repeat split; try discriminate; lia. }
  split; [exact H |].
  exact (proj2 (proj1 (Validate_accepts_exactly c)) H).
Defined.

Lemma Migrate_guard_witness :
  let cfg :=
    {| config_full.App := {| config.Name := "api"; config.Env := "production"; config.Port := 8080 |};
       config_full.Database :=
         {| config_full.Host := "db"; config_full.Port := 1521;
            config_full.Service := "XEPDB1"; config_full.User := "app";
            config_full.Password := "secret"; config_full.IsAutoMigrate := true |};
       config_full.JWT := config.JWT sample.cfg |} in
  let drop_tables := put_db sample.empty_db in
  let runAutoMigrate : M (option error) := mret None in
  let w := sample.world sample.db1 sample.t0 in
  (config_full.IsAutoMigrate (config_full.Database cfg) = true /\
   config.Env (config_full.App cfg) = "production"%string) /\
  fst (migration.Migrate drop_tables runAutoMigrate cfg w) = Some (errors.New migration.blocked) /\
  db (snd (migration.Migrate drop_tables runAutoMigrate cfg w)) = db w.
Proof.
  cbv zeta.
  pose (cfg :=
    {| config_full.App := {| config.Name := "api"; config.Env := "production"; config.Port := 8080 |};
       config_full.Database :=
         {| config_full.Host := "db"; config_full.Port := 1521;
            config_full.Service := "XEPDB1"; config_full.User := "app";
            config_full.Password := "secret"; config_full.IsAutoMigrate := true |};
       config_full.JWT := config.JWT sample.cfg |}).
  assert (H1 : config_full.IsAutoMigrate (config_full.Database cfg) = true) by reflexivity.
  assert (H2 : config.Env (config_full.App cfg) = "production"%string) by reflexivity.
  split; [exact (conj H1 H2) |].
  exact (proj2 (Migrate_guard (put_db sample.empty_db) (mret None) cfg
                  (sample.world sample.db1 sample.t0)) H1 (or_intror H2)).
Defined.
